(** * Document forensics engine (backend/image_hash_engine.py)

    A shallow embedding of [ImageForensicsEngine]: the file validator, the
    SHA-256 layer, the renderer with its backend fallback, the pHash layer
    with its nearest-neighbour scan, the risk classifier and the merge.

    Conventions.
    - A Python [dict] whose iteration order is observed (the pHash archive)
      is an insertion-ordered association list; the SHA-256 archive, only
      ever looked up and assigned, is a [gmap].
    - An [imagehash.ImageHash] of 8x8 bits is a [Z] below [2^64].
    - Everything the engine asks of the operating system or of a library
      (os.path, hashlib, uuid, fitz, pdf2image, PIL, imagehash) is a field
      of [World], the snapshot one call runs against.
    - [similarity_percent] is kept in hundredths of a percent: for an
      integer distance in 0..64 the floats [(64 - d) / 64] and its product
      with 100 are exact, and [round(x, 2)] rounds the exact value half to
      even, so the fixed-point value is the float's value. *)

From Stdlib Require Import ZArith QArith Lia Lqa Ascii String DecimalString.
From stdpp Require Import gmap strings list fin_maps.

Local Open Scope string_scope.
Local Open Scope Z_scope.

(** ** Python helpers *)

(** A call that either returns or raises (the message is what [print] logs). *)
Inductive outcome (A : Type) : Type :=
  | Returned (a : A)
  | Raised (msg : string).
Arguments Returned {A} a.
Arguments Raised {A} msg.

(** [try: return f() except Exception: return None] *)
Definition try_or_None {A : Type} (o : outcome A) : option A :=
  match o with
  | Returned a => Some a
  | Raised _ => None
  end.

(** [round(x, 2)] on an exactly represented [x], in hundredths: round half
    to even. *)
Definition py_round_2 (x : Q) : Z :=
  let n := (100 * Qnum x)%Z in
  let d := Z.pos (Qden x) in
  let fl := (n / d)%Z in
  let r := (n mod d)%Z in
  if (2 * r <? d)%Z then fl
  else if (d <? 2 * r)%Z then (fl + 1)%Z
  else if Z.even fl then fl else (fl + 1)%Z.

(** ** 64-bit fingerprints *)

Definition hash_bits : Z := 64.

Definition wrap64 (x : Z) : Z := Z.land x (Z.ones hash_bits).

(** [numpy.count_nonzero] over the 64 bit positions. *)
Definition popcount64 (x : Z) : Z :=
  Z.of_nat (length (filter (fun i => Is_true (Z.testbit x i)) (seqZ 0 hash_bits))).

(** [_hamming]: [abs(h1 - h2)], where [ImageHash.__sub__] counts the
    positions at which the two bit arrays differ. *)
Definition _hamming (h1 h2 : Z) : Z := Z.abs (popcount64 (Z.lxor h1 h2)).

(** ** Risk classifier *)

Definition _risk_from_hamming (distance : Z) : Z * string :=
  if distance <=? 3 then (95, "Critical Similarity — Likely Duplicate (pHash)")
  else if distance <=? 8 then (75, "High Similarity — Possible Edited Reuse (pHash)")
  else if distance <=? 15 then (40, "Moderate Similarity — Inconclusive (pHash)")
  else (5, "Unique Document (pHash)").

(** [round(((64 - distance) / 64) * 100, 2)], in hundredths of a percent. *)
Definition similarity (distance : Z) : Z :=
  py_round_2 (((inject_Z 64 - inject_Z distance) / inject_Z 64) * inject_Z 100)%Q.


(** ** Paths (posixpath) *)

Definition is_sep (c : ascii) : bool := Ascii.eqb c "/"%char.
Definition is_dot (c : ascii) : bool := Ascii.eqb c "."%char.

(** [os.path.basename]: what follows the last separator. [acc] is the
    suffix after the last separator met so far. *)
Fixpoint basename_from (acc p : string) : string :=
  match p with
  | EmptyString => acc
  | String c rest => if is_sep c then basename_from rest rest else basename_from acc rest
  end.

Definition os_path_basename (p : string) : string := basename_from p p.

(** Splits at the last dot: what precedes it, and the rest from the dot on. *)
Fixpoint rsplit_dot (s : string) : option (string * string) :=
  match s with
  | EmptyString => None
  | String c rest =>
      match rsplit_dot rest with
      | Some (pre, ext) => Some (String c pre, ext)
      | None => if is_dot c then Some (EmptyString, s) else None
      end
  end.

Fixpoint all_dots (s : string) : bool :=
  match s with
  | EmptyString => true
  | String c rest => is_dot c && all_dots rest
  end.

(** [os.path.splitext(p)[1]]: the extension starts at the last dot of the
    last path component, unless only dots precede it there. *)
Definition os_path_splitext_ext (p : string) : string :=
  match rsplit_dot (os_path_basename p) with
  | Some (pre, ext) => if all_dots pre then EmptyString else ext
  | None => EmptyString
  end.

Definition ascii_lower (c : ascii) : ascii :=
  let n := nat_of_ascii c in
  if ((65 <=? n) && (n <=? 90))%nat then ascii_of_nat (n + 32) else c.

(** [str.lower], on the ASCII letters (no other letter lowers to one of a
    supported extension). *)
Fixpoint str_lower (s : string) : string :=
  match s with
  | EmptyString => EmptyString
  | String c rest => String (ascii_lower c) (str_lower rest)
  end.

Definition SUPPORTED_IMAGE_EXTS : list string :=
  [".png"; ".jpg"; ".jpeg"; ".bmp"; ".tiff"; ".tif"; ".webp"; ".gif"].

(** ** The outside world of one call *)

(** A PIL image: mode, size and raw pixel data. *)
Record Image := {
  img_mode : string;
  img_width : Z;
  img_height : Z;
  img_data : list Byte.byte;
}.

(** A page of a [fitz] document: its rotation metadata, and what
    [get_pixmap(matrix=Matrix(2, 2), colorspace=csGRAY)] followed by
    [Image.frombytes("L", ...)] gives. *)
Record FitzPage := {
  page_rotation : Z;
  page_render_gray_2x : outcome Image;
}.

Record World := {
  (* os.path, open *)
  os_path_exists : string -> bool;
  os_path_getsize : string -> Z;
  os_path_abspath : string -> string;
  read_bytes : string -> list Byte.byte;
  (* hashlib.sha256(...).hexdigest() of a whole message *)
  sha256_hexdigest : list Byte.byte -> string;
  (* str(uuid.uuid4()) as drawn by this call *)
  uuid4 : string;
  (* the import probes at module load *)
  FITZ_SUPPORT : bool;
  PDF2IMAGE_SUPPORT : bool;
  (* fitz.open: the pages of the document *)
  fitz_open : string -> outcome (list FitzPage);
  (* pdf2image.convert_from_path(path, dpi=200, first_page=1, last_page=1,
     fmt="png", strict=False[, poppler_path=...]) *)
  convert_from_path : string -> option string -> outcome (list Image);
  (* PIL *)
  Image_open : string -> outcome Image;
  Image_convert_L : Image -> outcome Image;
  Image_rotate_expand : Z -> Image -> Image;
  Image_resize : Z * Z -> Image -> Image;
  (* imagehash.phash, as the integer of its 64 bits *)
  imagehash_phash : Image -> Z;
}.

(** ** Reports *)

Module Finding.
Record t := {
  matched_file : option string;
  similarity_percent : Z;
  fraud_risk_score : Z;
  classification : string;
  fraud_detected : bool;
  hamming_distance : option Z;
}.
End Finding.

Module Report.
Record t := {
  uploaded_file : string;
  matched_file : option string;
  hamming_distance : option Z;
  similarity_percent : Z;
  fraud_risk_score : Z;
  classification : string;
  fraud_detected : bool;
  archive_size : Z;
  method : string;
  layers_sha256 : option Finding.t;
  layers_phash : option Finding.t;
}.
End Report.

Module Comparison.
Record t := {
  hash_1 : Z;
  hash_2 : Z;
  hamming_distance : Z;
  similarity_percent : Z;
  fraud_risk_score : Z;
  classification : string;
  fraud_detected : bool;
}.
End Comparison.

(** ** The engine *)

Record ImageForensicsEngine := {
  threshold : Z;
  poppler_path : option string;
  (* id -> (display_name, hash), in insertion order *)
  _phash_archive : list (string * (string * Z));
  (* sha256_hex -> display_name *)
  _sha256_archive : gmap string string;
}.

Definition default_threshold : Z := 10.

(** [__init__(threshold=10, poppler_path=None)]; [platform_poppler] is what
    [_get_poppler_path()] finds on this machine. *)
Definition __init__ (threshold_arg : option Z) (poppler_path_arg : option string)
    (platform_poppler : option string) : ImageForensicsEngine :=
  {| threshold := default default_threshold threshold_arg;
     poppler_path :=
       match poppler_path_arg with
       | Some p => if String.eqb p EmptyString then platform_poppler else Some p
       | None => platform_poppler
       end;
     _phash_archive := [];
     _sha256_archive := ∅ |}.

(** [d[k] = v] on an insertion-ordered dict. *)
Fixpoint dict_set {V : Type} (k : string) (v : V) (d : list (string * V)) : list (string * V) :=
  match d with
  | [] => [(k, v)]
  | (k', v') :: rest =>
      if String.eqb k k' then (k', v) :: rest else (k', v') :: dict_set k v rest
  end.

Definition with_sha256_archive (self : ImageForensicsEngine) (a : gmap string string)
    : ImageForensicsEngine :=
  {| threshold := threshold self; poppler_path := poppler_path self;
     _phash_archive := _phash_archive self; _sha256_archive := a |}.

Definition with_phash_archive (self : ImageForensicsEngine)
    (a : list (string * (string * Z))) : ImageForensicsEngine :=
  {| threshold := threshold self; poppler_path := poppler_path self;
     _phash_archive := a; _sha256_archive := _sha256_archive self |}.

(** ** Private helpers *)

(** [str(n)] for an integer. *)
Definition str_of_int (n : Z) : string :=
  DecimalString.NilZero.string_of_int (Z.to_int n).

Definition size_limit : Z := 50 * 1024 * 1024.

(** [_validate_file]: [(ok, error_message)]. *)
Definition _validate_file (w : World) (file_path : string) : bool * string :=
  if negb (os_path_exists w file_path) then (false, "File not found on disk")
  else
    let size := os_path_getsize w file_path in
    if size =? 0 then (false, "Empty file (0 bytes) — rejected")
    else if size_limit <? size then
      (false, "File too large (" +:+ str_of_int (size / 1024 / 1024) +:+ " MB > 50 MB limit)")
    else (true, "").

(** [iter(lambda: f.read(n), b"")]: the successive reads up to the first
    empty one. *)
Fixpoint read_chunks (fuel : nat) (n : nat) (data : list Byte.byte) : list (list Byte.byte) :=
  match fuel with
  | O => []
  | S fuel' =>
      match take n data with
      | [] => []
      | chunk => chunk :: read_chunks fuel' n (drop n data)
      end
  end.

Definition chunk_size : nat := Z.to_nat 65536.

(** [_file_sha256]: the hash object is fed chunk by chunk; what it has
    absorbed is the message so far. *)
Definition _file_sha256 (w : World) (file_path : string) : string :=
  let data := read_bytes w file_path in
  let h := fold_left (fun absorbed chunk => (absorbed ++ chunk)%list)
                     (read_chunks (S (length data)) chunk_size data) [] in
  sha256_hexdigest w h.

(** The body of a [try] block inside a function: it either makes the
    function return, or control falls through to the next statement (also
    when the block raised and the handler only logged). *)
Inductive flow (A : Type) : Type :=
  | Return (a : A)
  | FallThrough.
Arguments Return {A} a.
Arguments FallThrough {A}.

Definition fitz_block (w : World) (file_path : string) : flow (option Image) :=
  match fitz_open w file_path with
  | Raised _ => FallThrough
  | Returned doc =>
      match doc with
      | [] => Return None
      | page :: _ =>
          let rotation := page_rotation page in
          match page_render_gray_2x page with
          | Raised _ => FallThrough
          | Returned img =>
              Return (Some (if (rotation =? 90) || (rotation =? 180) || (rotation =? 270)
                            then Image_rotate_expand w (- rotation) img
                            else img))
          end
      end
  end.

Definition pdf2image_block (w : World) (self : ImageForensicsEngine) (file_path : string)
    : flow (option Image) :=
  match convert_from_path w (os_path_abspath w file_path) (poppler_path self) with
  | Raised _ => FallThrough
  | Returned pages =>
      match pages with
      | [] => FallThrough
      | first :: _ =>
          match Image_convert_L w first with
          | Raised _ => FallThrough
          | Returned img => Return (Some img)
          end
      end
  end.

(** [_pdf_to_pil]: first page of a PDF as a PIL image. *)
Definition _pdf_to_pil (w : World) (self : ImageForensicsEngine) (file_path : string)
    : option Image :=
  match (if FITZ_SUPPORT w then fitz_block w file_path else FallThrough) with
  | Return r => r
  | FallThrough =>
      match (if PDF2IMAGE_SUPPORT w then pdf2image_block w self file_path else FallThrough) with
      | Return r => r
      | FallThrough => None
      end
  end.

(** [Image.open(file_path).convert("L")] *)
Definition open_gray (w : World) (file_path : string) : outcome Image :=
  match Image_open w file_path with
  | Raised m => Raised m
  | Returned img => Image_convert_L w img
  end.

(** [_load_as_pil]: load the file as a PIL image regardless of type. *)
Definition _load_as_pil (w : World) (self : ImageForensicsEngine) (file_path : string)
    : option Image :=
  let ext := str_lower (os_path_splitext_ext file_path) in
  if String.eqb ext ".pdf" then _pdf_to_pil w self file_path
  else if existsb (String.eqb ext) SUPPORTED_IMAGE_EXTS then try_or_None (open_gray w file_path)
  else try_or_None (open_gray w file_path).

(** [_generate_phash]: 64-bit perceptual hash of a PIL image. [wrap64]
    records that an [ImageHash] of [phash] has exactly 64 bits. *)
Definition _generate_phash (w : World) (img : Image) : Z :=
  wrap64 (imagehash_phash w (Image_resize w (256, 256) img)).

(** ** Direct comparison of two files *)

Definition analyze_files (w : World) (self : ImageForensicsEngine)
    (file1_path file2_path : string) : outcome Comparison.t * ImageForensicsEngine :=
  let img1 := _load_as_pil w self file1_path in
  let img2 := _load_as_pil w self file2_path in
  match img1, img2 with
  | Some img1, Some img2 =>
      let h1 := _generate_phash w img1 in
      let h2 := _generate_phash w img2 in
      let distance := _hamming h1 h2 in
      let '(risk_score, classification) := _risk_from_hamming distance in
      (Returned {| Comparison.hash_1 := h1; Comparison.hash_2 := h2;
                   Comparison.hamming_distance := distance;
                   Comparison.similarity_percent := similarity distance;
                   Comparison.fraud_risk_score := risk_score;
                   Comparison.classification := classification;
                   Comparison.fraud_detected := distance <=? threshold self |},
       self)
  | _, _ => (Raised "Could not render one or both files for comparison.", self)
  end.

(** ** Archive-based analysis *)

(** The three variables of the nearest-neighbour loop. [best_name] is
    unbound until the first improvement. *)
Record scan_state := {
  best_id : option string;
  best_distance : Z;
  best_name : option string;
}.

Definition scan_init : scan_state :=
  {| best_id := None; best_distance := 64; best_name := None |}.

(** One iteration of [for aid, (aname, ahash) in self._phash_archive.items()]. *)
Definition scan_step (new_hash : Z) (st : scan_state) (item : string * (string * Z))
    : scan_state :=
  let '(aid, (aname, ahash)) := item in
  let d := _hamming new_hash ahash in
  if d <? best_distance st
  then {| best_id := Some aid; best_distance := d; best_name := Some aname |}
  else st.

Definition scan_archive (new_hash : Z) (archive : list (string * (string * Z))) : scan_state :=
  fold_left (scan_step new_hash) archive scan_init.

(** The pHash layer's finding, from where the loop ended. *)
Definition phash_finding (self : ImageForensicsEngine) (st : scan_state) : Finding.t :=
  match best_id st with
  | Some _ =>
      let '(risk_score, classification) := _risk_from_hamming (best_distance st) in
      {| Finding.matched_file := best_name st;
         Finding.similarity_percent := similarity (best_distance st);
         Finding.fraud_risk_score := risk_score;
         Finding.classification := classification;
         Finding.fraud_detected := best_distance st <=? threshold self;
         Finding.hamming_distance := Some (best_distance st) |}
  | None =>
      {| Finding.matched_file := None;
         Finding.similarity_percent := 0;
         Finding.fraud_risk_score := 5;
         Finding.classification := "First Upload — No Reference";
         Finding.fraud_detected := false;
         Finding.hamming_distance := None |}
  end.

(** The SHA-256 layer's finding on a hit. *)
Definition sha_finding (matched_name : string) : Finding.t :=
  {| Finding.matched_file := Some matched_name;
     Finding.similarity_percent := 10000;
     Finding.fraud_risk_score := 95;
     Finding.classification := "Critical — Exact Byte Duplicate (SHA-256)";
     Finding.fraud_detected := true;
     Finding.hamming_distance := Some 0 |}.

(** [max(l, key=key)]: the first element whose key is largest. *)
Fixpoint py_max_from {A : Type} (key : A -> Z) (best : A) (l : list A) : A :=
  match l with
  | [] => best
  | x :: rest => py_max_from key (if key best <? key x then x else best) rest
  end.

Definition py_max {A : Type} (key : A -> Z) (l : list A) : option A :=
  match l with
  | [] => None
  | x :: rest => Some (py_max_from key x rest)
  end.

(** The merge at the end of [analyze_against_archive]: take the highest
    risk result. *)
Definition merge (basename : string) (size : Z) (render_method : string)
    (sha_result phash_result : option Finding.t) : Report.t :=
  let candidates := omap id [sha_result; phash_result] in
  match py_max Finding.fraud_risk_score candidates with
  | None =>
      {| Report.uploaded_file := basename; Report.matched_file := None;
         Report.hamming_distance := None; Report.similarity_percent := 0;
         Report.fraud_risk_score := 10;
         Report.classification := "Analysis Incomplete — Could Not Render Document";
         Report.fraud_detected := false;
         Report.archive_size := size;
         Report.method := "failed";
         Report.layers_sha256 := None; Report.layers_phash := None |}
  | Some best =>
      {| Report.uploaded_file := basename;
         Report.matched_file := Finding.matched_file best;
         Report.hamming_distance := Finding.hamming_distance best;
         Report.similarity_percent := Finding.similarity_percent best;
         Report.fraud_risk_score := Finding.fraud_risk_score best;
         Report.classification := Finding.classification best;
         Report.fraud_detected := Finding.fraud_detected best;
         Report.archive_size := size;
         Report.method := render_method;
         Report.layers_sha256 := sha_result; Report.layers_phash := phash_result |}
  end.

Definition validation_report (self : ImageForensicsEngine) (basename err : string) : Report.t :=
  {| Report.uploaded_file := basename; Report.matched_file := None;
     Report.hamming_distance := None; Report.similarity_percent := 0;
     Report.fraud_risk_score := 0;
     Report.classification := "Validation Failed — " +:+ err;
     Report.fraud_detected := false;
     Report.archive_size := Z.of_nat (length (_phash_archive self));
     Report.method := "validation_error";
     Report.layers_sha256 := None; Report.layers_phash := None |}.

(** Layer 1: look the digest up, then always record the submitter. *)
Definition sha256_layer (w : World) (self : ImageForensicsEngine) (file_path : string)
    : option Finding.t * ImageForensicsEngine :=
  let basename := os_path_basename file_path in
  let sha := _file_sha256 w file_path in
  let sha_result :=
    match _sha256_archive self !! sha with
    | Some matched_name => Some (sha_finding matched_name)
    | None => None
    end in
  (sha_result, with_sha256_archive self (<[sha := basename]> (_sha256_archive self))).

Definition render_method_of (w : World) : string :=
  if FITZ_SUPPORT w then "fitz" else if PDF2IMAGE_SUPPORT w then "pdf2image" else "pil".

(** Layer 2: render, hash, scan the archive, then add to it. *)
Definition phash_layer (w : World) (self : ImageForensicsEngine) (file_path : string)
    : option Finding.t * string * ImageForensicsEngine :=
  let basename := os_path_basename file_path in
  match _load_as_pil w self file_path with
  | Some img =>
      let render_method := render_method_of w in
      let new_hash := _generate_phash w img in
      let archive_id := uuid4 w in
      let st := scan_archive new_hash (_phash_archive self) in
      let self' :=
        with_phash_archive self (dict_set archive_id (basename, new_hash) (_phash_archive self)) in
      (Some (phash_finding self st), render_method, self')
  | None => (None, "sha256_only", self)
  end.

Definition analyze_against_archive (w : World) (self : ImageForensicsEngine)
    (file_path : string) : Report.t * ImageForensicsEngine :=
  let basename := os_path_basename file_path in
  let '(ok, err) := _validate_file w file_path in
  if negb ok then (validation_report self basename err, self)
  else
    let '(sha_result, self1) := sha256_layer w self file_path in
    let '(phash_result, render_method, self2) := phash_layer w self1 file_path in
    (merge basename (Z.of_nat (length (_phash_archive self2))) render_method
           sha_result phash_result,
     self2).

(** A session: successive calls, each against the world as it then is. *)
Fixpoint run (self : ImageForensicsEngine) (calls : list (World * string))
    : list Report.t * ImageForensicsEngine :=
  match calls with
  | [] => ([], self)
  | (w, file_path) :: rest =>
      let '(r, self') := analyze_against_archive w self file_path in
      let '(rs, self'') := run self' rest in
      (r :: rs, self'')
  end.

(** ** Specification-side notions *)

Definition entry_distance (new_hash : Z) (item : string * (string * Z)) : Z :=
  _hamming new_hash (snd (snd item)).

(** The least distance from [new_hash] to an entry; [None] on an empty
    archive. *)
Fixpoint minimum_distance (new_hash : Z) (archive : list (string * (string * Z))) : option Z :=
  match archive with
  | [] => None
  | item :: rest =>
      match minimum_distance new_hash rest with
      | None => Some (entry_distance new_hash item)
      | Some m => Some (Z.min (entry_distance new_hash item) m)
      end
  end.

(** The six fields a report copies from the finding it selects. *)
Definition top_level (r : Report.t) : Finding.t :=
  {| Finding.matched_file := Report.matched_file r;
     Finding.similarity_percent := Report.similarity_percent r;
     Finding.fraud_risk_score := Report.fraud_risk_score r;
     Finding.classification := Report.classification r;
     Finding.fraud_detected := Report.fraud_detected r;
     Finding.hamming_distance := Report.hamming_distance r |}.

(** The finding the report's layer slots call for: the pHash one when its
    risk is strictly higher, the SHA-256 one otherwise. *)
Definition selected (sha_result phash_result : option Finding.t) : option Finding.t :=
  match sha_result, phash_result with
  | Some s, Some p =>
      Some (if Finding.fraud_risk_score s <? Finding.fraud_risk_score p then p else s)
  | Some s, None => Some s
  | None, Some p => Some p
  | None, None => None
  end.

(** The raster a call obtains, if it gets as far as rendering one. *)
Definition renders (w : World) (self : ImageForensicsEngine) (file_path : string)
    : option Image :=
  if fst (_validate_file w file_path) then _load_as_pil w self file_path else None.

(** The entry a call adds to the fingerprint archive. *)
Definition appended_entry (w : World) (self : ImageForensicsEngine) (file_path : string)
    : list (string * (string * Z)) :=
  match renders w self file_path with
  | Some img => [(uuid4 w, (os_path_basename file_path, _generate_phash w img))]
  | None => []
  end.

Fixpoint appended_entries (self : ImageForensicsEngine) (calls : list (World * string))
    : list (string * (string * Z)) :=
  match calls with
  | [] => []
  | (w, file_path) :: rest =>
      (appended_entry w self file_path
       ++ appended_entries (snd (analyze_against_archive w self file_path)) rest)%list
  end.

(** How many calls of a session rendered their document. *)
Fixpoint rendered_count (self : ImageForensicsEngine) (calls : list (World * string)) : nat :=
  match calls with
  | [] => O
  | (w, file_path) :: rest =>
      ((match renders w self file_path with Some _ => 1 | None => 0 end)
       + rendered_count (snd (analyze_against_archive w self file_path)) rest)%nat
  end.

Definition has_id (k : string) (archive : list (string * (string * Z))) : bool :=
  existsb (String.eqb k) (map fst archive).

(** Every id drawn in the session is new to the archive it goes into. *)
Fixpoint fresh_ids (self : ImageForensicsEngine) (calls : list (World * string)) : bool :=
  match calls with
  | [] => true
  | (w, file_path) :: rest =>
      (match renders w self file_path with
       | Some _ => negb (has_id (uuid4 w) (_phash_archive self))
       | None => true
       end)
      && fresh_ids (snd (analyze_against_archive w self file_path)) rest
  end.

(** ** Worlds for the examples

    A small file system given as a table: per path, the file's bytes and
    the fingerprint of its raster ([None] when no decoder can read it).
    The digest stand-in is the message itself, the raster carries its
    fingerprint in its width, and [fitz] always raises. *)

Definition sample_image (h : Z) : Image :=
  {| img_mode := "L"; img_width := h; img_height := 1; img_data := [] |}.

Definition sample_decode (files : string -> option (string * option Z)) (p : string)
    : outcome Image :=
  match files p with
  | Some (_, Some h) => Returned (sample_image h)
  | _ => Raised "cannot identify image file"
  end.

Definition sample_world (files : string -> option (string * option Z))
    (fitz pdf2image : bool) (id : string) : World :=
  {| os_path_exists := fun p => match files p with Some _ => true | None => false end;
     os_path_getsize := fun p =>
       match files p with Some (b, _) => Z.of_nat (String.length b) | None => 0 end;
     os_path_abspath := fun p => p;
     read_bytes := fun p =>
       match files p with Some (b, _) => list_byte_of_string b | None => [] end;
     sha256_hexdigest := string_of_list_byte;
     uuid4 := id;
     FITZ_SUPPORT := fitz;
     PDF2IMAGE_SUPPORT := pdf2image;
     fitz_open := fun _ => Raised "cannot open broken document";
     convert_from_path := fun p _ =>
       match sample_decode files p with
       | Returned img => Returned [img]
       | Raised m => Raised m
       end;
     Image_open := sample_decode files;
     Image_convert_L := fun img => Returned img;
     Image_rotate_expand := fun _ img => img;
     Image_resize := fun _ img => img;
     imagehash_phash := img_width |}.

Definition sample_files (p : string) : option (string * option Z) :=
  if String.eqb p "in/a.png" then Some ("alpha", Some 0)
  else if String.eqb p "in/b.png" then Some ("alpha", Some 0)
  else if String.eqb p "in/c.png" then Some ("gamma", Some (Z.ones 64))
  else if String.eqb p "in/d.PDF" then Some ("delta", Some 5)
  else if String.eqb p "in/e.bin" then Some ("epsilon", None)
  else if String.eqb p "in/empty.png" then Some ("", Some 9)
  else None.

Definition fresh_engine : ImageForensicsEngine := __init__ None None None.

(** ** More of the engine module *)

(** [_get_poppler_path]: on Windows the first of two known locations that
    exists, nowhere else a path. [platform_system] is [platform.system()]
    and [exists_] is [os.path.exists]. *)
Definition poppler_candidates : list string :=
  ["C:\poppler-25.12.0\Library\bin"; "C:\poppler\bin"].

Fixpoint first_existing (exists_ : string -> bool) (candidates : list string) : option string :=
  match candidates with
  | [] => None
  | p :: rest => if exists_ p then Some p else first_existing exists_ rest
  end.

Definition _get_poppler_path (platform_system : string) (exists_ : string -> bool)
    : option string :=
  if String.eqb platform_system "Windows" then first_existing exists_ poppler_candidates
  else None.

(** The engine as the server builds it: [ImageForensicsEngine(poppler_path=None)]. *)
Definition forensics_engine_init (platform_system : string) (exists_ : string -> bool)
    : ImageForensicsEngine :=
  __init__ None None (_get_poppler_path platform_system exists_).

(** The reads of [_file_sha256], as byte ranges of the file. *)
Definition file_chunks (data : list Byte.byte) : list (list Byte.byte) :=
  read_chunks (S (length data)) chunk_size data.

(** Fingerprints of 64 bits. *)
Definition is_hash64 (h : Z) : Prop := 0 <= h < 2 ^ 64.

(** ** The upload endpoint (backend/main.py, [analyze_claim]) *)

(** [os.path.join(a, b)] *)
Definition os_path_join (a b : string) : string :=
  match b with
  | String c _ =>
      if is_sep c then b
      else if String.eqb a EmptyString then b
      else if String.eqb (substring (String.length a - 1) 1 a) "/" then a +:+ b
      else a +:+ "/" +:+ b
  | EmptyString =>
      if String.eqb a EmptyString then b
      else if String.eqb (substring (String.length a - 1) 1 a) "/" then a +:+ b
      else a +:+ "/" +:+ b
  end.

(** [str(x)] of a report's [similarity_percent]: the int [0] of the reports
    without a match, otherwise a float of at most two decimals. *)
Definition py_str_percent (c : Z) : string :=
  if c =? 0 then "0"
  else
    let frac := c mod 100 in
    str_of_int (c / 100) +:+ "." +:+
    (if frac mod 10 =? 0 then str_of_int (frac / 10)
     else str_of_int (frac / 10) +:+ str_of_int (frac mod 10)).

(** [str(x)] of an optional int or string ([None] prints as it is named). *)
Definition py_str_opt_int (o : option Z) : string :=
  match o with Some n => str_of_int n | None => "None" end.

Definition py_str_opt (o : option string) : string :=
  match o with Some s => s | None => "None" end.

(** Truth value of an optional string. *)
Definition py_truthy (o : option string) : bool :=
  match o with
  | Some s => negb (String.eqb s EmptyString)
  | None => false
  end.

(** [f"{n:0{width}d}"] for a non-negative [n]. *)
Definition format_0d (width : nat) (n : Z) : string :=
  let s := str_of_int n in
  string_of_list_ascii (repeat "0"%char (width - String.length s)) +:+ s.

(** What [random.randint] gives the endpoint, in call order. *)
Record ClaimDraws := {
  draw_patient : Z;
  draw_hospital : Z;
  draw_procedure : Z;
  draw_amount : Z;
}.

Module Claim.
Record t := {
  patient_id : string;
  hospital_id : string;
  procedure_code : string;
  claimed_amount : string;
  risk_score : Z;
  confidence : Z;
  flags : list string;
  archive_size : Z;
}.
End Claim.

Definition claim_flags (result : Report.t) : list string :=
  if Report.fraud_detected result then
    ["Document reuse detected — " +:+ py_str_percent (Report.similarity_percent result)
       +:+ "% similar to '" +:+ py_str_opt (Report.matched_file result) +:+ "'";
     "Hamming distance: " +:+ py_str_opt_int (Report.hamming_distance result)
       +:+ " (threshold ≤ 10 = duplicate)";
     "Classification: " +:+ Report.classification result]
  else if py_truthy (Report.matched_file result) then
    ["Partial similarity with prior submission ("
       +:+ py_str_percent (Report.similarity_percent result) +:+ "%)"]
  else [].

(** [round(max(95.0 - (hamming_distance or 0) * 0.5, 60.0), 2)], in
    hundredths. *)
Definition claim_confidence (result : Report.t) : Z :=
  let d := match Report.hamming_distance result with Some d => d | None => 0 end in
  let a := (inject_Z 95 - inject_Z d * (1 # 2))%Q in
  let b := inject_Z 60 in
  py_round_2 (if Qle_bool b a then a else b).

(** The body of the endpoint's [try], on what the engine call gave, and its
    [except] branch. A confidence of [0] there is the int 0. *)
Definition claim_response (draws : ClaimDraws) (call : outcome Report.t) : Claim.t :=
  match call with
  | Returned result =>
      {| Claim.patient_id := "PMJAY-" +:+ str_of_int (draw_patient draws);
         Claim.hospital_id := "HOSP_" +:+ format_0d 4 (draw_hospital draws);
         Claim.procedure_code := "PROC_" +:+ format_0d 3 (draw_procedure draws);
         Claim.claimed_amount := "₹" +:+ str_of_int (draw_amount draws) +:+ ",000";
         Claim.risk_score := Report.fraud_risk_score result;
         Claim.confidence := claim_confidence result;
         Claim.flags := claim_flags result;
         Claim.archive_size := Report.archive_size result |}
  | Raised e =>
      {| Claim.patient_id := "PMJAY-UNKNOWN";
         Claim.hospital_id := "HOSP_0000";
         Claim.procedure_code := "PROC_000";
         Claim.claimed_amount := "₹0";
         Claim.risk_score := 0;
         Claim.confidence := 0;
         Claim.flags := ["Analysis engine error: " +:+ e];
         Claim.archive_size := 0 |}
  end.

(** Where the endpoint saves an upload: [temp_uploads/<uuid4>_<filename>]. *)
Definition upload_path (upload_id filename : string) : string :=
  os_path_join "temp_uploads" (upload_id +:+ "_" +:+ filename).

(** [analyze_claim], in the world [w] in which the upload has been saved. *)
Definition analyze_claim (w : World) (draws : ClaimDraws) (upload_id : string)
    (forensics_engine : ImageForensicsEngine) (filename : string)
    : Claim.t * ImageForensicsEngine :=
  let file_path := upload_path upload_id filename in
  let '(result, engine') := analyze_against_archive w forensics_engine file_path in
  (claim_response draws (Returned result), engine').

(** ** The audit narrative (backend/audit_generator.py) *)

Module Audit.

(** The [hospital_stats] dict, by key; [None] is a missing key. *)
Record stats := {
  duplicate_count : option Z;
  image_reuse_count : option Z;
  concurrent_count : option Z;
  ghost_count : option Z;
  avg_claim_deviation : option Q;
  risk_category : option string;
  avg_risk_score : option Q;
  state : option string;
  total_claims : option Z;
}.

(** What the function asks of its surroundings: the environment variable,
    the Gemini call on a prompt (import, configuration and request; what it
    returns is [response.text.strip()]), and [str(round(x, ndigits))] of a
    float. *)
Record env := {
  GEMINI_API_KEY : option string;
  generate_content : string -> outcome string;
  str_round : Z -> Q -> string;
}.

Definition nl : string := String (ascii_of_nat 10) EmptyString.

Definition prompt (hospital_id state total_claims avg_risk risk_category
    duplicate_count image_reuse_count concurrent_count ghost_count deviation : string)
    : string :=
  "You are a senior healthcare fraud analyst reviewing a PM-JAY (Ayushman Bharat) hospital audit." +:+ nl +:+
  "Write a concise 3–4 sentence professional audit summary for the following hospital profile." +:+ nl +:+
  "Be specific about the fraud patterns and recommend next steps." +:+ nl +:+
  nl +:+
  "Hospital: " +:+ hospital_id +:+ nl +:+
  "State: " +:+ state +:+ nl +:+
  "Total Claims: " +:+ total_claims +:+ nl +:+
  "Avg Risk Score: " +:+ avg_risk +:+ "/100" +:+ nl +:+
  "Risk Category: " +:+ risk_category +:+ nl +:+
  "Duplicate Claims: " +:+ duplicate_count +:+ nl +:+
  "Image Reuse Cases: " +:+ image_reuse_count +:+ nl +:+
  "Concurrent Fraud Cases: " +:+ concurrent_count +:+ nl +:+
  "Ghost Beneficiary Flags: " +:+ ghost_count +:+ nl +:+
  "Avg Claim Deviation from Baseline: " +:+ deviation +:+ "%" +:+ nl +:+
  nl +:+
  "Write the summary in formal audit language. Do not use bullet points.".

(** [", ".join(l)] *)
Fixpoint join_comma (l : list string) : string :=
  match l with
  | [] => EmptyString
  | [x] => x
  | x :: rest => x +:+ ", " +:+ join_comma rest
  end.

(** The list the fallback builds, one entry per positive count. *)
Definition fraud_types (duplicate_count image_reuse_count concurrent_count ghost_count : Z)
    : list string :=
  ((if 0 <? duplicate_count
    then [str_of_int duplicate_count +:+ " duplicate billing instances"] else []) ++
   (if 0 <? image_reuse_count
    then [str_of_int image_reuse_count +:+ " diagnostic image reuse cases"] else []) ++
   (if 0 <? concurrent_count
    then [str_of_int concurrent_count +:+ " concurrent claim conflicts"] else []) ++
   (if 0 <? ghost_count
    then [str_of_int ghost_count +:+ " ghost beneficiary flags"] else []))%list.

Definition fraud_summary (types : list string) : string :=
  match types with
  | [] => "no specific fraud flags, though claim deviation warrants review"
  | _ => join_comma types
  end.

Definition template (hospital_id state total_claims fraud_summary deviation avg_risk
    risk_category : string) : string :=
  "Audit Review for " +:+ hospital_id +:+ " (" +:+ state +:+ "): " +:+
  "Analysis of " +:+ total_claims +:+ " submitted PM-JAY claims reveals " +:+
    fraud_summary +:+ ". " +:+
  "Average claim deviation from procedure baseline stands at " +:+ deviation +:+ "%, " +:+
  "with a composite risk score of " +:+ avg_risk +:+ "/100 — classified as " +:+
    risk_category +:+ ". " +:+
  "This hospital is recommended for secondary audit and cross-referencing of " +:+
  "patient records against the PMJAY central beneficiary database.".

Definition generate_audit_summary (e : env) (hospital_id : string) (hospital_stats : stats)
    : string :=
  let duplicate_count := default 0 (duplicate_count hospital_stats) in
  let image_reuse_count := default 0 (image_reuse_count hospital_stats) in
  let concurrent_count := default 0 (concurrent_count hospital_stats) in
  let ghost_count := default 0 (ghost_count hospital_stats) in
  let deviation := str_round e 2 (default (inject_Z 0) (avg_claim_deviation hospital_stats)) in
  let risk_category := default "Unknown" (risk_category hospital_stats) in
  let avg_risk := str_round e 1 (default (inject_Z 0) (avg_risk_score hospital_stats)) in
  let state := default "Unknown" (state hospital_stats) in
  let total_claims := default 0 (total_claims hospital_stats) in
  let api_key := default EmptyString (GEMINI_API_KEY e) in
  let fallback :=
    template hospital_id state (str_of_int total_claims)
      (fraud_summary (fraud_types duplicate_count image_reuse_count concurrent_count ghost_count))
      deviation avg_risk risk_category in
  if negb (String.eqb api_key EmptyString) then
    match generate_content e
            (prompt hospital_id state (str_of_int total_claims) avg_risk risk_category
               (str_of_int duplicate_count) (str_of_int image_reuse_count)
               (str_of_int concurrent_count) (str_of_int ghost_count) deviation) with
    | Returned text => text
    | Raised _ => fallback
    end
  else fallback.

End Audit.

(** ** More worlds for the examples *)

(** [sample_world] with a working [fitz] that opens every path as the
    given pages. *)
Definition sample_world_fitz (files : string -> option (string * option Z))
    (pages : list FitzPage) (id : string) : World :=
  let w := sample_world files true true id in
  {| os_path_exists := os_path_exists w;
     os_path_getsize := os_path_getsize w;
     os_path_abspath := os_path_abspath w;
     read_bytes := read_bytes w;
     sha256_hexdigest := sha256_hexdigest w;
     uuid4 := uuid4 w;
     FITZ_SUPPORT := true;
     PDF2IMAGE_SUPPORT := true;
     fitz_open := fun _ => Returned pages;
     convert_from_path := convert_from_path w;
     Image_open := Image_open w;
     Image_convert_L := Image_convert_L w;
     Image_rotate_expand := fun angle img =>
       {| img_mode := img_mode img; img_width := img_width img;
          img_height := angle; img_data := img_data img |};
     Image_resize := Image_resize w;
     imagehash_phash := imagehash_phash w |}.

(** The file table of an upload directory. *)
Definition upload_files (p : string) : option (string * option Z) :=
  if String.eqb p "temp_uploads/u1_bill.png" then Some ("alpha", Some 0)
  else if String.eqb p "temp_uploads/u2_copy.png" then Some ("alpha", Some 0)
  else if String.eqb p "temp_uploads/u3_edit.png" then Some ("beta", Some 7)
  else if String.eqb p "temp_uploads/u4_other.png" then Some ("gamma", Some (Z.ones 40))
  else if String.eqb p "temp_uploads/u5_blank.png" then Some ("", Some 1)
  else None.

Definition sample_draws : ClaimDraws :=
  {| draw_patient := 1234567; draw_hospital := 42; draw_procedure := 7; draw_amount := 15 |}.

Definition sample_audit_env (key : option string) : Audit.env :=
  {| Audit.GEMINI_API_KEY := key;
     Audit.generate_content := fun _ => Raised "quota exceeded";
     Audit.str_round := fun ndigits x => str_of_int (Qnum x / Z.pos (Qden x)) +:+ ".0" |}.

(** ** The parts of a validated call *)

(** What a validated call finds in each layer, and the method it names. *)
Definition sha_result_of (w : World) (self : ImageForensicsEngine) (file_path : string)
    : option Finding.t :=
  match _sha256_archive self !! _file_sha256 w file_path with
  | Some matched_name => Some (sha_finding matched_name)
  | None => None
  end.

Definition phash_result_of (w : World) (self : ImageForensicsEngine) (file_path : string)
    : option Finding.t :=
  match _load_as_pil w self file_path with
  | Some img =>
      Some (phash_finding self (scan_archive (_generate_phash w img) (_phash_archive self)))
  | None => None
  end.

Definition method_of (w : World) (self : ImageForensicsEngine) (file_path : string) : string :=
  match _load_as_pil w self file_path with
  | Some _ => render_method_of w
  | None => "sha256_only"
  end.

(** The first-upload finding of the pHash layer. *)
Definition first_upload_finding : Finding.t :=
  {| Finding.matched_file := None;
     Finding.similarity_percent := 0;
     Finding.fraud_risk_score := 5;
     Finding.classification := "First Upload — No Reference";
     Finding.fraud_detected := false;
     Finding.hamming_distance := None |}.

(** The top-level fields of the report on a document that neither layer
    could say anything about. *)
Definition degraded_finding : Finding.t :=
  {| Finding.matched_file := None;
     Finding.similarity_percent := 0;
     Finding.fraud_risk_score := 10;
     Finding.classification := "Analysis Incomplete — Could Not Render Document";
     Finding.fraud_detected := false;
     Finding.hamming_distance := None |}.

(** The pHash finding on an archived entry [d] bits away. *)
Definition match_finding (self : ImageForensicsEngine) (aname : string) (d : Z) : Finding.t :=
  {| Finding.matched_file := Some aname;
     Finding.similarity_percent := similarity d;
     Finding.fraud_risk_score := fst (_risk_from_hamming d);
     Finding.classification := snd (_risk_from_hamming d);
     Finding.fraud_detected := d <=? threshold self;
     Finding.hamming_distance := Some d |}.

(** Whether a string contains a path separator. *)
Fixpoint has_sep (s : string) : bool :=
  match s with
  | EmptyString => false
  | String c rest => is_sep c || has_sep rest
  end.

(** The distance a report gives, or 0 when it gives none:
    [hamming_distance or 0]. *)
Definition distance_or_0 (result : Report.t) : Z :=
  match Report.hamming_distance result with Some d => d | None => 0 end.

(** The audit environment with another Gemini behaviour, and with no API
    key. *)
Definition audit_env_with (e : Audit.env) (key : option string)
    (g : string -> outcome string) : Audit.env :=
  {| Audit.GEMINI_API_KEY := key;
     Audit.generate_content := g;
     Audit.str_round := Audit.str_round e |}.

(** The fallback text on the values the function reads from the dict. *)
Definition audit_fallback (e : Audit.env) (hospital_id : string) (s : Audit.stats)
    (fraud_summary : string) : string :=
  Audit.template hospital_id (default "Unknown" (Audit.state s))
    (str_of_int (default 0 (Audit.total_claims s))) fraud_summary
    (Audit.str_round e 2 (default (inject_Z 0) (Audit.avg_claim_deviation s)))
    (Audit.str_round e 1 (default (inject_Z 0) (Audit.avg_risk_score s)))
    (default "Unknown" (Audit.risk_category s)).

(** ** Risk bands of the claim records (backend/data_pipeline.py,
    [load_mock_data])

    Scores are floats; they are compared with integer bounds only, so a
    score is taken as the rational it denotes. *)

(** [min(max(base_risk, 0), 100)] *)
Definition clamp_risk (base_risk : Q) : Q :=
  let m := if Qle_bool (inject_Z 0) base_risk then base_risk else inject_Z 0 in
  if Qle_bool m (inject_Z 100) then m else inject_Z 100.

(** The category appended for a score. *)
Definition risk_category_of (score : Q) : string :=
  if Qle_bool score (inject_Z 30) then "Low"
  else if Qle_bool score (inject_Z 60) then "Medium"
  else if Qle_bool score (inject_Z 80) then "High"
  else "Critical".

(** [(risk_scores > 60).astype(int)] *)
Definition is_suspicious_of (score : Q) : Z :=
  if Qle_bool score (inject_Z 60) then 0 else 1.

(** ** What imagehash.phash returns

    [imagehash.phash] is a library, not part of this repository. It takes
    the 8x8 block of lowest frequencies of the raster's DCT and sets a bit
    of the hash where a coefficient is strictly above the median of the
    block. Of 64 values at most 32 are strictly above their median. The
    block's first coefficient, the DC term, is the sum of the pixels: on a
    raster that is not black it is strictly the largest of the block, so
    its bit is set; on a black raster every coefficient is 0 and no bit is
    set. [dc_bit] is the DC term's position in the integer of the hash. *)

Definition dc_bit : Z := 63.

Definition phash_output (h : Z) : Prop :=
  is_hash64 h /\ popcount64 h <= 32 /\ (h = 0 \/ Z.testbit h dc_bit = true).

(** A world whose [imagehash.phash] is the library's. *)
Definition phash_faithful (w : World) : Prop :=
  forall img : Image, phash_output (_generate_phash w img).

(** An archive all of whose fingerprints came from [imagehash.phash]. *)
Definition archive_of_phash (self : ImageForensicsEngine) : Prop :=
  Forall (fun item => phash_output (snd (snd item))) (_phash_archive self).

(** A stand-in for [imagehash.phash] in the examples that stays within
    what the library returns: the DC bit and 31 bits of the raster. *)
Definition sample_phash (img : Image) : Z :=
  Z.lor (2 ^ 63) (Z.land (img_width img) (Z.ones 31)).

(** [sample_world] with that stand-in. *)
Definition phash_world (files : string -> option (string * option Z)) (id : string) : World :=
  let w := sample_world files true true id in
  {| os_path_exists := os_path_exists w;
     os_path_getsize := os_path_getsize w;
     os_path_abspath := os_path_abspath w;
     read_bytes := read_bytes w;
     sha256_hexdigest := sha256_hexdigest w;
     uuid4 := uuid4 w;
     FITZ_SUPPORT := FITZ_SUPPORT w;
     PDF2IMAGE_SUPPORT := PDF2IMAGE_SUPPORT w;
     fitz_open := fitz_open w;
     convert_from_path := convert_from_path w;
     Image_open := Image_open w;
     Image_convert_L := Image_convert_L w;
     Image_rotate_expand := Image_rotate_expand w;
     Image_resize := Image_resize w;
     imagehash_phash := sample_phash |}.

(** The entries of the template's fraud list: each positive count with its
    wording, in the order of the four tests. *)
Definition audit_listed (a b c d : Z) : list string :=
  map (fun entry => str_of_int (fst entry) +:+ snd entry)
      (List.filter (fun entry => 0 <? fst entry)
         [(a, " duplicate billing instances");
          (b, " diagnostic image reuse cases");
          (c, " concurrent claim conflicts");
          (d, " ghost beneficiary flags")]).

(** * Properties *)

(** ** Basic facts *)

Lemma popcount64_range (x : Z) : 0 <= popcount64 x <= 64.
Proof.
  unfold popcount64. split; [lia|].
  pose proof (length_filter (fun i => Is_true (Z.testbit x i)) (seqZ 0 hash_bits)) as H.
  rewrite length_seqZ in H. unfold hash_bits in *. lia.
Qed.

Lemma hamming_range (h1 h2 : Z) : 0 <= _hamming h1 h2 <= 64.
Proof.
  unfold _hamming. pose proof (popcount64_range (Z.lxor h1 h2)). lia.
Qed.

Lemma hamming_popcount (h1 h2 : Z) : _hamming h1 h2 = popcount64 (Z.lxor h1 h2).
Proof.
  unfold _hamming. pose proof (popcount64_range (Z.lxor h1 h2)). lia.
Qed.

(** A property checked on every distance 0..64 holds of each of them. *)
Lemma distance_cases (P : Z -> bool) :
  forallb P (seqZ 0 65) = true -> forall d, 0 <= d <= 64 -> P d = true.
Proof.
  intros Hall d Hd. rewrite forallb_forall in Hall. apply Hall.
  apply list_elem_of_In, elem_of_seqZ. lia.
Qed.

Lemma similarity_step (d : Z) : 0 <= d < 64 -> similarity (d + 1) <= similarity d.
Proof.
  intros Hd.
  pose proof (distance_cases (fun d => (64 <=? d) || (similarity (d + 1) <=? similarity d))) as H.
  specialize (H ltac:(vm_compute; reflexivity) d ltac:(lia)). cbv beta in H.
  apply orb_true_iff in H. destruct H as [H|H].
  - apply Z.leb_le in H. lia.
  - apply Z.leb_le in H. exact H.
Qed.

Lemma similarity_antitone (d1 d2 : Z) :
  0 <= d1 -> d1 <= d2 -> d2 <= 64 -> similarity d2 <= similarity d1.
Proof.
  intros H0 Hle H64.
  assert (Hn : forall n : nat, d1 + Z.of_nat n <= 64 -> similarity (d1 + Z.of_nat n) <= similarity d1).
  { induction n as [|n IH]; intros Hb.
    - replace (d1 + Z.of_nat 0) with d1 by lia. lia.
    - replace (d1 + Z.of_nat (S n)) with (d1 + Z.of_nat n + 1) by lia.
      pose proof (similarity_step (d1 + Z.of_nat n) ltac:(lia)). 
      specialize (IH ltac:(lia)). lia. }
  specialize (Hn (Z.to_nat (d2 - d1))).
  replace (d1 + Z.of_nat (Z.to_nat (d2 - d1))) with d2 in Hn by lia.
  apply Hn. lia.
Qed.

(** [similarity d] is the hundredth nearest to [(64 - d) / 64 * 100]. *)
Lemma similarity_nearest (d : Z) :
  0 <= d <= 64 -> Z.abs (64 * similarity d - 10000 * (64 - d)) <= 32.
Proof.
  intros Hd.
  pose proof (distance_cases
    (fun d => Z.abs (64 * similarity d - 10000 * (64 - d)) <=? 32)) as H.
  specialize (H ltac:(vm_compute; reflexivity) d Hd). cbv beta in H.
  apply Z.leb_le in H. exact H.
Qed.

(** ** The nearest-neighbour scan *)

Lemma scan_step_distance (h : Z) (st : scan_state) (item : string * (string * Z)) :
  best_distance (scan_step h st item) = Z.min (entry_distance h item) (best_distance st).
Proof.
  destruct item as [aid [aname ahash]]. unfold scan_step, entry_distance. simpl.
  destruct (Z.ltb_spec (_hamming h ahash) (best_distance st)); simpl; lia.
Qed.

Lemma scan_fold_distance (h : Z) (l : list (string * (string * Z))) :
  forall st,
    best_distance (fold_left (scan_step h) l st) =
    match minimum_distance h l with
    | None => best_distance st
    | Some m => Z.min m (best_distance st)
    end.
Proof.
  induction l as [|item l IH]; intros st; simpl; [reflexivity|].
  rewrite IH, scan_step_distance.
  destruct (minimum_distance h l); lia.
Qed.

Lemma minimum_distance_lower (h : Z) (l : list (string * (string * Z))) (m : Z) :
  minimum_distance h l = Some m -> forall item, item ∈ l -> m <= entry_distance h item.
Proof.
  revert m. induction l as [|x l IH]; intros m Hm item Hin; [inversion Hin|].
  simpl in Hm. apply elem_of_cons in Hin.
  destruct (minimum_distance h l) as [m'|] eqn:E.
  - injection Hm as <-. destruct Hin as [->|Hin]; [lia|].
    specialize (IH m' eq_refl item Hin). lia.
  - injection Hm as <-. destruct Hin as [->|Hin]; [lia|].
    destruct l; [inversion Hin|]. simpl in E. destruct (minimum_distance h l); discriminate.
Qed.

Lemma minimum_distance_nonempty (h : Z) (l : list (string * (string * Z))) :
  l <> [] -> exists m, minimum_distance h l = Some m /\ 0 <= m <= 64.
Proof.
  induction l as [|x l IH]; intros Hne; [congruence|]. simpl.
  pose proof (hamming_range h (snd (snd x))) as Hx. fold (entry_distance h x) in Hx.
  destruct l as [|y l].
  - simpl. eexists; split; [reflexivity|lia].
  - destruct (IH ltac:(discriminate)) as (m & -> & Hm).
    eexists; split; [reflexivity|lia].
Qed.

(** Where the loop ends: either nothing beat the state it started from, or
    its three variables describe one archived entry at the distance kept. *)
Lemma scan_fold_entry (h : Z) (l : list (string * (string * Z))) :
  forall st,
    let st' := fold_left (scan_step h) l st in
    st' = st \/
    exists aid aname ahash,
      (aid, (aname, ahash)) ∈ l /\
      best_id st' = Some aid /\ best_name st' = Some aname /\
      best_distance st' = _hamming h ahash /\
      best_distance st' < best_distance st.
Proof.
  induction l as [|item l IH]; intros st; simpl; [left; reflexivity|].
  destruct (IH (scan_step h st item)) as [Heq | (aid & aname & ahash & Hin & Hid & Hnm & Hd & Hlt)].
  - rewrite Heq. destruct item as [aid [aname ahash]]. unfold scan_step.
    destruct (Z.ltb_spec (_hamming h ahash) (best_distance st)); [|left; reflexivity].
    right. exists aid, aname, ahash. simpl. repeat split; auto. apply elem_of_cons. auto.
  - right. exists aid, aname, ahash. repeat split; auto.
    + apply elem_of_cons. auto.
    + pose proof (scan_step_distance h st item). lia.
Qed.

(** When some archived entry is closer than 64 bits, the scan ends on an
    entry at the minimum distance. *)
Lemma scan_archive_nearest (h : Z) (archive : list (string * (string * Z))) (m : Z) :
  minimum_distance h archive = Some m -> m < 64 ->
  let st := scan_archive h archive in
  best_distance st = m /\
  exists aid aname ahash,
    (aid, (aname, ahash)) ∈ archive /\ _hamming h ahash = m /\
    best_id st = Some aid /\ best_name st = Some aname.
Proof.
  intros Hm Hlt st.
  assert (Hd : best_distance st = m).
  { unfold st, scan_archive. rewrite scan_fold_distance, Hm. simpl. lia. }
  split; [exact Hd|].
  destruct (scan_fold_entry h archive scan_init) as [Heq | (aid & aname & ahash & Hin & Hid & Hnm & Hdist & _)].
  - fold (scan_archive h archive) in Heq. fold st in Heq. rewrite Heq in Hd. simpl in Hd. lia.
  - fold (scan_archive h archive) in Hin, Hid, Hnm, Hdist. fold st in Hid, Hnm, Hdist.
    exists aid, aname, ahash. repeat split; auto. lia.
Qed.

(** The entry the scan ends on, if any, is one of the archive scanned. *)
Lemma scan_archive_id (h : Z) (archive : list (string * (string * Z))) (aid : string) :
  best_id (scan_archive h archive) = Some aid -> aid ∈ map fst archive.
Proof.
  intros Hid.
  destruct (scan_fold_entry h archive scan_init) as [Heq | (a & n & x & Hin & Hid' & _)];
    fold (scan_archive h archive) in *.
  - rewrite Heq in Hid. discriminate.
  - rewrite Hid in Hid'. injection Hid' as <-.
    apply list_elem_of_In, in_map_iff. exists (aid, (n, x)). split; [reflexivity|].
    apply list_elem_of_In. exact Hin.
Qed.

Lemma scan_archive_distance_range (h : Z) (archive : list (string * (string * Z))) :
  0 <= best_distance (scan_archive h archive) <= 64.
Proof.
  unfold scan_archive. rewrite scan_fold_distance. simpl.
  destruct archive as [|x l]; [simpl; lia|].
  destruct (minimum_distance_nonempty h (x :: l) ltac:(discriminate)) as (m & -> & Hm). lia.
Qed.

(** ** Dict assignment *)

Lemma dict_set_length {V : Type} (k : string) (v : V) (d : list (string * V)) :
  (length d <= length (dict_set k v d))%nat.
Proof.
  induction d as [|[k' v'] d IH]; simpl; [lia|].
  destruct (String.eqb k k'); simpl; lia.
Qed.

Lemma dict_set_fresh {V : Type} (k : string) (v : V) (d : list (string * V)) :
  k ∉ map fst d -> dict_set k v d = (d ++ [(k, v)])%list.
Proof.
  induction d as [|[k' v'] d IH]; simpl; intros Hk; [reflexivity|].
  apply not_elem_of_cons in Hk as [Hne Hk].
  destruct (String.eqb_spec k k'); [contradiction|].
  rewrite IH by exact Hk. reflexivity.
Qed.

(** ** Unfolding one call *)

Lemma validate_fails_iff (w : World) (file_path : string) :
  fst (_validate_file w file_path) = false <->
  os_path_exists w file_path = false \/
  os_path_getsize w file_path = 0 \/
  50 * 1024 * 1024 < os_path_getsize w file_path.
Proof.
  unfold _validate_file, size_limit.
  destruct (os_path_exists w file_path); simpl.
  - destruct (Z.eqb_spec (os_path_getsize w file_path) 0) as [E|E]; simpl.
    + split; auto.
    + destruct (Z.ltb_spec (50 * 1024 * 1024) (os_path_getsize w file_path)); simpl.
      * split; auto.
      * split; [discriminate|]. intros [H'|[H'|H']]; try discriminate; lia.
  - split; auto.
Qed.

Lemma load_as_pil_poppler (w : World) (self self' : ImageForensicsEngine) (file_path : string) :
  poppler_path self = poppler_path self' ->
  _load_as_pil w self file_path = _load_as_pil w self' file_path.
Proof.
  intros H. unfold _load_as_pil, _pdf_to_pil, pdf2image_block. rewrite H. reflexivity.
Qed.

Lemma analyze_invalid (w : World) (self : ImageForensicsEngine) (file_path : string) :
  fst (_validate_file w file_path) = false ->
  analyze_against_archive w self file_path =
  (validation_report self (os_path_basename file_path) (snd (_validate_file w file_path)), self).
Proof.
  intros H. unfold analyze_against_archive.
  destruct (_validate_file w file_path) as [ok err]. simpl in H. subst ok. reflexivity.
Qed.

Lemma analyze_valid (w : World) (self : ImageForensicsEngine) (file_path : string) :
  fst (_validate_file w file_path) = true ->
  analyze_against_archive w self file_path =
  let '(sha_result, self1) := sha256_layer w self file_path in
  let '(phash_result, render_method, self2) := phash_layer w self1 file_path in
  (merge (os_path_basename file_path) (Z.of_nat (length (_phash_archive self2)))
         render_method sha_result phash_result, self2).
Proof.
  intros H. unfold analyze_against_archive.
  destruct (_validate_file w file_path) as [ok err]. simpl in H. subst ok. reflexivity.
Qed.

Example sample_run :
  let calls := [(sample_world sample_files true true "id-1", "in/a.png");
                (sample_world sample_files true true "id-2", "in/b.png");
                (sample_world sample_files true true "id-3", "in/empty.png");
                (sample_world sample_files true true "id-4", "in/e.bin");
                (sample_world sample_files true true "id-5", "in/d.PDF")] in
  map Report.fraud_risk_score (fst (run fresh_engine calls)) = [5; 95; 0; 10; 95] /\
  map Report.method (fst (run fresh_engine calls))
    = ["fitz"; "fitz"; "validation_error"; "failed"; "fitz"] /\
  map Report.archive_size (fst (run fresh_engine calls)) = [1; 2; 2; 2; 3] /\
  map Report.matched_file (fst (run fresh_engine calls))
    = [None; Some "a.png"; None; None; Some "a.png"].
Proof. vm_compute. repeat split; reflexivity. Qed.

Lemma merge_layers (basename : string) (size : Z) (render_method : string)
    (sha_result phash_result : option Finding.t) :
  let r := merge basename size render_method sha_result phash_result in
  Report.layers_sha256 r = sha_result /\ Report.layers_phash r = phash_result /\
  Report.archive_size r = size.
Proof.
  destruct sha_result, phash_result; simpl; auto.
Qed.

(** What a validated call leaves in the report's two layer slots. *)
Lemma analyze_valid_layers (w : World) (self : ImageForensicsEngine) (file_path : string) :
  fst (_validate_file w file_path) = true ->
  let r := fst (analyze_against_archive w self file_path) in
  Report.layers_sha256 r =
    match _sha256_archive self !! _file_sha256 w file_path with
    | Some matched_name => Some (sha_finding matched_name)
    | None => None
    end /\
  Report.layers_phash r =
    match _load_as_pil w self file_path with
    | Some img =>
        Some (phash_finding self (scan_archive (_generate_phash w img) (_phash_archive self)))
    | None => None
    end.
Proof.
  intros Hok. cbv zeta. rewrite (analyze_valid _ _ _ Hok).
  unfold sha256_layer, phash_layer.
  rewrite (load_as_pil_poppler w
    (with_sha256_archive self (<[_file_sha256 w file_path:=os_path_basename file_path]>
                                 (_sha256_archive self))) self file_path eq_refl).
  destruct (_load_as_pil w self file_path) as [img|]; simpl.
  - match goal with |- context [merge ?b ?s ?m ?x ?y] =>
      destruct (merge_layers b s m x y) as (H1 & H2 & _) end.
    rewrite H1, H2. split; reflexivity.
  - match goal with |- context [merge ?b ?s ?m ?x ?y] =>
      destruct (merge_layers b s m x y) as (H1 & H2 & _) end.
    rewrite H1, H2. split; reflexivity.
Qed.

Lemma analyze_keeps_settings (w : World) (self : ImageForensicsEngine) (file_path : string) :
  let self' := snd (analyze_against_archive w self file_path) in
  threshold self' = threshold self /\ poppler_path self' = poppler_path self.
Proof.
  cbv zeta. unfold analyze_against_archive.
  destruct (_validate_file w file_path) as [[|] err]; simpl; [|auto].
  unfold phash_layer. destruct (_load_as_pil _ _ _); simpl; auto.
Qed.

(** * The risk classifier *)

(** C4. The classifier depends on the distance alone and its ranges are
    closed and disjoint: 0..3 gives 95, 4..8 gives 75, 9..15 gives 40 and
    16..64 gives 5; at the borders 3, 4, 8, 9, 15 and 16 it gives 95, 75,
    75, 40, 40 and 5. *)
Theorem risk_classifier_ranges :
  (forall d, 0 <= d <= 3 -> fst (_risk_from_hamming d) = 95) /\
  (forall d, 4 <= d <= 8 -> fst (_risk_from_hamming d) = 75) /\
  (forall d, 9 <= d <= 15 -> fst (_risk_from_hamming d) = 40) /\
  (forall d, 16 <= d <= 64 -> fst (_risk_from_hamming d) = 5) /\
  map (fun d => fst (_risk_from_hamming d)) [3; 4; 8; 9; 15; 16] = [95; 75; 75; 40; 40; 5].
Proof.
  unfold _risk_from_hamming.
  repeat split; try reflexivity; intros d Hd;
    repeat (match goal with |- context [?a <=? ?b] => destruct (Z.leb_spec a b) end;
            simpl; try reflexivity; try lia).
Qed.

Lemma risk_classifier_ranges_witness :
  fst (_risk_from_hamming 2) = 95 /\ fst (_risk_from_hamming 6) = 75 /\
  fst (_risk_from_hamming 12) = 40 /\ fst (_risk_from_hamming 40) = 5.
Proof.
  destruct risk_classifier_ranges as (H1 & H2 & H3 & H4 & _).
  split; [apply H1; lia|]. split; [apply H2; lia|]. split; [apply H3; lia | apply H4; lia].
Defined.

(** * Validation *)

(** C5. A file that is missing, empty or larger than 50 MiB gets the
    terminal validation finding: risk 0, no fraud, classification
    "Validation Failed — <reason>", both archives as they were, and
    [archive_size] the size before the call. Neither layer runs: the slots
    of both are empty and the outcome depends on nothing but the existence
    and size of the file. *)
Theorem validation_failure_is_terminal (w : World) (self : ImageForensicsEngine)
    (file_path : string) :
  os_path_exists w file_path = false \/
  os_path_getsize w file_path = 0 \/
  50 * 1024 * 1024 < os_path_getsize w file_path ->
  let r := fst (analyze_against_archive w self file_path) in
  Report.fraud_risk_score r = 0 /\
  Report.fraud_detected r = false /\
  Report.classification r = "Validation Failed — " +:+ snd (_validate_file w file_path) /\
  Report.method r = "validation_error" /\
  Report.layers_sha256 r = None /\ Report.layers_phash r = None /\
  Report.archive_size r = Z.of_nat (length (_phash_archive self)) /\
  snd (analyze_against_archive w self file_path) = self /\
  forall w' : World,
    os_path_exists w' file_path = os_path_exists w file_path ->
    os_path_getsize w' file_path = os_path_getsize w file_path ->
    analyze_against_archive w' self file_path = analyze_against_archive w self file_path.
Proof.
  intros Hbad. apply validate_fails_iff in Hbad as Hfail. cbv zeta.
  rewrite (analyze_invalid _ _ _ Hfail). simpl.
  repeat split; try reflexivity.
  intros w' He Hs.
  assert (Hv : _validate_file w' file_path = _validate_file w file_path).
  { unfold _validate_file. rewrite He, Hs. reflexivity. }
  rewrite analyze_invalid by (rewrite Hv; exact Hfail).
  rewrite Hv. reflexivity.
Qed.

Lemma validation_failure_is_terminal_witness :
  let w := sample_world sample_files true true "id-9" in
  let r := fst (analyze_against_archive w fresh_engine "in/empty.png") in
  Report.fraud_risk_score r = 0 /\
  Report.classification r = "Validation Failed — Empty file (0 bytes) — rejected" /\
  snd (analyze_against_archive w fresh_engine "in/empty.png") = fresh_engine.
Proof.
  cbv zeta.
  destruct (validation_failure_is_terminal (sample_world sample_files true true "id-9")
              fresh_engine "in/empty.png")
    as (H1 & _ & H3 & _ & _ & _ & _ & H8 & _).
  - right. left. vm_compute. reflexivity.
  - split; [exact H1|]. split; [rewrite H3; vm_compute; reflexivity | exact H8].
Defined.

(** * The SHA-256 layer *)

Lemma read_chunks_absorbed (n : nat) (fuel : nat) :
  (0 < n)%nat ->
  forall (data acc : list Byte.byte),
    (length data < fuel)%nat ->
    fold_left (fun absorbed chunk => (absorbed ++ chunk)%list) (read_chunks fuel n data) acc
    = (acc ++ data)%list.
Proof.
  intros Hn. induction fuel as [|fuel IH]; intros data acc Hlen; [lia|].
  simpl. destruct data as [|b data].
  - destruct n; simpl; rewrite app_nil_r; reflexivity.
  - destruct n as [|n]; [lia|].
    change (take (S n) (b :: data)) with (b :: take n data).
    change (drop (S n) (b :: data)) with (drop n data).
    cbn [fold_left]. rewrite IH.
    + rewrite <- app_assoc. simpl. rewrite take_drop. reflexivity.
    + rewrite length_drop. simpl in Hlen. lia.
Qed.

(** Streaming the file in chunks hashes the file's bytes. *)
Lemma file_sha256_whole (w : World) (file_path : string) :
  _file_sha256 w file_path = sha256_hexdigest w (read_bytes w file_path).
Proof.
  unfold _file_sha256. cbv zeta.
  rewrite (read_chunks_absorbed chunk_size); [reflexivity | | lia].
  unfold chunk_size. lia.
Qed.

Lemma analyze_valid_sha_archive (w : World) (self : ImageForensicsEngine) (file_path : string) :
  fst (_validate_file w file_path) = true ->
  _sha256_archive (snd (analyze_against_archive w self file_path)) =
  <[_file_sha256 w file_path := os_path_basename file_path]> (_sha256_archive self).
Proof.
  intros Hok. rewrite (analyze_valid _ _ _ Hok).
  unfold sha256_layer, phash_layer.
  destruct (_load_as_pil _ _ _); reflexivity.
Qed.

(** C1. On a validated submission whose digest is archived, the digest
    layer's finding has risk 95, the exact-byte-duplicate label (which the
    code writes with its layer tag "(SHA-256)"), distance 0, similarity
    100.00, the fraud flag, and as matched file the name stored for that
    digest; on a miss it has no finding. Either way the archive then maps
    the digest to the current submitter's name. Hence the same bytes sent
    again under another file name match the first submitter's name. *)
Theorem digest_layer_behaviour :
  (forall (w : World) (self : ImageForensicsEngine) (file_path : string),
     fst (_validate_file w file_path) = true ->
     let sha := _file_sha256 w file_path in
     let r := fst (analyze_against_archive w self file_path) in
     let self' := snd (analyze_against_archive w self file_path) in
     (forall stored, _sha256_archive self !! sha = Some stored ->
        Report.layers_sha256 r =
          Some {| Finding.matched_file := Some stored;
                  Finding.similarity_percent := 10000;
                  Finding.fraud_risk_score := 95;
                  Finding.classification := "Critical — Exact Byte Duplicate (SHA-256)";
                  Finding.fraud_detected := true;
                  Finding.hamming_distance := Some 0 |}) /\
     (_sha256_archive self !! sha = None -> Report.layers_sha256 r = None) /\
     _sha256_archive self' = <[sha := os_path_basename file_path]> (_sha256_archive self) /\
     _sha256_archive self' !! sha = Some (os_path_basename file_path)) /\
  (forall (w1 w2 : World) (self : ImageForensicsEngine) (path1 path2 : string),
     fst (_validate_file w1 path1) = true ->
     fst (_validate_file w2 path2) = true ->
     (forall message, sha256_hexdigest w2 message = sha256_hexdigest w1 message) ->
     read_bytes w2 path2 = read_bytes w1 path1 ->
     let self1 := snd (analyze_against_archive w1 self path1) in
     let r2 := fst (analyze_against_archive w2 self1 path2) in
     exists f, Report.layers_sha256 r2 = Some f /\
               Finding.matched_file f = Some (os_path_basename path1) /\
               Finding.fraud_risk_score f = 95 /\ Finding.fraud_detected f = true).
Proof.
  split.
  - intros w self file_path Hok sha r self'.
    destruct (analyze_valid_layers w self file_path Hok) as [Hsha _].
    fold r in Hsha. fold sha in Hsha.
    assert (Hup : _sha256_archive self' = <[sha := os_path_basename file_path]> (_sha256_archive self))
      by apply (analyze_valid_sha_archive _ _ _ Hok).
    repeat split.
    + intros stored Hst. rewrite Hsha, Hst. reflexivity.
    + intros Hst. rewrite Hsha, Hst. reflexivity.
    + exact Hup.
    + rewrite Hup. apply lookup_insert_eq.
  - intros w1 w2 self path1 path2 Hok1 Hok2 Hdig Hbytes self1 r2.
    destruct (analyze_valid_layers w2 self1 path2 Hok2) as [Hsha _]. fold r2 in Hsha.
    assert (Hsame : _file_sha256 w2 path2 = _file_sha256 w1 path1).
    { rewrite !file_sha256_whole, Hbytes. apply Hdig. }
    unfold self1 in Hsha.
    rewrite (analyze_valid_sha_archive _ _ _ Hok1), Hsame, lookup_insert_eq in Hsha.
    eexists. split; [exact Hsha|]. simpl. auto.
Qed.

Lemma digest_layer_behaviour_witness :
  let w1 := sample_world sample_files true true "id-1" in
  let w2 := sample_world sample_files true true "id-2" in
  let self1 := snd (analyze_against_archive w1 fresh_engine "in/a.png") in
  (exists f, Report.layers_sha256 (fst (analyze_against_archive w2 self1 "in/b.png")) = Some f /\
             Finding.matched_file f = Some "a.png" /\
             Finding.fraud_risk_score f = 95 /\ Finding.fraud_detected f = true) /\
  Report.layers_sha256 (fst (analyze_against_archive w1 fresh_engine "in/a.png")) = None /\
  _sha256_archive (snd (analyze_against_archive w2 self1 "in/b.png")) !! "alpha" = Some "b.png".
Proof.
  cbv zeta. split; [|split].
  - apply (proj2 digest_layer_behaviour
             (sample_world sample_files true true "id-1")
             (sample_world sample_files true true "id-2") fresh_engine "in/a.png" "in/b.png").
    + vm_compute. reflexivity.
    + vm_compute. reflexivity.
    + intros message. reflexivity.
    + vm_compute. reflexivity.
  - apply (proj1 digest_layer_behaviour
             (sample_world sample_files true true "id-1") fresh_engine "in/a.png");
      vm_compute; reflexivity.
  - apply (proj1 digest_layer_behaviour
             (sample_world sample_files true true "id-2")
             (snd (analyze_against_archive (sample_world sample_files true true "id-1")
                     fresh_engine "in/a.png"))
             "in/b.png").
    vm_compute. reflexivity.
Defined.

(** * The merge *)

Lemma merge_selected (basename : string) (size : Z) (render_method : string)
    (sha_result phash_result : option Finding.t) (best : Finding.t) :
  selected sha_result phash_result = Some best ->
  top_level (merge basename size render_method sha_result phash_result) = best.
Proof.
  destruct sha_result as [s|], phash_result as [p|]; simpl; intros H;
    try discriminate; injection H as <-.
  - unfold merge. simpl.
    destruct (Finding.fraud_risk_score s <? Finding.fraud_risk_score p);
      [destruct p | destruct s]; reflexivity.
  - destruct s; reflexivity.
  - destruct p; reflexivity.
Qed.

(** C3. With both findings present the report's top-level fields are those
    of the finding with the strictly higher risk score, and those of the
    digest-layer finding on a tie; with one finding present they are its
    fields. This holds of the merge on any two findings and of every
    report [analyze_against_archive] returns. *)
Theorem merge_takes_highest_risk :
  (forall basename size render_method (s p : Finding.t),
     let r := merge basename size render_method (Some s) (Some p) in
     (Finding.fraud_risk_score s < Finding.fraud_risk_score p -> top_level r = p) /\
     (Finding.fraud_risk_score p < Finding.fraud_risk_score s -> top_level r = s) /\
     (Finding.fraud_risk_score p = Finding.fraud_risk_score s -> top_level r = s)) /\
  (forall basename size render_method (f : Finding.t),
     top_level (merge basename size render_method (Some f) None) = f /\
     top_level (merge basename size render_method None (Some f)) = f) /\
  (forall (w : World) (self : ImageForensicsEngine) (file_path : string) (best : Finding.t),
     let r := fst (analyze_against_archive w self file_path) in
     selected (Report.layers_sha256 r) (Report.layers_phash r) = Some best ->
     top_level r = best).
Proof.
  split; [|split].
  - intros basename size render_method s p r.
    repeat split; intros H; apply merge_selected; simpl.
    + destruct (Z.ltb_spec (Finding.fraud_risk_score s) (Finding.fraud_risk_score p));
        [reflexivity | lia].
    + destruct (Z.ltb_spec (Finding.fraud_risk_score s) (Finding.fraud_risk_score p));
        [lia | reflexivity].
    + destruct (Z.ltb_spec (Finding.fraud_risk_score s) (Finding.fraud_risk_score p));
        [lia | reflexivity].
  - intros basename size render_method f. split; apply merge_selected; reflexivity.
  - intros w self file_path best r Hsel.
    destruct (fst (_validate_file w file_path)) eqn:Hok.
    + unfold r in *. rewrite (analyze_valid _ _ _ Hok) in *.
      destruct (sha256_layer w self file_path) as [sha_result self1].
      destruct (phash_layer w self1 file_path) as [[phash_result render_method] self2].
      simpl in *.
      match type of Hsel with context [merge ?b ?z ?m ?x ?y] =>
        destruct (merge_layers b z m x y) as (H1 & H2 & _) end.
      rewrite H1, H2 in Hsel. apply merge_selected. exact Hsel.
    + unfold r in Hsel. rewrite (analyze_invalid _ _ _ Hok) in Hsel. discriminate.
Qed.

Lemma merge_takes_highest_risk_witness :
  let w1 := sample_world sample_files true true "id-1" in
  let w2 := sample_world sample_files true true "id-2" in
  let self1 := snd (analyze_against_archive w1 fresh_engine "in/a.png") in
  top_level (fst (analyze_against_archive w2 self1 "in/b.png")) = sha_finding "a.png".
Proof.
  cbv zeta.
  apply (proj2 (proj2 merge_takes_highest_risk)
           (sample_world sample_files true true "id-2")
           (snd (analyze_against_archive (sample_world sample_files true true "id-1")
                   fresh_engine "in/a.png"))
           "in/b.png").
  vm_compute. reflexivity.
Defined.

(** * Rendering failures *)

(** C6 as stated fails: the degraded report's method is "failed", not the
    digest-only value "sha256_only". *)
Lemma unrenderable_method_counterexample :
  let w := sample_world sample_files true true "id-1" in
  let r := fst (analyze_against_archive w fresh_engine "in/e.bin") in
  fst (_validate_file w "in/e.bin") = true /\
  _load_as_pil w fresh_engine "in/e.bin" = None /\
  _sha256_archive fresh_engine !! _file_sha256 w "in/e.bin" = None /\
  ~ (Report.fraud_risk_score r = 10 /\
     Report.classification r = "Analysis Incomplete — Could Not Render Document" /\
     Report.fraud_detected r = false /\
     Report.method r = "sha256_only").
Proof.
  cbv zeta. split; [vm_compute; reflexivity|]. split; [vm_compute; reflexivity|].
  split; [vm_compute; reflexivity|].
  intros (_ & _ & _ & H). vm_compute in H. discriminate.
Qed.

(** C6, amended. When a validated document cannot be rendered and its
    digest is not archived, the report is the degraded one: risk 10,
    "Analysis Incomplete — Could Not Render Document", no fraud, and the
    method "failed". *)
Theorem unrenderable_without_digest_match (w : World) (self : ImageForensicsEngine)
    (file_path : string) :
  fst (_validate_file w file_path) = true ->
  _load_as_pil w self file_path = None ->
  _sha256_archive self !! _file_sha256 w file_path = None ->
  let r := fst (analyze_against_archive w self file_path) in
  Report.fraud_risk_score r = 10 /\
  Report.classification r = "Analysis Incomplete — Could Not Render Document" /\
  Report.fraud_detected r = false /\
  Report.method r = "failed" /\
  Report.matched_file r = None /\ Report.hamming_distance r = None /\
  Report.layers_sha256 r = None /\ Report.layers_phash r = None.
Proof.
  intros Hok Hload Hmiss. cbv zeta. rewrite (analyze_valid _ _ _ Hok).
  unfold sha256_layer, phash_layer.
  rewrite (load_as_pil_poppler w
    (with_sha256_archive self (<[_file_sha256 w file_path:=os_path_basename file_path]>
                                 (_sha256_archive self))) self file_path eq_refl).
  rewrite Hload, Hmiss. simpl. repeat split; reflexivity.
Qed.

Lemma unrenderable_without_digest_match_witness :
  let w := sample_world sample_files true true "id-1" in
  let r := fst (analyze_against_archive w fresh_engine "in/e.bin") in
  Report.fraud_risk_score r = 10 /\ Report.method r = "failed".
Proof.
  cbv zeta.
  destruct (unrenderable_without_digest_match (sample_world sample_files true true "id-1")
              fresh_engine "in/e.bin") as (H1 & _ & _ & H4 & _).
  - vm_compute. reflexivity.
  - vm_compute. reflexivity.
  - vm_compute. reflexivity.
  - split; [exact H1 | exact H4].
Defined.

(** With a digest match the unrenderable document is reported from the
    SHA-256 layer alone, and there the method is the digest-only one. *)
Lemma unrenderable_with_digest_match (w : World) (self : ImageForensicsEngine)
    (file_path stored : string) :
  fst (_validate_file w file_path) = true ->
  _load_as_pil w self file_path = None ->
  _sha256_archive self !! _file_sha256 w file_path = Some stored ->
  let r := fst (analyze_against_archive w self file_path) in
  Report.method r = "sha256_only" /\ top_level r = sha_finding stored.
Proof.
  intros Hok Hload Hhit. cbv zeta. rewrite (analyze_valid _ _ _ Hok).
  unfold sha256_layer, phash_layer.
  rewrite (load_as_pil_poppler w
    (with_sha256_archive self (<[_file_sha256 w file_path:=os_path_basename file_path]>
                                 (_sha256_archive self))) self file_path eq_refl).
  rewrite Hload, Hhit. simpl. split; reflexivity.
Qed.

(** * The method field *)

Lemma merge_method (basename : string) (size : Z) (render_method : string)
    (sha_result : option Finding.t) (p : Finding.t) :
  Report.method (merge basename size render_method sha_result (Some p)) = render_method.
Proof.
  destruct sha_result as [s|]; unfold merge; simpl; [|reflexivity].
  destruct (Finding.fraud_risk_score s <? Finding.fraud_risk_score p); reflexivity.
Qed.

Lemma analyze_valid_method (w : World) (self : ImageForensicsEngine) (file_path : string)
    (img : Image) :
  fst (_validate_file w file_path) = true ->
  _load_as_pil w self file_path = Some img ->
  Report.method (fst (analyze_against_archive w self file_path)) = render_method_of w.
Proof.
  intros Hok Hload. rewrite (analyze_valid _ _ _ Hok).
  unfold sha256_layer, phash_layer.
  rewrite (load_as_pil_poppler w
    (with_sha256_archive self (<[_file_sha256 w file_path:=os_path_basename file_path]>
                                 (_sha256_archive self))) self file_path eq_refl).
  rewrite Hload. cbv beta iota zeta. unfold fst. apply merge_method.
Qed.

(** C10. Whenever a raster was produced, the method field is a function of
    the two import probes alone. With [fitz] importable it reads "fitz"
    also when [fitz] raised and the raster came from [pdf2image], and when
    the file is no PDF and the raster came from PIL's decoder. *)
Theorem method_reports_import_probes :
  (forall (w : World) (self : ImageForensicsEngine) (file_path : string) (img : Image),
     fst (_validate_file w file_path) = true ->
     _load_as_pil w self file_path = Some img ->
     Report.method (fst (analyze_against_archive w self file_path)) =
       if FITZ_SUPPORT w then "fitz"
       else if PDF2IMAGE_SUPPORT w then "pdf2image" else "pil") /\
  (forall (w : World) (self : ImageForensicsEngine) (file_path msg : string) (img : Image),
     fst (_validate_file w file_path) = true ->
     str_lower (os_path_splitext_ext file_path) = ".pdf" ->
     FITZ_SUPPORT w = true ->
     fitz_open w file_path = Raised msg ->
     PDF2IMAGE_SUPPORT w = true ->
     pdf2image_block w self file_path = Return (Some img) ->
     _load_as_pil w self file_path = Some img /\
     Report.method (fst (analyze_against_archive w self file_path)) = "fitz") /\
  (forall (w : World) (self : ImageForensicsEngine) (file_path : string) (img : Image),
     fst (_validate_file w file_path) = true ->
     str_lower (os_path_splitext_ext file_path) <> ".pdf" ->
     FITZ_SUPPORT w = true ->
     open_gray w file_path = Returned img ->
     _load_as_pil w self file_path = Some img /\
     Report.method (fst (analyze_against_archive w self file_path)) = "fitz").
Proof.
  split; [|split].
  - intros w self file_path img Hok Hload.
    rewrite (analyze_valid_method _ _ _ _ Hok Hload). reflexivity.
  - intros w self file_path msg img Hok Hext Hfitz Hraise Hpdf Hblock.
    assert (Hload : _load_as_pil w self file_path = Some img).
    { unfold _load_as_pil. rewrite Hext. simpl.
      unfold _pdf_to_pil, fitz_block. rewrite Hfitz, Hraise, Hpdf, Hblock. reflexivity. }
    split; [exact Hload|].
    rewrite (analyze_valid_method _ _ _ _ Hok Hload). unfold render_method_of.
    rewrite Hfitz. reflexivity.
  - intros w self file_path img Hok Hext Hfitz Hopen.
    assert (Hload : _load_as_pil w self file_path = Some img).
    { unfold _load_as_pil.
      destruct (String.eqb_spec (str_lower (os_path_splitext_ext file_path)) ".pdf");
        [contradiction|].
      rewrite Hopen. destruct (existsb _ _); reflexivity. }
    split; [exact Hload|].
    rewrite (analyze_valid_method _ _ _ _ Hok Hload). unfold render_method_of.
    rewrite Hfitz. reflexivity.
Qed.

Lemma method_reports_import_probes_witness :
  let w := sample_world sample_files true true "id-1" in
  (_load_as_pil w fresh_engine "in/d.PDF" = Some (sample_image 5) /\
   Report.method (fst (analyze_against_archive w fresh_engine "in/d.PDF")) = "fitz") /\
  (_load_as_pil w fresh_engine "in/a.png" = Some (sample_image 0) /\
   Report.method (fst (analyze_against_archive w fresh_engine "in/a.png")) = "fitz").
Proof.
  cbv zeta. destruct method_reports_import_probes as (_ & Hpdf & Hpil). split.
  - apply (Hpdf (sample_world sample_files true true "id-1") fresh_engine "in/d.PDF"
             "cannot open broken document" (sample_image 5)); vm_compute; reflexivity.
  - apply (Hpil (sample_world sample_files true true "id-1") fresh_engine "in/a.png"
             (sample_image 0)); [vm_compute; reflexivity | | vm_compute; reflexivity ..].
    vm_compute. discriminate.
Defined.

(** * Pairwise comparison *)

(** C7. [analyze_files] raises its rendering error exactly when one of the
    two files gives no raster; otherwise it returns the Hamming distance of
    the two fingerprints, its similarity, and the classifier's score and
    label for it. It leaves the engine as it was and its result is the
    same whatever the two archives hold. *)
Theorem analyze_files_contract (w : World) (self : ImageForensicsEngine)
    (file1_path file2_path : string) :
  let result := fst (analyze_files w self file1_path file2_path) in
  (result = Raised "Could not render one or both files for comparison." <->
   _load_as_pil w self file1_path = None \/ _load_as_pil w self file2_path = None) /\
  (forall img1 img2,
     _load_as_pil w self file1_path = Some img1 ->
     _load_as_pil w self file2_path = Some img2 ->
     let distance := _hamming (_generate_phash w img1) (_generate_phash w img2) in
     result = Returned
       {| Comparison.hash_1 := _generate_phash w img1;
          Comparison.hash_2 := _generate_phash w img2;
          Comparison.hamming_distance := distance;
          Comparison.similarity_percent := similarity distance;
          Comparison.fraud_risk_score := fst (_risk_from_hamming distance);
          Comparison.classification := snd (_risk_from_hamming distance);
          Comparison.fraud_detected := distance <=? threshold self |}) /\
  snd (analyze_files w self file1_path file2_path) = self /\
  (forall phash_archive sha256_archive,
     fst (analyze_files w
            {| threshold := threshold self; poppler_path := poppler_path self;
               _phash_archive := phash_archive; _sha256_archive := sha256_archive |}
            file1_path file2_path) = result).
Proof.
  cbv zeta. repeat split.
  - unfold analyze_files.
    destruct (_load_as_pil w self file1_path), (_load_as_pil w self file2_path); auto.
    destruct (_risk_from_hamming _). simpl. discriminate.
  - unfold analyze_files.
    destruct (_load_as_pil w self file1_path), (_load_as_pil w self file2_path);
      try reflexivity.
    intros [H|H]; discriminate.
  - intros img1 img2 H1 H2. unfold analyze_files. rewrite H1, H2.
    destruct (_risk_from_hamming _). reflexivity.
  - unfold analyze_files.
    destruct (_load_as_pil w self file1_path), (_load_as_pil w self file2_path);
      try reflexivity.
    destruct (_risk_from_hamming _). reflexivity.
  - intros pa sa. unfold analyze_files.
    set (other := {| threshold := threshold self; poppler_path := poppler_path self;
                     _phash_archive := pa; _sha256_archive := sa |}).
    rewrite (load_as_pil_poppler w other self file1_path eq_refl).
    rewrite (load_as_pil_poppler w other self file2_path eq_refl).
    destruct (_load_as_pil w self file1_path), (_load_as_pil w self file2_path);
      try reflexivity.
    destruct (_risk_from_hamming _). reflexivity.
Qed.

Lemma analyze_files_contract_witness :
  let w := sample_world sample_files true true "id-1" in
  fst (analyze_files w fresh_engine "in/a.png" "in/d.PDF") =
    Returned {| Comparison.hash_1 := 0; Comparison.hash_2 := 5;
                Comparison.hamming_distance := 2;
                Comparison.similarity_percent := 9688;
                Comparison.fraud_risk_score := 95;
                Comparison.classification := "Critical Similarity — Likely Duplicate (pHash)";
                Comparison.fraud_detected := true |} /\
  fst (analyze_files w fresh_engine "in/a.png" "in/e.bin") =
    Raised "Could not render one or both files for comparison.".
Proof.
  cbv zeta. split.
  - rewrite (proj1 (proj2 (analyze_files_contract (sample_world sample_files true true "id-1")
               fresh_engine "in/a.png" "in/d.PDF")) (sample_image 0) (sample_image 5));
      vm_compute; reflexivity.
  - apply (proj1 (analyze_files_contract (sample_world sample_files true true "id-1")
             fresh_engine "in/a.png" "in/e.bin")).
    right. vm_compute. reflexivity.
Defined.

(** * The pHash layer *)

(** What the layer reports on a validated, rendered document whose archive
    holds an entry closer than 64 bits: the minimum distance and the name
    of an entry at that distance. *)
Lemma phash_layer_nearest (w : World) (self : ImageForensicsEngine) (file_path : string)
    (img : Image) (m : Z) :
  fst (_validate_file w file_path) = true ->
  _load_as_pil w self file_path = Some img ->
  minimum_distance (_generate_phash w img) (_phash_archive self) = Some m ->
  m < 64 ->
  exists f aid aname ahash,
    Report.layers_phash (fst (analyze_against_archive w self file_path)) = Some f /\
    Finding.hamming_distance f = Some m /\
    Finding.matched_file f = Some aname /\
    (aid, (aname, ahash)) ∈ _phash_archive self /\
    _hamming (_generate_phash w img) ahash = m.
Proof.
  intros Hok Hload Hmin Hlt.
  destruct (analyze_valid_layers w self file_path Hok) as [_ Hph].
  rewrite Hload in Hph.
  destruct (scan_archive_nearest _ _ _ Hmin Hlt) as (Hd & aid & aname & ahash & Hin & Hham & Hid & Hnm).
  eexists. exists aid, aname, ahash. split; [exact Hph|].
  unfold phash_finding. rewrite Hid.
  destruct (_risk_from_hamming _). simpl. rewrite Hd, Hnm. auto.
Qed.

(** The scan starts from a best distance of 64 and takes strictly nearer
    entries only. At a 64-bit value that no [imagehash.phash] returns, all
    ones against an archived 0, it therefore keeps no entry. *)
Lemma scan_skips_distance_64 :
  let w := sample_world sample_files true true "id-2" in
  let self :=
    snd (analyze_against_archive (sample_world sample_files true true "id-1")
           fresh_engine "in/a.png") in
  _phash_archive self = [("id-1", ("a.png", 0))] /\
  fst (_validate_file w "in/c.png") = true /\
  _load_as_pil w self "in/c.png" = Some (sample_image (Z.ones 64)) /\
  _generate_phash w (sample_image (Z.ones 64)) = 18446744073709551615 /\
  minimum_distance 18446744073709551615 (_phash_archive self) = Some 64 /\
  Report.layers_phash (fst (analyze_against_archive w self "in/c.png")) =
    Some {| Finding.matched_file := None;
            Finding.similarity_percent := 0;
            Finding.fraud_risk_score := 5;
            Finding.classification := "First Upload — No Reference";
            Finding.fraud_detected := false;
            Finding.hamming_distance := None |}.
Proof.
  vm_compute. repeat split; reflexivity.
Qed.

(** C9. A reported fingerprint distance [d] lies in 0..64, the similarity
    beside it is [round(((64 - d) / 64) * 100, 2)], the hundredth nearest
    to that quotient, and the layer's fraud flag is [d <= threshold]; so it
    is for [analyze_files]. The similarity does not increase with the
    distance, and the threshold defaults to 10. *)
Theorem similarity_and_fraud_flag :
  (forall (w : World) (self : ImageForensicsEngine) (file_path : string)
          (f : Finding.t) (d : Z),
     Report.layers_phash (fst (analyze_against_archive w self file_path)) = Some f ->
     Finding.hamming_distance f = Some d ->
     0 <= d <= 64 /\
     Finding.similarity_percent f =
       py_round_2 (((inject_Z 64 - inject_Z d) / inject_Z 64) * inject_Z 100)%Q /\
     Finding.fraud_detected f = (d <=? threshold self)) /\
  (forall (w : World) (self : ImageForensicsEngine) (file1_path file2_path : string)
          (c : Comparison.t),
     fst (analyze_files w self file1_path file2_path) = Returned c ->
     let d := Comparison.hamming_distance c in
     0 <= d <= 64 /\
     Comparison.similarity_percent c =
       py_round_2 (((inject_Z 64 - inject_Z d) / inject_Z 64) * inject_Z 100)%Q /\
     Comparison.fraud_detected c = (d <=? threshold self)) /\
  (forall d, 0 <= d <= 64 ->
     Z.abs (64 * similarity d - 10000 * (64 - d)) <= 32) /\
  (forall d1 d2, 0 <= d1 -> d1 < d2 -> d2 <= 64 -> similarity d1 >= similarity d2) /\
  (forall poppler platform_poppler,
     threshold (__init__ None poppler platform_poppler) = 10).
Proof.
  split; [|split; [|split; [|split]]].
  - intros w self file_path f d Hf Hd.
    destruct (fst (_validate_file w file_path)) eqn:Hok.
    + destruct (analyze_valid_layers w self file_path Hok) as [_ Hph].
      rewrite Hf in Hph. destruct (_load_as_pil w self file_path) as [img|]; [|discriminate].
      injection Hph as ->. unfold phash_finding in Hd |- *.
      pose proof (scan_archive_distance_range (_generate_phash w img) (_phash_archive self)) as Hr.
      destruct (best_id _); [|discriminate].
      destruct (_risk_from_hamming _). simpl in Hd |- *. injection Hd as <-.
      repeat split; try reflexivity; lia.
    + rewrite (analyze_invalid _ _ _ Hok) in Hf. discriminate.
  - intros w self file1_path file2_path c Hc. unfold analyze_files in Hc.
    destruct (_load_as_pil w self file1_path) as [img1|]; [|discriminate].
    destruct (_load_as_pil w self file2_path) as [img2|]; [|discriminate].
    destruct (_risk_from_hamming _). simpl in Hc. injection Hc as <-. simpl.
    pose proof (hamming_range (_generate_phash w img1) (_generate_phash w img2)).
    repeat split; try reflexivity; lia.
  - exact similarity_nearest.
  - intros d1 d2 H0 Hlt H64.
    pose proof (similarity_antitone d1 d2 H0 ltac:(lia) H64). lia.
  - reflexivity.
Qed.

Lemma similarity_and_fraud_flag_witness :
  let w := sample_world sample_files true true "id-2" in
  let self :=
    snd (analyze_against_archive (sample_world sample_files true true "id-1")
           fresh_engine "in/a.png") in
  (0 <= 2 <= 64 /\
   9688 = py_round_2 (((inject_Z 64 - inject_Z 2) / inject_Z 64) * inject_Z 100)%Q /\
   true = (2 <=? threshold self)) /\
  similarity 3 >= similarity 11.
Proof.
  cbv zeta. destruct similarity_and_fraud_flag as (Hcall & _ & _ & Hmono & _). split.
  - apply (Hcall (sample_world sample_files true true "id-2")
             (snd (analyze_against_archive (sample_world sample_files true true "id-1")
                     fresh_engine "in/a.png"))
             "in/d.PDF"
             {| Finding.matched_file := Some "a.png";
                Finding.similarity_percent := 9688;
                Finding.fraud_risk_score := 95;
                Finding.classification := "Critical Similarity — Likely Duplicate (pHash)";
                Finding.fraud_detected := true;
                Finding.hamming_distance := Some 2 |} 2).
    + vm_compute. reflexivity.
    + reflexivity.
  - apply Hmono; lia.
Defined.

(** * The fingerprint archive over a session *)

Lemma has_id_false (k : string) (archive : list (string * (string * Z))) :
  has_id k archive = false -> k ∉ map fst archive.
Proof.
  unfold has_id. intros H Hin. apply list_elem_of_In in Hin.
  assert (existsb (String.eqb k) (map fst archive) = true); [|congruence].
  apply existsb_exists. exists k. split; [exact Hin | apply String.eqb_refl].
Qed.

Lemma analyze_phash_archive (w : World) (self : ImageForensicsEngine) (file_path : string) :
  _phash_archive (snd (analyze_against_archive w self file_path)) =
  match renders w self file_path with
  | Some img =>
      dict_set (uuid4 w) (os_path_basename file_path, _generate_phash w img)
               (_phash_archive self)
  | None => _phash_archive self
  end.
Proof.
  unfold renders. destruct (fst (_validate_file w file_path)) eqn:Hok.
  - rewrite (analyze_valid _ _ _ Hok). unfold sha256_layer, phash_layer.
    rewrite (load_as_pil_poppler w
      (with_sha256_archive self (<[_file_sha256 w file_path:=os_path_basename file_path]>
                                   (_sha256_archive self))) self file_path eq_refl).
    destruct (_load_as_pil w self file_path); reflexivity.
  - rewrite (analyze_invalid _ _ _ Hok). reflexivity.
Qed.

Lemma analyze_archive_size (w : World) (self : ImageForensicsEngine) (file_path : string) :
  Report.archive_size (fst (analyze_against_archive w self file_path)) =
  Z.of_nat (length (_phash_archive (snd (analyze_against_archive w self file_path)))).
Proof.
  destruct (fst (_validate_file w file_path)) eqn:Hok.
  - rewrite (analyze_valid _ _ _ Hok).
    destruct (sha256_layer w self file_path) as [sha_result self1].
    destruct (phash_layer w self1 file_path) as [[phash_result render_method] self2].
    simpl. apply merge_layers.
  - rewrite (analyze_invalid _ _ _ Hok). reflexivity.
Qed.

Lemma run_snd_cons (self : ImageForensicsEngine) (w : World) (file_path : string)
    (rest : list (World * string)) :
  snd (run self ((w, file_path) :: rest)) =
  snd (run (snd (analyze_against_archive w self file_path)) rest).
Proof.
  simpl. destruct (analyze_against_archive w self file_path) as [r self'].
  simpl. destruct (run self' rest). reflexivity.
Qed.

Lemma run_never_shrinks (calls : list (World * string)) :
  forall self,
    (length (_phash_archive self) <= length (_phash_archive (snd (run self calls))))%nat.
Proof.
  induction calls as [|[w file_path] rest IH]; intros self; [simpl; lia|].
  rewrite run_snd_cons. specialize (IH (snd (analyze_against_archive w self file_path))).
  rewrite analyze_phash_archive in IH at 1.
  destruct (renders w self file_path); [|exact IH].
  pose proof (dict_set_length (uuid4 w)
                (os_path_basename file_path, _generate_phash w i) (_phash_archive self)).
  lia.
Qed.

Lemma run_appends (calls : list (World * string)) :
  forall self,
    fresh_ids self calls = true ->
    _phash_archive (snd (run self calls)) =
    (_phash_archive self ++ appended_entries self calls)%list.
Proof.
  induction calls as [|[w file_path] rest IH]; intros self Hfresh.
  - simpl. rewrite app_nil_r. reflexivity.
  - rewrite run_snd_cons. simpl in Hfresh. apply andb_true_iff in Hfresh as [Hid Hrest].
    rewrite (IH _ Hrest), analyze_phash_archive. simpl. unfold appended_entry.
    destruct (renders w self file_path) as [img|]; [|reflexivity].
    apply negb_true_iff, has_id_false in Hid.
    rewrite (dict_set_fresh _ _ _ Hid), <- app_assoc. reflexivity.
Qed.

Lemma appended_entries_length (calls : list (World * string)) :
  forall self, length (appended_entries self calls) = rendered_count self calls.
Proof.
  induction calls as [|[w file_path] rest IH]; intros self; [reflexivity|].
  simpl. rewrite length_app, IH. unfold appended_entry.
  destruct (renders w self file_path); reflexivity.
Qed.

(** C8. Over any session the fingerprint archive never gets smaller. When
    the ids drawn are fresh, the archive after the session is the archive
    before it followed by one entry per rendered submission, in order: no
    entry is removed or overwritten. A call's finding comes from the scan
    of the entries present before the call, its own entry is added after
    that and is never the one matched, and on an empty archive the finding
    is the first-upload one. From a new engine, the archive holds as many
    entries as there were rendered submissions, whatever was flagged, and
    each report's [archive_size] is the size after its call. *)
Theorem fingerprint_archive_append_only :
  (forall (self : ImageForensicsEngine) (calls : list (World * string)),
     (length (_phash_archive self) <= length (_phash_archive (snd (run self calls))))%nat) /\
  (forall (self : ImageForensicsEngine) (calls : list (World * string)),
     fresh_ids self calls = true ->
     _phash_archive (snd (run self calls)) =
     (_phash_archive self ++ appended_entries self calls)%list) /\
  (forall (w : World) (self : ImageForensicsEngine) (file_path : string) (img : Image),
     renders w self file_path = Some img ->
     let st := scan_archive (_generate_phash w img) (_phash_archive self) in
     Report.layers_phash (fst (analyze_against_archive w self file_path)) =
       Some (phash_finding self st) /\
     (has_id (uuid4 w) (_phash_archive self) = false -> best_id st <> Some (uuid4 w)) /\
     (_phash_archive self = [] ->
      Finding.classification (phash_finding self st) = "First Upload — No Reference" /\
      Finding.hamming_distance (phash_finding self st) = None /\
      Finding.matched_file (phash_finding self st) = None)) /\
  (forall threshold_arg poppler platform_poppler (calls : list (World * string)),
     let self := __init__ threshold_arg poppler platform_poppler in
     fresh_ids self calls = true ->
     length (_phash_archive (snd (run self calls))) = rendered_count self calls) /\
  (forall (w : World) (self : ImageForensicsEngine) (file_path : string),
     Report.archive_size (fst (analyze_against_archive w self file_path)) =
     Z.of_nat (length (_phash_archive (snd (analyze_against_archive w self file_path))))).
Proof.
  split; [|split; [|split; [|split]]].
  - intros self calls. apply run_never_shrinks.
  - intros self calls. apply run_appends.
  - intros w self file_path img Hr st. unfold renders in Hr.
    destruct (fst (_validate_file w file_path)) eqn:Hok; [|discriminate].
    destruct (analyze_valid_layers w self file_path Hok) as [_ Hph].
    rewrite Hr in Hph. split; [exact Hph|]. split.
    + intros Hfresh Hid. apply scan_archive_id in Hid.
      apply has_id_false in Hfresh. contradiction.
    + intros Hempty. unfold st. rewrite Hempty. simpl. auto.
  - intros threshold_arg poppler platform_poppler calls self Hfresh.
    rewrite (run_appends _ _ Hfresh). simpl. apply appended_entries_length.
  - apply analyze_archive_size.
Qed.

Lemma fingerprint_archive_append_only_witness :
  let calls := [(sample_world sample_files true true "id-1", "in/a.png");
                (sample_world sample_files true true "id-2", "in/b.png");
                (sample_world sample_files true true "id-3", "in/empty.png");
                (sample_world sample_files true true "id-4", "in/e.bin");
                (sample_world sample_files true true "id-5", "in/d.PDF")] in
  _phash_archive (snd (run fresh_engine calls)) =
    ([] ++ appended_entries fresh_engine calls)%list /\
  length (_phash_archive (snd (run fresh_engine calls))) = rendered_count fresh_engine calls /\
  rendered_count fresh_engine calls = 3%nat /\
  Finding.hamming_distance
    (phash_finding fresh_engine (scan_archive 0 (_phash_archive fresh_engine))) = None.
Proof.
  cbv zeta. destruct fingerprint_archive_append_only as (_ & Happ & Hscan & Hcount & _).
  split; [|split; [|split]].
  - apply (Happ fresh_engine). vm_compute. reflexivity.
  - apply (Hcount None None None). vm_compute. reflexivity.
  - vm_compute. reflexivity.
  - apply (Hscan (sample_world sample_files true true "id-1") fresh_engine "in/a.png"
             (sample_image 0)); [vm_compute; reflexivity | reflexivity].
Defined.

(** * Further properties of the engine *)

(** ** Hamming distance *)

Lemma filter_length_zero {A : Type} (P : A -> Prop) `{forall x, Decision (P x)} (l : list A) :
  length (filter P l) = O -> forall x, x ∈ l -> ~ P x.
Proof.
  induction l as [|y l IH]; intros Hlen x Hin; [inversion Hin|].
  rewrite filter_cons in Hlen. destruct (decide (P y)) as [Hy|Hy]; [discriminate|].
  apply elem_of_cons in Hin as [->|Hin]; [exact Hy | exact (IH Hlen x Hin)].
Qed.

Lemma filter_length_cover {A : Type} (P Q R : A -> Prop)
    `{forall x, Decision (P x)} `{forall x, Decision (Q x)} `{forall x, Decision (R x)}
    (l : list A) :
  (forall x, P x -> Q x \/ R x) ->
  (length (filter P l) <= length (filter Q l) + length (filter R l))%nat.
Proof.
  intros Hcover. induction l as [|y l IH]; [simpl; lia|].
  rewrite !filter_cons.
  destruct (decide (P y)) as [Hp|Hp], (decide (Q y)) as [Hq|Hq], (decide (R y)) as [Hr|Hr];
    simpl; try lia.
  destruct (Hcover y Hp); contradiction.
Qed.

Lemma popcount64_zero_bits (x : Z) :
  popcount64 x = 0 -> forall i, 0 <= i < 64 -> Z.testbit x i = false.
Proof.
  unfold popcount64. intros Hz i Hi.
  assert (Hlen : length (filter (fun i => Is_true (Z.testbit x i)) (seqZ 0 hash_bits)) = O) by lia.
  pose proof (filter_length_zero _ _ Hlen i) as Hno.
  cbv beta in Hno. destruct (Z.testbit x i); [|reflexivity].
  exfalso. apply Hno; [|exact I]. apply elem_of_seqZ. unfold hash_bits. lia.
Qed.

Lemma hash64_high_bits (a : Z) (n : Z) : is_hash64 a -> 64 <= n -> Z.testbit a n = false.
Proof.
  intros Ha Hn. rewrite <- (Z.mod_small a (2 ^ 64)) by exact Ha.
  apply Z.mod_pow2_bits_high. lia.
Qed.

Lemma wrap64_range (x : Z) : is_hash64 (wrap64 x).
Proof.
  unfold is_hash64, wrap64, hash_bits. rewrite Z.land_ones by lia.
  apply Z.mod_pos_bound. lia.
Qed.

(** X1. The distance is a metric on 64-bit fingerprints: symmetric, zero
    on equal fingerprints and only there, and obeying the triangle
    inequality; every fingerprint the engine generates has 64 bits. *)
Theorem hamming_is_a_metric :
  (forall a b, _hamming a b = _hamming b a) /\
  (forall a, _hamming a a = 0) /\
  (forall a b, is_hash64 a -> is_hash64 b -> _hamming a b = 0 -> a = b) /\
  (forall a b c, _hamming a c <= _hamming a b + _hamming b c) /\
  (forall (w : World) (img : Image), is_hash64 (_generate_phash w img)).
Proof.
  split; [|split; [|split; [|split]]].
  - intros a b. unfold _hamming. rewrite Z.lxor_comm. reflexivity.
  - intros a. unfold _hamming. rewrite Z.lxor_nilpotent. vm_compute. reflexivity.
  - intros a b Ha Hb Hd. rewrite hamming_popcount in Hd.
    pose proof (popcount64_zero_bits _ Hd) as Hbits.
    apply Z.bits_inj'. intros n Hn.
    destruct (Z_lt_le_dec n 64) as [Hlt|Hge].
    + specialize (Hbits n ltac:(lia)). rewrite Z.lxor_spec in Hbits.
      destruct (Z.testbit a n), (Z.testbit b n); simpl in Hbits; congruence.
    + rewrite (hash64_high_bits a n Ha Hge), (hash64_high_bits b n Hb Hge). reflexivity.
  - intros a b c. rewrite !hamming_popcount. unfold popcount64.
    pose proof (filter_length_cover
      (fun i => Is_true (Z.testbit (Z.lxor a c) i))
      (fun i => Is_true (Z.testbit (Z.lxor a b) i))
      (fun i => Is_true (Z.testbit (Z.lxor b c) i)) (seqZ 0 hash_bits)) as H.
    cbv beta in H. 
    assert (Hc : forall x, Is_true (Z.testbit (Z.lxor a c) x) ->
                 Is_true (Z.testbit (Z.lxor a b) x) \/ Is_true (Z.testbit (Z.lxor b c) x)).
    { intros x. rewrite !Z.lxor_spec.
      destruct (Z.testbit a x), (Z.testbit b x), (Z.testbit c x); simpl; auto. }
    specialize (H Hc). lia.
  - intros w img. apply wrap64_range.
Qed.

Lemma hamming_is_a_metric_witness :
  9 = wrap64 9 /\ _hamming 5 5 = 0 /\ _hamming 0 4095 <= _hamming 0 5 + _hamming 5 4095.
Proof.
  destruct hamming_is_a_metric as (_ & Hrefl & Hsep & Htri & _).
  split; [|split].
  - apply (Hsep 9 (wrap64 9)).
    + unfold is_hash64. lia.
    + apply wrap64_range.
    + vm_compute. reflexivity.
  - apply Hrefl.
  - apply Htri.
Defined.

(** ** Validation *)

(** X2. [_validate_file] checks existence first, then emptiness, then the
    50 MiB limit: a missing path is "File not found on disk" whatever size
    is reported for it; an existing file passes exactly from 1 byte to
    52428800 bytes; for a larger one the message names the whole MiB of its
    size, so just above the limit it reads "50 MB > 50 MB limit". *)
Theorem validate_file_outcomes (w : World) (file_path : string) :
  let size := os_path_getsize w file_path in
  (os_path_exists w file_path = false ->
   _validate_file w file_path = (false, "File not found on disk")) /\
  (os_path_exists w file_path = true -> size = 0 ->
   _validate_file w file_path = (false, "Empty file (0 bytes) — rejected")) /\
  (os_path_exists w file_path = true -> 1 <= size <= 52428800 ->
   _validate_file w file_path = (true, "")) /\
  (os_path_exists w file_path = true -> 52428800 < size ->
   exists n, _validate_file w file_path =
               (false, "File too large (" +:+ str_of_int n +:+ " MB > 50 MB limit)") /\
             50 <= n /\ n * 1048576 <= size < (n + 1) * 1048576) /\
  (os_path_exists w file_path = true -> 52428800 < size < 53477376 ->
   _validate_file w file_path = (false, "File too large (50 MB > 50 MB limit)")).
Proof.
  cbv zeta. unfold _validate_file, size_limit.
  set (size := os_path_getsize w file_path).
  split; [|split; [|split; [|split]]].
  - intros ->. reflexivity.
  - intros -> Hs. rewrite Hs. reflexivity.
  - intros -> Hs. simpl.
    destruct (Z.eqb_spec size 0); [lia|].
    destruct (Z.ltb_spec (50 * 1024 * 1024) size); [lia|reflexivity].
  - intros -> Hs. simpl.
    destruct (Z.eqb_spec size 0); [lia|].
    destruct (Z.ltb_spec (50 * 1024 * 1024) size); [|lia].
    exists (size / 1024 / 1024). split; [reflexivity|].
    rewrite Z.div_div by lia. change (1024 * 1024) with 1048576.
    pose proof (Z.div_mod size 1048576 ltac:(lia)).
    pose proof (Z.mod_pos_bound size 1048576 ltac:(lia)).
    assert (50 <= size / 1048576) by (apply Z.div_le_lower_bound; lia).
    lia.
  - intros -> Hs. simpl.
    destruct (Z.eqb_spec size 0); [lia|].
    destruct (Z.ltb_spec (50 * 1024 * 1024) size); [|lia].
    rewrite Z.div_div by lia. change (1024 * 1024) with 1048576.
    assert (size / 1048576 = 50) as ->; [|reflexivity].
    symmetry. apply (Z.div_unique size 1048576 50 (size - 52428800)); lia.
Qed.

Lemma validate_file_outcomes_witness :
  _validate_file (sample_world sample_files true true "id-1") "in/missing.png"
    = (false, "File not found on disk") /\
  _validate_file (sample_world sample_files true true "id-1") "in/empty.png"
    = (false, "Empty file (0 bytes) — rejected") /\
  _validate_file (sample_world sample_files true true "id-1") "in/a.png" = (true, "").
Proof.
  pose proof (validate_file_outcomes (sample_world sample_files true true "id-1")
                "in/missing.png") as (H1 & _).
  pose proof (validate_file_outcomes (sample_world sample_files true true "id-1")
                "in/empty.png") as (_ & H2 & _).
  pose proof (validate_file_outcomes (sample_world sample_files true true "id-1")
                "in/a.png") as (_ & _ & H3 & _).
  split; [|split].
  - apply H1. vm_compute. reflexivity.
  - apply H2; vm_compute; reflexivity.
  - apply H3; [vm_compute; reflexivity | vm_compute; split; discriminate].
Defined.

(** ** Streaming the file *)

Lemma read_chunks_lookup (n : nat) (fuel : nat) :
  (0 < n)%nat ->
  forall (data : list Byte.byte) (i : nat) (c : list Byte.byte),
    (length data < fuel)%nat ->
    (read_chunks fuel n data !! i = Some c <->
     c = take n (drop (i * n) data) /\ (i * n < length data)%nat).
Proof.
  intros Hn. induction fuel as [|fuel IH]; intros data i c Hlen; [lia|].
  simpl. destruct data as [|b data].
  - rewrite take_nil. simpl. split; [discriminate|]. intros [_ H]. simpl in H. lia.
  - destruct n as [|n]; [lia|].
    change (take (S n) (b :: data)) with (b :: take n data).
    change (drop (S n) (b :: data)) with (drop n data).
    destruct i as [|i].
    + simpl. split.
      * intros [= <-]. split; [reflexivity | lia].
      * intros [-> _]. reflexivity.
    + change (((b :: take n data) :: read_chunks fuel (S n) (drop n data)) !! S i)
        with (read_chunks fuel (S n) (drop n data) !! i).
      rewrite IH by (rewrite length_drop; simpl in Hlen; lia).
      rewrite drop_drop, length_drop.
      replace (S i * S n)%nat with (S (n + i * S n)) by lia.
      change (drop (S (n + i * S n)) (b :: data)) with (drop (n + i * S n) data).
      simpl length. split; intros [-> H]; (split; [reflexivity | lia]).
Qed.

Lemma read_chunks_concat (n : nat) (fuel : nat) :
  (0 < n)%nat ->
  forall data : list Byte.byte, (length data < fuel)%nat ->
    concat (read_chunks fuel n data) = data.
Proof.
  intros Hn. induction fuel as [|fuel IH]; intros data Hlen; [lia|].
  simpl. destruct data as [|b data]; [rewrite take_nil; reflexivity|].
  destruct n as [|n]; [lia|].
  change (take (S n) (b :: data)) with (b :: take n data).
  change (drop (S n) (b :: data)) with (drop n data).
  simpl. rewrite IH by (rewrite length_drop; simpl in Hlen; lia).
  rewrite take_drop. reflexivity.
Qed.

Lemma read_chunks_bounds (n : nat) (fuel : nat) (data : list Byte.byte) :
  (0 < n)%nat -> (length data < fuel)%nat ->
  Forall (fun c => (0 < length c <= n)%nat) (read_chunks fuel n data).
Proof.
  intros Hn Hlen. apply Forall_lookup. intros i c Hc.
  apply (read_chunks_lookup n fuel Hn) in Hc as [-> Hin]; [|exact Hlen].
  rewrite length_take, length_drop. lia.
Qed.

Lemma chunk_size_pos : (0 < chunk_size)%nat.
Proof. unfold chunk_size. apply Nat2Z.inj_lt. rewrite Z2Nat.id; lia. Qed.

(** X3. [_file_sha256] reads the file in consecutive ranges of 65536
    bytes: read number [i] is the bytes from [i * 65536] on, at most 65536
    of them, and there is such a read exactly while [i * 65536] is inside
    the file. Every read is non-empty, the reads put together are the file,
    and the digest is the digest of the whole file. *)
Theorem file_sha256_reads (w : World) (file_path : string) :
  let data := read_bytes w file_path in
  Z.of_nat chunk_size = 65536 /\
  (forall (i : nat) (c : list Byte.byte),
     file_chunks data !! i = Some c <->
     c = take chunk_size (drop (i * chunk_size) data) /\ (i * chunk_size < length data)%nat) /\
  Forall (fun c => (0 < length c <= chunk_size)%nat) (file_chunks data) /\
  concat (file_chunks data) = data /\
  _file_sha256 w file_path = sha256_hexdigest w data.
Proof.
  cbv zeta. pose proof chunk_size_pos as Hpos.
  split; [unfold chunk_size; apply Z2Nat.id; lia|]. split; [|split; [|split]].
  - intros i c. unfold file_chunks.
    apply (read_chunks_lookup chunk_size _ Hpos). apply Nat.lt_succ_diag_r.
  - unfold file_chunks. apply (read_chunks_bounds chunk_size _ _ Hpos).
    apply Nat.lt_succ_diag_r.
  - unfold file_chunks. apply (read_chunks_concat chunk_size _ Hpos).
    apply Nat.lt_succ_diag_r.
  - apply file_sha256_whole.
Qed.

Lemma file_sha256_reads_witness :
  file_chunks (read_bytes (sample_world sample_files true true "id-1") "in/a.png") !! O
  = Some (take chunk_size
            (drop (0 * chunk_size)
               (read_bytes (sample_world sample_files true true "id-1") "in/a.png"))).
Proof.
  apply (proj1 (proj2 (file_sha256_reads (sample_world sample_files true true "id-1")
                         "in/a.png"))).
  split; [reflexivity|]. rewrite Nat.mul_0_l. apply Nat.lt_0_succ.
Defined.

(** ** The renderer *)

(** X4. What [_pdf_to_pil] makes of [fitz]: a document of zero pages ends
    the function with no raster, and the [pdf2image] fallback is not tried;
    a first page that renders is returned, rotated back by its declared
    rotation exactly when that is 90, 180 or 270, and again [pdf2image] has
    no say; with neither library importable there is no raster. *)
Theorem pdf_to_pil_with_fitz (w : World) (self : ImageForensicsEngine) (file_path : string) :
  (FITZ_SUPPORT w = true -> fitz_open w file_path = Returned [] ->
   _pdf_to_pil w self file_path = None) /\
  (forall (page : FitzPage) (rest : list FitzPage) (img : Image),
     FITZ_SUPPORT w = true ->
     fitz_open w file_path = Returned (page :: rest) ->
     page_render_gray_2x page = Returned img ->
     (page_rotation page ∈ [90; 180; 270] ->
      _pdf_to_pil w self file_path = Some (Image_rotate_expand w (- page_rotation page) img)) /\
     (page_rotation page ∉ [90; 180; 270] ->
      _pdf_to_pil w self file_path = Some img)) /\
  (FITZ_SUPPORT w = false -> PDF2IMAGE_SUPPORT w = false ->
   _pdf_to_pil w self file_path = None).
Proof.
  unfold _pdf_to_pil, fitz_block. split; [|split].
  - intros -> ->. reflexivity.
  - intros page rest img -> -> ->. split; intros Hrot.
    + assert ((page_rotation page =? 90) || (page_rotation page =? 180)
              || (page_rotation page =? 270) = true) as ->; [|reflexivity].
      repeat (apply elem_of_cons in Hrot as [->|Hrot]); try reflexivity. inversion Hrot.
    + assert ((page_rotation page =? 90) || (page_rotation page =? 180)
              || (page_rotation page =? 270) = false) as ->; [|reflexivity].
      destruct (Z.eqb_spec (page_rotation page) 90) as [E|_];
        [exfalso; apply Hrot; rewrite E; set_solver|].
      destruct (Z.eqb_spec (page_rotation page) 180) as [E|_];
        [exfalso; apply Hrot; rewrite E; set_solver|].
      destruct (Z.eqb_spec (page_rotation page) 270) as [E|_];
        [exfalso; apply Hrot; rewrite E; set_solver|].
      reflexivity.
  - intros -> ->. reflexivity.
Qed.

Lemma pdf_to_pil_with_fitz_witness :
  let blank := sample_world_fitz sample_files [] "id-1" in
  let turned :=
    sample_world_fitz sample_files
      [{| page_rotation := 90; page_render_gray_2x := Returned (sample_image 7) |}] "id-1" in
  _pdf_to_pil blank fresh_engine "in/d.PDF" = None /\
  pdf2image_block blank fresh_engine "in/d.PDF" = Return (Some (sample_image 5)) /\
  _pdf_to_pil turned fresh_engine "in/d.PDF"
    = Some (Image_rotate_expand turned (- 90) (sample_image 7)).
Proof.
  cbv zeta. split; [|split].
  - apply (proj1 (pdf_to_pil_with_fitz (sample_world_fitz sample_files [] "id-1")
                    fresh_engine "in/d.PDF")); reflexivity.
  - reflexivity.
  - apply (proj1 (proj2 (pdf_to_pil_with_fitz
             (sample_world_fitz sample_files
                [{| page_rotation := 90; page_render_gray_2x := Returned (sample_image 7) |}]
                "id-1") fresh_engine "in/d.PDF"))
             {| page_rotation := 90; page_render_gray_2x := Returned (sample_image 7) |} []
             (sample_image 7)); try reflexivity.
    simpl. set_solver.
Defined.

(** X5. The fallback of [_pdf_to_pil]: when [fitz] is not importable, or
    raises on opening the document or on rendering its first page, the
    result is that of [pdf2image] if it is importable: the first page it
    converted, in grayscale, and no raster when it raises, converts no page
    or the grayscale conversion raises. *)
Theorem pdf_to_pil_fallback (w : World) (self : ImageForensicsEngine) (file_path : string) :
  (FITZ_SUPPORT w = false \/
   (exists msg, fitz_open w file_path = Raised msg) \/
   (exists page rest msg, fitz_open w file_path = Returned (page :: rest) /\
                          page_render_gray_2x page = Raised msg)) ->
  _pdf_to_pil w self file_path =
    if PDF2IMAGE_SUPPORT w then
      match convert_from_path w (os_path_abspath w file_path) (poppler_path self) with
      | Returned (first :: _) => try_or_None (Image_convert_L w first)
      | _ => None
      end
    else None.
Proof.
  intros Hfail.
  assert (Hfall : (if FITZ_SUPPORT w then fitz_block w file_path else FallThrough)
                  = FallThrough).
  { unfold fitz_block.
    destruct Hfail as [-> | [[msg ->] | (page & rest & msg & -> & ->)]];
      [reflexivity | |]; destruct (FITZ_SUPPORT w); reflexivity. }
  unfold _pdf_to_pil. rewrite Hfall. unfold pdf2image_block.
  destruct (PDF2IMAGE_SUPPORT w); [|reflexivity].
  destruct (convert_from_path _ _ _) as [[|first pages]|]; try reflexivity.
  destruct (Image_convert_L w first); reflexivity.
Qed.

Lemma pdf_to_pil_fallback_witness :
  _pdf_to_pil (sample_world sample_files true true "id-1") fresh_engine "in/d.PDF"
  = Some (sample_image 5).
Proof.
  rewrite (pdf_to_pil_fallback (sample_world sample_files true true "id-1")
             fresh_engine "in/d.PDF").
  - reflexivity.
  - right. left. exists "cannot open broken document". reflexivity.
Defined.

(** X6. [_load_as_pil] looks at the lower-cased extension only to tell
    PDFs apart: a ".pdf" path goes to [_pdf_to_pil] and PIL's decoder is
    not asked; any other path, with a supported image extension or not, is
    decoded by PIL whatever the two PDF libraries are, and a decoder error
    gives no raster. *)
Theorem load_as_pil_dispatch (w : World) (self : ImageForensicsEngine) (file_path : string) :
  (str_lower (os_path_splitext_ext file_path) = ".pdf" ->
   _load_as_pil w self file_path = _pdf_to_pil w self file_path) /\
  (str_lower (os_path_splitext_ext file_path) <> ".pdf" ->
   _load_as_pil w self file_path =
     match Image_open w file_path with
     | Returned img => try_or_None (Image_convert_L w img)
     | Raised _ => None
     end).
Proof.
  unfold _load_as_pil. split.
  - intros ->. reflexivity.
  - intros Hne.
    destruct (String.eqb_spec (str_lower (os_path_splitext_ext file_path)) ".pdf");
      [contradiction|].
    unfold open_gray.
    destruct (existsb _ _); destruct (Image_open w file_path); reflexivity.
Qed.

Lemma load_as_pil_dispatch_witness :
  let w := sample_world sample_files true true "id-1" in
  _load_as_pil w fresh_engine "in/d.PDF" = _pdf_to_pil w fresh_engine "in/d.PDF" /\
  _load_as_pil w fresh_engine "in/e.bin" = None /\
  _load_as_pil w fresh_engine "in/a.png" = Some (sample_image 0).
Proof.
  cbv zeta. split; [|split].
  - apply (proj1 (load_as_pil_dispatch (sample_world sample_files true true "id-1")
                    fresh_engine "in/d.PDF")). vm_compute. reflexivity.
  - rewrite (proj2 (load_as_pil_dispatch (sample_world sample_files true true "id-1")
                      fresh_engine "in/e.bin")); [reflexivity|]. vm_compute. discriminate.
  - rewrite (proj2 (load_as_pil_dispatch (sample_world sample_files true true "id-1")
                      fresh_engine "in/a.png")); [reflexivity|]. vm_compute. discriminate.
Defined.

(** ** Construction *)

Lemma first_existing_sound (exists_ : string -> bool) (candidates : list string) (p : string) :
  first_existing exists_ candidates = Some p -> exists_ p = true /\ p ∈ candidates.
Proof.
  induction candidates as [|c rest IH]; simpl; [discriminate|].
  destruct (exists_ c) eqn:E.
  - intros [= <-]. split; [exact E | apply elem_of_cons; left; reflexivity].
  - intros H. destruct (IH H). split; [assumption | apply elem_of_cons; right; assumption].
Qed.

(** X7. Where the engine looks for poppler: a non-empty [poppler_path]
    argument is kept as it is; [None] and the empty string both leave the
    choice to [_get_poppler_path], which off Windows finds nothing and on
    Windows returns a location only if it exists, the versioned one first. *)
Theorem poppler_path_resolution :
  (forall threshold_arg p platform_poppler,
     p <> EmptyString ->
     poppler_path (__init__ threshold_arg (Some p) platform_poppler) = Some p) /\
  (forall threshold_arg platform_poppler,
     poppler_path (__init__ threshold_arg (Some EmptyString) platform_poppler) = platform_poppler /\
     poppler_path (__init__ threshold_arg None platform_poppler) = platform_poppler) /\
  (forall platform_system exists_,
     platform_system <> "Windows" -> _get_poppler_path platform_system exists_ = None) /\
  (forall exists_ p,
     _get_poppler_path "Windows" exists_ = Some p ->
     exists_ p = true /\ p ∈ poppler_candidates) /\
  (forall exists_,
     exists_ "C:\poppler-25.12.0\Library\bin" = true ->
     _get_poppler_path "Windows" exists_ = Some "C:\poppler-25.12.0\Library\bin") /\
  (forall exists_,
     (forall p, p ∈ poppler_candidates -> exists_ p = false) ->
     _get_poppler_path "Windows" exists_ = None).
Proof.
  split; [|split; [|split; [|split; [|split]]]].
  - intros t p plat Hp. simpl. destruct (String.eqb_spec p EmptyString); [contradiction|reflexivity].
  - intros t plat. split; reflexivity.
  - intros sys ex Hsys. unfold _get_poppler_path.
    destruct (String.eqb_spec sys "Windows"); [contradiction|reflexivity].
  - intros ex p H. unfold _get_poppler_path in H. simpl String.eqb in H.
    apply first_existing_sound. exact H.
  - intros ex H. unfold _get_poppler_path. simpl. rewrite H. reflexivity.
  - intros ex H. unfold _get_poppler_path. simpl.
    rewrite !H by (unfold poppler_candidates; set_solver). reflexivity.
Qed.

Lemma poppler_path_resolution_witness :
  poppler_path (__init__ None (Some "/opt/poppler/bin") None) = Some "/opt/poppler/bin" /\
  _get_poppler_path "Linux" (fun _ => true) = None /\
  _get_poppler_path "Windows" (fun p => String.eqb p "C:\poppler\bin") = Some "C:\poppler\bin".
Proof.
  destruct poppler_path_resolution as (Hkeep & _ & Hoff & Hwin & _).
  split; [|split].
  - apply Hkeep. discriminate.
  - apply Hoff. discriminate.
  - destruct (_get_poppler_path "Windows" (fun p => String.eqb p "C:\poppler\bin")) as [p|] eqn:E.
    + destruct (Hwin _ _ E) as [Hex _]. apply String.eqb_eq in Hex. rewrite Hex. reflexivity.
    + vm_compute in E. discriminate.
Defined.

(** ** Whole reports *)

Lemma analyze_valid_report (w : World) (self : ImageForensicsEngine) (file_path : string) :
  fst (_validate_file w file_path) = true ->
  fst (analyze_against_archive w self file_path) =
  merge (os_path_basename file_path)
        (Z.of_nat (length (_phash_archive (snd (analyze_against_archive w self file_path)))))
        (method_of w self file_path)
        (sha_result_of w self file_path) (phash_result_of w self file_path).
Proof.
  intros Hok. rewrite (analyze_valid _ _ _ Hok).
  unfold sha256_layer, phash_layer, method_of, sha_result_of, phash_result_of.
  rewrite (load_as_pil_poppler w
    (with_sha256_archive self (<[_file_sha256 w file_path:=os_path_basename file_path]>
                                 (_sha256_archive self))) self file_path eq_refl).
  destruct (_load_as_pil w self file_path); reflexivity.
Qed.

Lemma risk_from_hamming_values (d : Z) :
  fst (_risk_from_hamming d) ∈ [95; 75; 40; 5].
Proof.
  unfold _risk_from_hamming.
  repeat (match goal with |- context [?a <=? ?b] => destruct (a <=? b) end);
    simpl; set_solver.
Qed.

Lemma phash_finding_risk (self : ImageForensicsEngine) (st : scan_state) :
  Finding.fraud_risk_score (phash_finding self st) ∈ [95; 75; 40; 5].
Proof.
  unfold phash_finding. destruct (best_id st).
  - pose proof (risk_from_hamming_values (best_distance st)) as H.
    destruct (_risk_from_hamming (best_distance st)). exact H.
  - simpl. set_solver.
Qed.

Lemma risk_values_le_95 (x : Z) : x ∈ [95; 75; 40; 5] -> 5 <= x <= 95.
Proof.
  intros H. repeat (apply elem_of_cons in H as [->|H]); try lia. inversion H.
Qed.

(** A digest hit decides the merge against any pHash finding. *)
Lemma merge_sha_hit (basename : string) (size : Z) (render_method : string)
    (stored : string) (phash_result : option Finding.t) :
  (forall p, phash_result = Some p -> Finding.fraud_risk_score p <= 95) ->
  top_level (merge basename size render_method (Some (sha_finding stored)) phash_result)
  = sha_finding stored.
Proof.
  intros Hle. apply merge_selected. destruct phash_result as [p|]; [|reflexivity].
  simpl. specialize (Hle p eq_refl).
  destruct (Z.ltb_spec 95 (Finding.fraud_risk_score p)); [lia|reflexivity].
Qed.

Lemma phash_result_risk (w : World) (self : ImageForensicsEngine) (file_path : string)
    (p : Finding.t) :
  phash_result_of w self file_path = Some p -> Finding.fraud_risk_score p <= 95.
Proof.
  unfold phash_result_of. destruct (_load_as_pil w self file_path); [|discriminate].
  intros [= <-]. apply risk_values_le_95, phash_finding_risk.
Qed.

(** X8. A digest hit decides the report: whenever the digest of a
    validated submission is archived, the top-level fields are those of the
    SHA-256 finding (risk 95, fraud detected, distance 0, similarity
    100.00, the stored name), whatever the pHash layer found and whether or
    not the document rendered. *)
Theorem digest_hit_decides_report (w : World) (self : ImageForensicsEngine)
    (file_path stored : string) :
  fst (_validate_file w file_path) = true ->
  _sha256_archive self !! _file_sha256 w file_path = Some stored ->
  let r := fst (analyze_against_archive w self file_path) in
  Report.matched_file r = Some stored /\
  Report.fraud_risk_score r = 95 /\
  Report.fraud_detected r = true /\
  Report.hamming_distance r = Some 0 /\
  Report.similarity_percent r = 10000 /\
  Report.classification r = "Critical — Exact Byte Duplicate (SHA-256)" /\
  Report.layers_phash r = phash_result_of w self file_path.
Proof.
  intros Hok Hhit r.
  assert (Htop : top_level r = sha_finding stored).
  { unfold r. rewrite (analyze_valid_report _ _ _ Hok).
    unfold sha_result_of at 1. rewrite Hhit.
    apply merge_sha_hit. intros p. apply phash_result_risk. }
  assert (Hph : Report.layers_phash r = phash_result_of w self file_path).
  { unfold r. rewrite (analyze_valid_report _ _ _ Hok). apply merge_layers. }
  unfold top_level, sha_finding in Htop. injection Htop as H1 H2 H3 H4 H5 H6.
  repeat split; assumption.
Qed.

Lemma digest_hit_decides_report_witness :
  let w1 := sample_world sample_files true true "id-1" in
  let w2 := sample_world sample_files true true "id-2" in
  let self1 := snd (analyze_against_archive w1 fresh_engine "in/a.png") in
  let r := fst (analyze_against_archive w2 self1 "in/b.png") in
  Report.matched_file r = Some "a.png" /\ Report.fraud_risk_score r = 95 /\
  Report.fraud_detected r = true.
Proof.
  cbv zeta.
  destruct (digest_hit_decides_report (sample_world sample_files true true "id-2")
              (snd (analyze_against_archive (sample_world sample_files true true "id-1")
                      fresh_engine "in/a.png"))
              "in/b.png" "a.png") as (H1 & H2 & H3 & _).
  - vm_compute. reflexivity.
  - vm_compute. reflexivity.
  - split; [exact H1 | split; [exact H2 | exact H3]].
Defined.

(** Where the scan ends, with the first entry at the least distance. *)
Lemma scan_fold_first (h : Z) (l : list (string * (string * Z))) :
  forall st,
    let st' := fold_left (scan_step h) l st in
    (st' = st /\ forall x, x ∈ l -> best_distance st <= entry_distance h x) \/
    exists before aid aname ahash after,
      l = (before ++ (aid, (aname, ahash)) :: after)%list /\
      best_id st' = Some aid /\ best_name st' = Some aname /\
      best_distance st' = _hamming h ahash /\
      _hamming h ahash < best_distance st /\
      (forall x, x ∈ before -> _hamming h ahash < entry_distance h x) /\
      (forall x, x ∈ after -> _hamming h ahash <= entry_distance h x).
Proof.
  induction l as [|item l IH]; intros st; simpl.
  - left. split; [reflexivity|]. intros x Hx. inversion Hx.
  - pose proof (scan_step_distance h st item) as Hstep.
    destruct (IH (scan_step h st item))
      as [[Heq Hall] | (before & aid & aname & ahash & after & Hl & Hid & Hnm & Hd & Hlt & Hb & Ha)].
    + rewrite Heq. destruct item as [aid [aname ahash]].
      unfold entry_distance in Hstep. simpl in Hstep.
      unfold scan_step in *.
      destruct (Z.ltb_spec (_hamming h ahash) (best_distance st)) as [Hlt|Hge].
      * right. exists [], aid, aname, ahash, l. simpl in *.
        repeat split; auto. intros x Hx. inversion Hx.
      * left. split; [reflexivity|]. intros x Hx.
        apply elem_of_cons in Hx as [->|Hx]; [unfold entry_distance; simpl; lia|].
        apply Hall. exact Hx.
    + right. exists (item :: before), aid, aname, ahash, after.
      repeat split; auto.
      * rewrite Hl. reflexivity.
      * lia.
      * intros x Hx. apply elem_of_cons in Hx as [->|Hx]; [lia | apply Hb; exact Hx].
Qed.

(** Every report is of one of five kinds. *)
Lemma report_cases (w : World) (self : ImageForensicsEngine) (file_path : string) :
  let r := fst (analyze_against_archive w self file_path) in
  let sha := _file_sha256 w file_path in
  (fst (_validate_file w file_path) = false /\
   r = validation_report self (os_path_basename file_path) (snd (_validate_file w file_path))) \/
  (fst (_validate_file w file_path) = true /\
   ((exists stored, _sha256_archive self !! sha = Some stored /\
                    top_level r = sha_finding stored) \/
    (_sha256_archive self !! sha = None /\
     ((_load_as_pil w self file_path = None /\ top_level r = degraded_finding) \/
      (exists img, _load_as_pil w self file_path = Some img /\
         let st := scan_archive (_generate_phash w img) (_phash_archive self) in
         (best_id st = None /\ top_level r = first_upload_finding) \/
         (exists aid aname, best_id st = Some aid /\ best_name st = Some aname /\
            0 <= best_distance st <= 63 /\
            top_level r = match_finding self aname (best_distance st))))))).
Proof.
  cbv zeta. destruct (fst (_validate_file w file_path)) eqn:Hok.
  - right. split; [reflexivity|].
    rewrite (analyze_valid_report _ _ _ Hok).
    destruct (_sha256_archive self !! _file_sha256 w file_path) as [stored|] eqn:Hsha.
    + left. exists stored. split; [reflexivity|].
      unfold sha_result_of at 1. rewrite Hsha. apply merge_sha_hit.
      intros p. apply phash_result_risk.
    + right. split; [reflexivity|].
      unfold sha_result_of, phash_result_of, method_of. rewrite Hsha.
      destruct (_load_as_pil w self file_path) as [img|] eqn:Hload.
      * right. exists img. split; [reflexivity|].
        set (st := scan_archive (_generate_phash w img) (_phash_archive self)).
        destruct (scan_fold_entry (_generate_phash w img) (_phash_archive self) scan_init)
          as [Heq | (aid & aname & ahash & _ & Hid & Hnm & Hd & Hlt)];
          change (fold_left (scan_step (_generate_phash w img)) (_phash_archive self) scan_init)
            with st in *.
        -- left. rewrite Heq. split; [reflexivity|]. reflexivity.
        -- right. exists aid, aname. split; [exact Hid|]. split; [exact Hnm|].
           pose proof (hamming_range (_generate_phash w img) ahash). simpl in Hlt.
           split; [lia|].
           apply merge_selected. simpl. unfold phash_finding, match_finding.
           rewrite Hid, Hnm. destruct (_risk_from_hamming (best_distance st)). reflexivity.
      * left. split; reflexivity.
  - left. split; [reflexivity|]. rewrite (analyze_invalid _ _ _ Hok). reflexivity.
Qed.

(** X9. The first document an engine with empty archives validates and
    renders is reported as "First Upload — No Reference": risk 5, no fraud,
    no matched file, no distance, archive size 1; afterwards the
    fingerprint archive holds exactly its entry and the digest archive
    exactly its digest. *)
Theorem first_submission_report (w : World) (self : ImageForensicsEngine)
    (file_path : string) (img : Image) :
  _phash_archive self = [] ->
  _sha256_archive self = ∅ ->
  fst (_validate_file w file_path) = true ->
  _load_as_pil w self file_path = Some img ->
  let r := fst (analyze_against_archive w self file_path) in
  let self' := snd (analyze_against_archive w self file_path) in
  top_level r = first_upload_finding /\
  Report.uploaded_file r = os_path_basename file_path /\
  Report.archive_size r = 1 /\
  Report.layers_sha256 r = None /\
  _phash_archive self' = [(uuid4 w, (os_path_basename file_path, _generate_phash w img))] /\
  _sha256_archive self' = {[ _file_sha256 w file_path := os_path_basename file_path ]}.
Proof.
  intros Hph Hsha Hok Hload r self'.
  assert (Harch : _phash_archive self'
                  = [(uuid4 w, (os_path_basename file_path, _generate_phash w img))]).
  { unfold self'. rewrite analyze_phash_archive. unfold renders. rewrite Hok, Hload, Hph.
    reflexivity. }
  assert (Hr : r = merge (os_path_basename file_path) 1 (render_method_of w) None
                     (Some first_upload_finding)).
  { unfold r. rewrite (analyze_valid_report _ _ _ Hok).
    fold self'. rewrite Harch.
    unfold method_of, sha_result_of, phash_result_of. rewrite Hload, Hsha, Hph, lookup_empty.
    reflexivity. }
  rewrite Hr. repeat split; try reflexivity; try exact Harch.
  unfold self'. rewrite (analyze_valid_sha_archive _ _ _ Hok), Hsha. reflexivity.
Qed.

Lemma first_submission_report_witness :
  let w := sample_world sample_files true true "id-1" in
  top_level (fst (analyze_against_archive w fresh_engine "in/a.png")) = first_upload_finding /\
  Report.archive_size (fst (analyze_against_archive w fresh_engine "in/a.png")) = 1.
Proof.
  cbv zeta.
  destruct (first_submission_report (sample_world sample_files true true "id-1")
              fresh_engine "in/a.png" (sample_image 0)) as (H1 & _ & H3 & _);
    try reflexivity.
  split; [exact H1 | exact H3].
Defined.

(** X10. The digest archive keeps the most recent submitter only: when
    the same bytes are submitted three times, the third report names the
    second submission as the matched file, not the first. *)
Theorem digest_archive_last_writer (w1 w2 w3 : World) (self : ImageForensicsEngine)
    (path1 path2 path3 : string) :
  fst (_validate_file w1 path1) = true ->
  fst (_validate_file w2 path2) = true ->
  fst (_validate_file w3 path3) = true ->
  _file_sha256 w2 path2 = _file_sha256 w1 path1 ->
  _file_sha256 w3 path3 = _file_sha256 w1 path1 ->
  let self1 := snd (analyze_against_archive w1 self path1) in
  let self2 := snd (analyze_against_archive w2 self1 path2) in
  Report.matched_file (fst (analyze_against_archive w2 self1 path2))
    = Some (os_path_basename path1) /\
  Report.matched_file (fst (analyze_against_archive w3 self2 path3))
    = Some (os_path_basename path2).
Proof.
  intros Hok1 Hok2 Hok3 H21 H31 self1 self2.
  assert (Hhit : forall (w : World) (s : ImageForensicsEngine) (p stored : string),
            fst (_validate_file w p) = true ->
            _sha256_archive s !! _file_sha256 w p = Some stored ->
            Report.matched_file (fst (analyze_against_archive w s p)) = Some stored).
  { intros w s p stored Hok Hsha.
    rewrite (analyze_valid_report _ _ _ Hok). unfold sha_result_of at 1. rewrite Hsha.
    match goal with |- Report.matched_file ?r = _ =>
      change (Finding.matched_file (top_level r) = Some stored) end.
    rewrite merge_sha_hit; [reflexivity|]. intros q. apply phash_result_risk. }
  split.
  - apply (Hhit _ _ _ _ Hok2). unfold self1.
    rewrite (analyze_valid_sha_archive _ _ _ Hok1), H21. apply lookup_insert_eq.
  - apply (Hhit _ _ _ _ Hok3). unfold self2.
    rewrite (analyze_valid_sha_archive _ _ _ Hok2), H31, H21. apply lookup_insert_eq.
Qed.

Lemma digest_archive_last_writer_witness :
  let w1 := sample_world sample_files true true "id-1" in
  let w2 := sample_world sample_files true true "id-2" in
  let w3 := sample_world sample_files true true "id-3" in
  let self1 := snd (analyze_against_archive w1 fresh_engine "in/a.png") in
  let self2 := snd (analyze_against_archive w2 self1 "in/b.png") in
  Report.matched_file (fst (analyze_against_archive w2 self1 "in/b.png")) = Some "a.png" /\
  Report.matched_file (fst (analyze_against_archive w3 self2 "in/a.png")) = Some "b.png".
Proof.
  cbv zeta.
  apply (digest_archive_last_writer
           (sample_world sample_files true true "id-1")
           (sample_world sample_files true true "id-2")
           (sample_world sample_files true true "id-3")
           fresh_engine "in/a.png" "in/b.png" "in/a.png"); vm_compute; reflexivity.
Defined.

(** X11. A call touches the digest archive at its own digest only: every
    other digest keeps its name, a call that fails validation changes
    nothing, and a validated submission is recorded under its digest even
    when it cannot be rendered. *)
Theorem digest_archive_frame (w : World) (self : ImageForensicsEngine) (file_path : string) :
  let self' := snd (analyze_against_archive w self file_path) in
  (forall digest, digest <> _file_sha256 w file_path ->
     _sha256_archive self' !! digest = _sha256_archive self !! digest) /\
  (fst (_validate_file w file_path) = false -> _sha256_archive self' = _sha256_archive self) /\
  (fst (_validate_file w file_path) = true ->
   _sha256_archive self' !! _file_sha256 w file_path = Some (os_path_basename file_path)).
Proof.
  cbv zeta. destruct (fst (_validate_file w file_path)) eqn:Hok.
  - rewrite (analyze_valid_sha_archive _ _ _ Hok). repeat split.
    + intros digest Hne. apply lookup_insert_ne. congruence.
    + discriminate.
    + intros _. apply lookup_insert_eq.
  - rewrite (analyze_invalid _ _ _ Hok). simpl. repeat split; auto. discriminate.
Qed.

Lemma digest_archive_frame_witness :
  let w := sample_world sample_files true true "id-1" in
  _sha256_archive (snd (analyze_against_archive w fresh_engine "in/e.bin")) !! "epsilon"
    = Some "e.bin" /\
  _sha256_archive (snd (analyze_against_archive w fresh_engine "in/empty.png"))
    = _sha256_archive fresh_engine.
Proof.
  cbv zeta. split.
  - apply (proj2 (proj2 (digest_archive_frame (sample_world sample_files true true "id-1")
                           fresh_engine "in/e.bin"))). vm_compute. reflexivity.
  - apply (proj1 (proj2 (digest_archive_frame (sample_world sample_files true true "id-1")
                           fresh_engine "in/empty.png"))). vm_compute. reflexivity.
Defined.

(** X12. Ties go to the oldest entry: the entry the pHash layer matches is
    the first one, in insertion order, at the least distance; every entry
    added before it is strictly farther from the new fingerprint and none
    added after it is nearer. *)
Theorem nearest_neighbour_is_earliest (w : World) (self : ImageForensicsEngine)
    (file_path : string) (img : Image) (f : Finding.t) (aname : string) :
  fst (_validate_file w file_path) = true ->
  _load_as_pil w self file_path = Some img ->
  Report.layers_phash (fst (analyze_against_archive w self file_path)) = Some f ->
  Finding.matched_file f = Some aname ->
  let h := _generate_phash w img in
  exists before aid ahash after,
    _phash_archive self = (before ++ (aid, (aname, ahash)) :: after)%list /\
    Finding.hamming_distance f = Some (_hamming h ahash) /\
    (forall x, x ∈ before -> _hamming h ahash < entry_distance h x) /\
    (forall x, x ∈ after -> _hamming h ahash <= entry_distance h x).
Proof.
  intros Hok Hload Hf Hname h.
  destruct (analyze_valid_layers w self file_path Hok) as [_ Hph].
  rewrite Hf, Hload in Hph. injection Hph as ->. fold h in Hname |- *.
  destruct (scan_fold_first h (_phash_archive self) scan_init)
    as [[Heq _] | (before & aid & an & ahash & after & Hl & Hid & Hnm & Hd & _ & Hb & Ha)];
    change (fold_left (scan_step h) (_phash_archive self) scan_init)
      with (scan_archive h (_phash_archive self)) in *.
  - rewrite Heq in Hname. discriminate.
  - unfold phash_finding in Hname |- *. rewrite Hid in *.
    destruct (_risk_from_hamming _). simpl in Hname |- *.
    rewrite Hnm in Hname. injection Hname as ->.
    exists before, aid, ahash, after. rewrite Hd. auto.
Qed.

Lemma nearest_neighbour_is_earliest_witness :
  let w1 := sample_world sample_files true true "id-1" in
  let w2 := sample_world sample_files true true "id-2" in
  let w3 := sample_world sample_files true true "id-3" in
  let self1 := snd (analyze_against_archive w1 fresh_engine "in/a.png") in
  let self2 := snd (analyze_against_archive w2 self1 "in/b.png") in
  exists before aid ahash after,
    _phash_archive self2 = (before ++ (aid, ("a.png", ahash)) :: after)%list /\
    Some 2 = Some (_hamming (_generate_phash w3 (sample_image 5)) ahash) /\
    (forall x, x ∈ before ->
       _hamming (_generate_phash w3 (sample_image 5)) ahash
       < entry_distance (_generate_phash w3 (sample_image 5)) x) /\
    (forall x, x ∈ after ->
       _hamming (_generate_phash w3 (sample_image 5)) ahash
       <= entry_distance (_generate_phash w3 (sample_image 5)) x).
Proof.
  cbv zeta.
  apply (nearest_neighbour_is_earliest
           (sample_world sample_files true true "id-3")
           (snd (analyze_against_archive (sample_world sample_files true true "id-2")
                   (snd (analyze_against_archive (sample_world sample_files true true "id-1")
                           fresh_engine "in/a.png")) "in/b.png"))
           "in/d.PDF" (sample_image 5)
           (match_finding fresh_engine "a.png" 2) "a.png");
    vm_compute; reflexivity.
Defined.

Lemma dict_set_length_le {V : Type} (k : string) (v : V) (d : list (string * V)) :
  (length (dict_set k v d) <= S (length d))%nat.
Proof.
  induction d as [|[k' v'] d IH]; simpl; [lia|].
  destruct (String.eqb k k'); simpl; lia.
Qed.

Ltac in_list := repeat first [apply list_elem_of_here | apply list_elem_of_further].

Lemma top_level_fields (r : Report.t) (f : Finding.t) :
  top_level r = f ->
  Report.matched_file r = Finding.matched_file f /\
  Report.similarity_percent r = Finding.similarity_percent f /\
  Report.fraud_risk_score r = Finding.fraud_risk_score f /\
  Report.classification r = Finding.classification f /\
  Report.fraud_detected r = Finding.fraud_detected f /\
  Report.hamming_distance r = Finding.hamming_distance f.
Proof. intros <-. repeat split; reflexivity. Qed.

(** X13. A report's risk score is one of 0, 5, 10, 40, 75 and 95. It is 0
    exactly when validation failed, and 10 exactly when a validated
    document neither matched a digest nor rendered. *)
Theorem report_risk_scores (w : World) (self : ImageForensicsEngine) (file_path : string) :
  let r := fst (analyze_against_archive w self file_path) in
  Report.fraud_risk_score r ∈ [0; 5; 10; 40; 75; 95] /\
  (Report.fraud_risk_score r = 0 <-> fst (_validate_file w file_path) = false) /\
  (Report.fraud_risk_score r = 10 <->
   fst (_validate_file w file_path) = true /\
   _sha256_archive self !! _file_sha256 w file_path = None /\
   _load_as_pil w self file_path = None).
Proof.
  cbv zeta.
  destruct (report_cases w self file_path)
    as [[Hok Hr] | [Hok [(stored & Hsha & Htop) | [Hsha [[Hload Htop] | (img & Hload & Hscan)]]]]].
  - rewrite Hr. simpl. split; [in_list|]. split; [tauto|].
    split; [discriminate | intros [H _]; congruence].
  - apply top_level_fields in Htop as (_ & _ & -> & _). simpl.
    split; [in_list|]. split; [split; [discriminate | congruence]|].
    split; [discriminate | intros (_ & H & _); congruence].
  - apply top_level_fields in Htop as (_ & _ & -> & _). simpl.
    split; [in_list|]. split; [split; [discriminate | congruence]|].
    split; auto.
  - cbv zeta in Hscan.
    destruct Hscan as [[_ Htop] | (aid & aname & _ & _ & _ & Htop)];
      apply top_level_fields in Htop as (_ & _ & -> & _); simpl.
    + split; [in_list|]. split; [split; [discriminate | congruence]|].
      split; [discriminate | intros (_ & _ & H); congruence].
    + pose proof (risk_from_hamming_values
                    (best_distance (scan_archive (_generate_phash w img) (_phash_archive self))))
        as Hv.
      split; [set_solver|].
      split; [split; [intros E; rewrite E in Hv; set_solver | congruence]|].
      split; [intros E; rewrite E in Hv; set_solver | intros (_ & _ & H); congruence].
Qed.

Lemma report_risk_scores_witness :
  let w := sample_world sample_files true true "id-1" in
  Report.fraud_risk_score (fst (analyze_against_archive w fresh_engine "in/empty.png")) = 0 /\
  Report.fraud_risk_score (fst (analyze_against_archive w fresh_engine "in/e.bin")) = 10.
Proof.
  cbv zeta. split.
  - apply (proj1 (proj2 (report_risk_scores (sample_world sample_files true true "id-1")
                           fresh_engine "in/empty.png"))). vm_compute. reflexivity.
  - apply (proj2 (proj2 (report_risk_scores (sample_world sample_files true true "id-1")
                           fresh_engine "in/e.bin"))). vm_compute. auto.
Defined.

(** X14. What the fraud flag of a report means: it is raised only on a
    digest hit or on a fingerprint match within the threshold, and then a
    matched file and a distance below 64 are always reported. With the
    default threshold of 10 a flagged report has risk at least 40, and
    every report of risk 75 or more is flagged. *)
Theorem fraud_flag_meaning (w : World) (self : ImageForensicsEngine) (file_path : string) :
  let r := fst (analyze_against_archive w self file_path) in
  (Report.fraud_detected r = true ->
   (exists aname d, Report.matched_file r = Some aname /\
                    Report.hamming_distance r = Some d /\ 0 <= d <= 63) /\
   (Report.layers_sha256 r <> None \/
    exists d, Report.hamming_distance r = Some d /\ d <= threshold self)) /\
  (threshold self = 10 -> Report.fraud_detected r = true -> 40 <= Report.fraud_risk_score r) /\
  (threshold self = 10 -> 75 <= Report.fraud_risk_score r -> Report.fraud_detected r = true).
Proof.
  cbv zeta.
  destruct (report_cases w self file_path)
    as [[Hok Hr] | [Hok [(stored & Hsha & Htop) | [Hsha [[Hload Htop] | (img & Hload & Hscan)]]]]].
  - rewrite Hr. simpl. repeat split; try discriminate; lia.
  - pose proof (analyze_valid_layers w self file_path Hok) as [Hl _]. rewrite Hsha in Hl.
    apply top_level_fields in Htop as (-> & _ & -> & _ & -> & ->). simpl.
    repeat split; try lia.
    + exists stored, 0. repeat split; lia.
    + left. rewrite Hl. discriminate.
  - apply top_level_fields in Htop as (-> & _ & -> & _ & -> & ->). simpl.
    repeat split; try discriminate; lia.
  - cbv zeta in Hscan. destruct Hscan as [[_ Htop] | (aid & aname & _ & _ & Hd & Htop)];
      apply top_level_fields in Htop as (-> & _ & -> & _ & -> & ->); simpl.
    + repeat split; try discriminate; lia.
    + set (d := best_distance (scan_archive (_generate_phash w img) (_phash_archive self))) in *.
      split; [|split].
      * intros Hfl. apply Z.leb_le in Hfl. split; [exists aname, d; auto|].
        right. exists d. auto.
      * intros Ht Hfl. rewrite Ht in Hfl. apply Z.leb_le in Hfl.
        unfold _risk_from_hamming.
        repeat (match goal with |- context [?a <=? ?b] => destruct (Z.leb_spec a b) end;
                simpl; try lia).
      * intros Ht Hrisk. rewrite Ht. apply Z.leb_le.
        unfold _risk_from_hamming in Hrisk.
        repeat (match type of Hrisk with context [?a <=? ?b] =>
                  destruct (Z.leb_spec a b) end; simpl in Hrisk; try lia).
Qed.

Lemma fraud_flag_meaning_witness :
  let w1 := sample_world sample_files true true "id-1" in
  let w2 := sample_world sample_files true true "id-2" in
  let self1 := snd (analyze_against_archive w1 fresh_engine "in/a.png") in
  40 <= Report.fraud_risk_score (fst (analyze_against_archive w2 self1 "in/d.PDF")).
Proof.
  cbv zeta.
  apply (proj1 (proj2 (fraud_flag_meaning (sample_world sample_files true true "id-2")
           (snd (analyze_against_archive (sample_world sample_files true true "id-1")
                   fresh_engine "in/a.png")) "in/d.PDF"))); vm_compute; reflexivity.
Defined.

(** X15. The shape of every report: it names the submitted file by its
    base name, it gives a distance exactly when it gives a matched file,
    and its archive size is the size before the call or one more. *)
Theorem report_shape (w : World) (self : ImageForensicsEngine) (file_path : string) :
  let r := fst (analyze_against_archive w self file_path) in
  Report.uploaded_file r = os_path_basename file_path /\
  (Report.matched_file r = None <-> Report.hamming_distance r = None) /\
  Z.of_nat (length (_phash_archive self)) <= Report.archive_size r
    <= Z.of_nat (length (_phash_archive self)) + 1.
Proof.
  cbv zeta. split; [|split].
  - destruct (fst (_validate_file w file_path)) eqn:Hok.
    + rewrite (analyze_valid_report _ _ _ Hok). unfold merge.
      destruct (py_max _ _); reflexivity.
    + rewrite (analyze_invalid _ _ _ Hok). reflexivity.
  - destruct (report_cases w self file_path)
      as [[Hok Hr] | [Hok [(stored & Hsha & Htop) | [Hsha [[Hload Htop] | (img & Hload & Hscan)]]]]].
    + rewrite Hr. simpl. tauto.
    + apply top_level_fields in Htop as (-> & _ & _ & _ & _ & ->). simpl.
      split; discriminate.
    + apply top_level_fields in Htop as (-> & _ & _ & _ & _ & ->). simpl. tauto.
    + cbv zeta in Hscan. destruct Hscan as [[_ Htop] | (aid & aname & _ & _ & _ & Htop)];
        apply top_level_fields in Htop as (-> & _ & _ & _ & _ & ->); simpl;
        [tauto | split; discriminate].
  - rewrite analyze_archive_size, analyze_phash_archive.
    destruct (renders w self file_path) as [img|]; [|lia].
    pose proof (dict_set_length (uuid4 w) (os_path_basename file_path, _generate_phash w img)
                  (_phash_archive self)) as Hge.
    pose proof (dict_set_length_le (uuid4 w) (os_path_basename file_path, _generate_phash w img)
                  (_phash_archive self)) as Hle.
    lia.
Qed.

Lemma report_shape_witness :
  Report.hamming_distance
    (fst (analyze_against_archive (sample_world sample_files true true "id-1")
            fresh_engine "in/a.png")) = None.
Proof.
  apply (proj1 (proj2 (report_shape (sample_world sample_files true true "id-1")
                         fresh_engine "in/a.png"))).
  vm_compute. reflexivity.
Defined.

(** ** Pairwise comparison, again *)

(** X16. [analyze_files] does not depend on the order of its two files
    beyond naming the hashes: swapped arguments give the same distance,
    similarity, risk, label and flag with [hash_1] and [hash_2] exchanged,
    or the same error. A file compared with itself is at distance 0, with
    similarity 100.00 and risk 95. *)
Theorem analyze_files_symmetric (w : World) (self : ImageForensicsEngine)
    (file1_path file2_path : string) :
  (forall c, fst (analyze_files w self file1_path file2_path) = Returned c ->
     fst (analyze_files w self file2_path file1_path) =
     Returned {| Comparison.hash_1 := Comparison.hash_2 c;
                 Comparison.hash_2 := Comparison.hash_1 c;
                 Comparison.hamming_distance := Comparison.hamming_distance c;
                 Comparison.similarity_percent := Comparison.similarity_percent c;
                 Comparison.fraud_risk_score := Comparison.fraud_risk_score c;
                 Comparison.classification := Comparison.classification c;
                 Comparison.fraud_detected := Comparison.fraud_detected c |}) /\
  (forall msg, fst (analyze_files w self file1_path file2_path) = Raised msg ->
     fst (analyze_files w self file2_path file1_path) = Raised msg) /\
  (forall c, fst (analyze_files w self file1_path file1_path) = Returned c ->
     Comparison.hamming_distance c = 0 /\
     Comparison.similarity_percent c = 10000 /\
     Comparison.fraud_risk_score c = 95 /\
     Comparison.classification c = "Critical Similarity — Likely Duplicate (pHash)" /\
     Comparison.fraud_detected c = (0 <=? threshold self)).
Proof.
  unfold analyze_files. split; [|split].
  - intros c.
    destruct (_load_as_pil w self file1_path) as [img1|],
             (_load_as_pil w self file2_path) as [img2|]; try discriminate.
    assert (Hsym : _hamming (_generate_phash w img2) (_generate_phash w img1)
                   = _hamming (_generate_phash w img1) (_generate_phash w img2)).
    { unfold _hamming. rewrite Z.lxor_comm. reflexivity. }
    rewrite Hsym. destruct (_risk_from_hamming _). simpl. intros [= <-]. reflexivity.
  - intros msg.
    destruct (_load_as_pil w self file1_path) as [img1|],
             (_load_as_pil w self file2_path) as [img2|]; try (intros H; exact H).
    destruct (_risk_from_hamming _). simpl. discriminate.
  - intros c. destruct (_load_as_pil w self file1_path) as [img1|]; [|discriminate].
    assert (Hz : _hamming (_generate_phash w img1) (_generate_phash w img1) = 0).
    { unfold _hamming. rewrite Z.lxor_nilpotent. vm_compute. reflexivity. }
    rewrite Hz. simpl. intros [= <-]. simpl. repeat split; reflexivity.
Qed.

Lemma analyze_files_symmetric_witness :
  let w := sample_world sample_files true true "id-1" in
  Comparison.hamming_distance
    (match fst (analyze_files w fresh_engine "in/d.PDF" "in/a.png") with
     | Returned c => c
     | Raised _ => {| Comparison.hash_1 := 0; Comparison.hash_2 := 0;
                      Comparison.hamming_distance := -1; Comparison.similarity_percent := 0;
                      Comparison.fraud_risk_score := 0; Comparison.classification := "";
                      Comparison.fraud_detected := false |}
     end) = 2.
Proof.
  cbv zeta.
  rewrite (proj1 (analyze_files_symmetric (sample_world sample_files true true "id-1")
                    fresh_engine "in/a.png" "in/d.PDF")
             {| Comparison.hash_1 := 0; Comparison.hash_2 := 5;
                Comparison.hamming_distance := 2;
                Comparison.similarity_percent := 9688;
                Comparison.fraud_risk_score := 95;
                Comparison.classification := "Critical Similarity — Likely Duplicate (pHash)";
                Comparison.fraud_detected := true |}).
  - reflexivity.
  - vm_compute. reflexivity.
Defined.

(** X17. The two public operations agree: against an archive holding one
    document, the pHash finding on a new document carries the distance,
    similarity, risk, label and flag that [analyze_files] gives for the
    pair, provided the two are less than 64 bits apart. *)
Theorem archive_agrees_with_pairwise (w : World) (self : ImageForensicsEngine)
    (archived_path new_path aid aname : string) (archived_img new_img : Image) :
  fst (_validate_file w new_path) = true ->
  _load_as_pil w self archived_path = Some archived_img ->
  _load_as_pil w self new_path = Some new_img ->
  _phash_archive self = [(aid, (aname, _generate_phash w archived_img))] ->
  _hamming (_generate_phash w archived_img) (_generate_phash w new_img) < 64 ->
  exists f c,
    Report.layers_phash (fst (analyze_against_archive w self new_path)) = Some f /\
    fst (analyze_files w self archived_path new_path) = Returned c /\
    Finding.matched_file f = Some aname /\
    Finding.hamming_distance f = Some (Comparison.hamming_distance c) /\
    Finding.similarity_percent f = Comparison.similarity_percent c /\
    Finding.fraud_risk_score f = Comparison.fraud_risk_score c /\
    Finding.classification f = Comparison.classification c /\
    Finding.fraud_detected f = Comparison.fraud_detected c.
Proof.
  intros Hok Ha Hn Harch Hlt.
  destruct (analyze_valid_layers w self new_path Hok) as [_ Hph].
  rewrite Hn, Harch in Hph.
  assert (Hsym : _hamming (_generate_phash w new_img) (_generate_phash w archived_img)
                 = _hamming (_generate_phash w archived_img) (_generate_phash w new_img)).
  { unfold _hamming. rewrite Z.lxor_comm. reflexivity. }
  unfold scan_archive in Hph. simpl in Hph. rewrite Hsym in Hph.
  destruct (Z.ltb_spec (_hamming (_generate_phash w archived_img) (_generate_phash w new_img)) 64)
    as [_|Hge]; [|lia].
  unfold phash_finding in Hph. simpl in Hph.
  unfold analyze_files. rewrite Ha, Hn.
  destruct (_risk_from_hamming _) as [risk label].
  eexists. eexists. split; [exact Hph|]. split; [reflexivity|]. simpl.
  repeat split; reflexivity.
Qed.

Lemma archive_agrees_with_pairwise_witness :
  let w := sample_world sample_files true true "id-2" in
  let self := snd (analyze_against_archive (sample_world sample_files true true "id-1")
                     fresh_engine "in/a.png") in
  exists f c,
    Report.layers_phash (fst (analyze_against_archive w self "in/d.PDF")) = Some f /\
    fst (analyze_files w self "in/a.png" "in/d.PDF") = Returned c /\
    Finding.matched_file f = Some "a.png" /\
    Finding.hamming_distance f = Some (Comparison.hamming_distance c) /\
    Finding.similarity_percent f = Comparison.similarity_percent c /\
    Finding.fraud_risk_score f = Comparison.fraud_risk_score c /\
    Finding.classification f = Comparison.classification c /\
    Finding.fraud_detected f = Comparison.fraud_detected c.
Proof.
  cbv zeta.
  apply (archive_agrees_with_pairwise (sample_world sample_files true true "id-2")
           (snd (analyze_against_archive (sample_world sample_files true true "id-1")
                   fresh_engine "in/a.png"))
           "in/a.png" "in/d.PDF" "id-1" "a.png" (sample_image 0) (sample_image 5));
    vm_compute; reflexivity.
Defined.

(** ** What the archives hold *)

Lemma dict_set_Forall {V : Type} (P : V -> Prop) (k : string) (v : V) (d : list (string * V)) :
  P v -> Forall (fun item => P (snd item)) d ->
  Forall (fun item => P (snd item)) (dict_set k v d).
Proof.
  intros Hv. induction d as [|[k' v'] d IH]; simpl; intros Hd.
  - constructor; [exact Hv | constructor].
  - inversion Hd as [|? ? Hhd Htl]; subst. destruct (String.eqb k k').
    + constructor; [exact Hv | exact Htl].
    + constructor; [exact Hhd | apply IH; exact Htl].
Qed.

Lemma dict_set_keys {V : Type} (k : string) (v : V) (d : list (string * V)) (x : string) :
  x ∈ map fst (dict_set k v d) -> x = k \/ x ∈ map fst d.
Proof.
  induction d as [|[k' v'] d IH]; simpl; intros Hx.
  - apply elem_of_cons in Hx as [->|Hx]; [left; reflexivity | inversion Hx].
  - destruct (String.eqb k k'); simpl in Hx.
    + right. exact Hx.
    + apply elem_of_cons in Hx as [->|Hx].
      * right. apply elem_of_cons. left. reflexivity.
      * destruct (IH Hx) as [->|Hin]; [left; reflexivity|].
        right. apply elem_of_cons. right. exact Hin.
Qed.

Lemma dict_set_NoDup {V : Type} (k : string) (v : V) (d : list (string * V)) :
  NoDup (map fst d) -> NoDup (map fst (dict_set k v d)).
Proof.
  induction d as [|[k' v'] d IH]; simpl; intros Hd.
  - apply NoDup_cons. split; [intros H; inversion H | constructor].
  - apply NoDup_cons in Hd as [Hk' Hd].
    destruct (String.eqb_spec k k') as [->|Hne]; simpl.
    + apply NoDup_cons. split; assumption.
    + apply NoDup_cons. split; [|apply IH; exact Hd].
      intros Hin. apply dict_set_keys in Hin as [->|Hin]; [congruence | contradiction].
Qed.

(** X18. Over any session the fingerprint archive stays a dict of 64-bit
    fingerprints: no internal id occurs twice and every entry keeps a
    fingerprint below 2^64, whether or not the ids drawn were fresh. The
    engine's threshold and poppler path stay what they were. *)
Theorem session_invariants (calls : list (World * string)) (self : ImageForensicsEngine) :
  NoDup (map fst (_phash_archive self)) ->
  Forall (fun item => is_hash64 (snd (snd item))) (_phash_archive self) ->
  let self' := snd (run self calls) in
  NoDup (map fst (_phash_archive self')) /\
  Forall (fun item => is_hash64 (snd (snd item))) (_phash_archive self') /\
  threshold self' = threshold self /\
  poppler_path self' = poppler_path self.
Proof.
  revert self. induction calls as [|[w file_path] rest IH]; intros self Hnd Hinv;
    [simpl; auto|].
  cbv zeta. rewrite run_snd_cons.
  destruct (analyze_keeps_settings w self file_path) as [Ht Hp].
  destruct (IH (snd (analyze_against_archive w self file_path))) as (H0 & H1 & H2 & H3).
  - rewrite analyze_phash_archive. destruct (renders w self file_path) as [img|]; [|exact Hnd].
    apply dict_set_NoDup. exact Hnd.
  - rewrite analyze_phash_archive. destruct (renders w self file_path) as [img|]; [|exact Hinv].
    apply (dict_set_Forall (fun v => is_hash64 (snd v))); [apply wrap64_range | exact Hinv].
  - split; [exact H0|]. split; [exact H1|]. split; congruence.
Qed.

Lemma session_invariants_witness :
  let calls := [(sample_world sample_files true true "id-1", "in/a.png");
                (sample_world sample_files true true "id-1", "in/c.png")] in
  NoDup (map fst (_phash_archive (snd (run fresh_engine calls)))) /\
  length (_phash_archive (snd (run fresh_engine calls))) = 1%nat.
Proof.
  cbv zeta.
  destruct (session_invariants
              [(sample_world sample_files true true "id-1", "in/a.png");
               (sample_world sample_files true true "id-1", "in/c.png")] fresh_engine)
    as (H0 & _).
  - constructor.
  - constructor.
  - split; [exact H0 | reflexivity].
Defined.

(** * The upload endpoint *)

Lemma basename_from_no_sep (p acc : string) :
  has_sep p = false -> basename_from acc p = acc.
Proof.
  revert acc. induction p as [|c rest IH]; intros acc H; [reflexivity|].
  simpl in *. apply orb_false_iff in H as [Hc Hrest]. rewrite Hc. apply IH. exact Hrest.
Qed.

Lemma basename_after_sep (dir b : string) :
  has_sep b = false -> forall acc, basename_from acc (dir +:+ String "/" b) = b.
Proof.
  intros Hb. induction dir as [|c rest IH]; intros acc.
  - simpl. apply basename_from_no_sep. exact Hb.
  - simpl. destruct (is_sep c); apply IH.
Qed.

Lemma has_sep_app (a b : string) : has_sep (a +:+ b) = has_sep a || has_sep b.
Proof.
  induction a as [|c rest IH]; [reflexivity|].
  simpl. rewrite IH, orb_assoc. reflexivity.
Qed.

Lemma upload_path_basename (upload_id filename : string) :
  has_sep upload_id = false -> has_sep filename = false ->
  upload_path upload_id filename = "temp_uploads/" +:+ upload_id +:+ "_" +:+ filename /\
  os_path_basename (upload_path upload_id filename) = upload_id +:+ "_" +:+ filename.
Proof.
  intros Hid Hfn.
  assert (Hb : has_sep (upload_id +:+ "_" +:+ filename) = false).
  { rewrite !has_sep_app, Hid, Hfn. reflexivity. }
  assert (Hpath : upload_path upload_id filename
                  = "temp_uploads" +:+ String "/" (upload_id +:+ "_" +:+ filename)).
  { unfold upload_path, os_path_join.
    destruct (upload_id +:+ "_" +:+ filename) as [|c rest] eqn:E.
    - destruct upload_id; discriminate.
    - simpl in Hb. apply orb_false_iff in Hb as [Hc _]. rewrite Hc. reflexivity. }
  split.
  - rewrite Hpath. reflexivity.
  - rewrite Hpath. unfold os_path_basename. apply basename_after_sep. exact Hb.
Qed.

(** X19. The endpoint stores an upload as [temp_uploads/<id>_<filename>]
    and the engine knows it by [<id>_<filename>]: that is the report's
    uploaded file and, once validated, the name kept for its digest. The
    response passes on the engine's risk score and archive size, and the
    engine is left as the engine call left it. *)
Theorem analyze_claim_naming (w : World) (draws : ClaimDraws) (upload_id : string)
    (forensics_engine : ImageForensicsEngine) (filename : string) :
  has_sep upload_id = false -> has_sep filename = false ->
  let file_path := "temp_uploads/" +:+ upload_id +:+ "_" +:+ filename in
  let result := fst (analyze_against_archive w forensics_engine file_path) in
  let response := fst (analyze_claim w draws upload_id forensics_engine filename) in
  let engine' := snd (analyze_claim w draws upload_id forensics_engine filename) in
  engine' = snd (analyze_against_archive w forensics_engine file_path) /\
  Report.uploaded_file result = upload_id +:+ "_" +:+ filename /\
  Claim.risk_score response = Report.fraud_risk_score result /\
  Claim.archive_size response = Report.archive_size result /\
  (fst (_validate_file w file_path) = true ->
   _sha256_archive engine' !! _file_sha256 w file_path = Some (upload_id +:+ "_" +:+ filename)).
Proof.
  intros Hid Hfn. cbv zeta.
  destruct (upload_path_basename upload_id filename Hid Hfn) as [Hpath Hbase].
  unfold analyze_claim. rewrite Hpath in *.
  set (file_path := "temp_uploads/" +:+ upload_id +:+ "_" +:+ filename) in *.
  destruct (analyze_against_archive w forensics_engine file_path) as [result engine'] eqn:E.
  simpl.
  assert (Hr : result = fst (analyze_against_archive w forensics_engine file_path))
    by (rewrite E; reflexivity).
  assert (He : engine' = snd (analyze_against_archive w forensics_engine file_path))
    by (rewrite E; reflexivity).
  repeat split.
  - rewrite Hr, <- Hbase.
    destruct (fst (_validate_file w file_path)) eqn:Hok.
    + rewrite (analyze_valid_report _ _ _ Hok). unfold merge. destruct (py_max _ _); reflexivity.
    + rewrite (analyze_invalid _ _ _ Hok). reflexivity.
  - intros Hok. rewrite He, (analyze_valid_sha_archive _ _ _ Hok), <- Hbase.
    apply lookup_insert_eq.
Qed.

Lemma analyze_claim_naming_witness :
  let w := sample_world upload_files true true "id-1" in
  Report.uploaded_file
    (fst (analyze_against_archive w fresh_engine ("temp_uploads/" +:+ "u1" +:+ "_" +:+ "bill.png")))
  = "u1" +:+ "_" +:+ "bill.png".
Proof.
  cbv zeta.
  apply (proj1 (proj2 (analyze_claim_naming (sample_world upload_files true true "id-1")
                         sample_draws "u1" fresh_engine "bill.png" eq_refl eq_refl))).
Defined.

(** X20. When two uploads both pass validation and the second has the
    digest of the first, as it has for the same bytes, the second is
    answered with risk 95, confidence 95.00 and three flags: reuse at
    100.0% similarity to the name stored for the first upload, Hamming
    distance 0, and the exact-byte-duplicate classification. The stored
    name is the base name of the first upload's path, [<id>_<filename>]
    when neither part holds a path separator. *)
Theorem reupload_is_flagged (w1 w2 : World) (draws1 draws2 : ClaimDraws)
    (id1 id2 filename1 filename2 : string) (forensics_engine : ImageForensicsEngine) :
  fst (_validate_file w1 (upload_path id1 filename1)) = true ->
  fst (_validate_file w2 (upload_path id2 filename2)) = true ->
  _file_sha256 w2 (upload_path id2 filename2) = _file_sha256 w1 (upload_path id1 filename1) ->
  let stored := os_path_basename (upload_path id1 filename1) in
  let engine1 := snd (analyze_claim w1 draws1 id1 forensics_engine filename1) in
  let response := fst (analyze_claim w2 draws2 id2 engine1 filename2) in
  Claim.risk_score response = 95 /\
  Claim.confidence response = 9500 /\
  Claim.flags response =
    ["Document reuse detected — 100.0% similar to '" +:+ stored +:+ "'";
     "Hamming distance: 0 (threshold ≤ 10 = duplicate)";
     "Classification: Critical — Exact Byte Duplicate (SHA-256)"] /\
  (has_sep id1 = false -> has_sep filename1 = false ->
   stored = id1 +:+ "_" +:+ filename1).
Proof.
  intros Hok1 Hok2 Hsame. cbv zeta.
  unfold analyze_claim.
  destruct (analyze_against_archive w1 forensics_engine (upload_path id1 filename1))
    as [result1 engine1] eqn:E1. simpl.
  assert (He1 : engine1 = snd (analyze_against_archive w1 forensics_engine
                                 (upload_path id1 filename1))) by (rewrite E1; reflexivity).
  destruct (analyze_against_archive w2 engine1 (upload_path id2 filename2))
    as [result2 engine2] eqn:E2. simpl.
  assert (Hr2 : result2 = fst (analyze_against_archive w2 engine1 (upload_path id2 filename2)))
    by (rewrite E2; reflexivity).
  assert (Hhit : _sha256_archive engine1 !! _file_sha256 w2 (upload_path id2 filename2)
                 = Some (os_path_basename (upload_path id1 filename1))).
  { rewrite He1, (analyze_valid_sha_archive _ _ _ Hok1), Hsame. apply lookup_insert_eq. }
  assert (Htop : top_level result2 = sha_finding (os_path_basename (upload_path id1 filename1))).
  { rewrite Hr2, (analyze_valid_report _ _ _ Hok2). unfold sha_result_of at 1. rewrite Hhit.
    apply merge_sha_hit. intros p. apply phash_result_risk. }
  apply top_level_fields in Htop as (Hm & Hs & Hrk & Hc & Hf & Hh). simpl in *.
  unfold claim_confidence, claim_flags. rewrite Hm, Hs, Hrk, Hc, Hf, Hh.
  assert (py_str_percent 10000 = "100.0") as -> by (vm_compute; reflexivity).
  assert (py_str_opt_int (Some 0) = "0") as -> by (vm_compute; reflexivity).
  split; [reflexivity|]. split; [vm_compute; reflexivity|]. split; [simpl; reflexivity|].
  intros Hid Hfn. apply (upload_path_basename id1 filename1 Hid Hfn).
Qed.

Lemma reupload_is_flagged_witness :
  let w1 := sample_world upload_files true true "id-1" in
  let w2 := sample_world upload_files true true "id-2" in
  let engine1 := snd (analyze_claim w1 sample_draws "u1" fresh_engine "bill.png") in
  Claim.flags (fst (analyze_claim w2 sample_draws "u2" engine1 "copy.png")) =
    ["Document reuse detected — 100.0% similar to 'u1_bill.png'";
     "Hamming distance: 0 (threshold ≤ 10 = duplicate)";
     "Classification: Critical — Exact Byte Duplicate (SHA-256)"].
Proof.
  cbv zeta.
  destruct (reupload_is_flagged (sample_world upload_files true true "id-1")
              (sample_world upload_files true true "id-2") sample_draws sample_draws
              "u1" "u2" "bill.png" "copy.png" fresh_engine) as (_ & _ & Hflags & _).
  - vm_compute. reflexivity.
  - vm_compute. reflexivity.
  - vm_compute. reflexivity.
  - exact Hflags.
Defined.

Lemma report_distance (w : World) (self : ImageForensicsEngine) (file_path : string) :
  let r := fst (analyze_against_archive w self file_path) in
  (Report.hamming_distance r = None /\ Report.matched_file r = None /\
   Report.fraud_detected r = false) \/
  (exists aname d, Report.hamming_distance r = Some d /\ 0 <= d <= 63 /\
                   Report.matched_file r = Some aname).
Proof.
  cbv zeta.
  destruct (report_cases w self file_path)
    as [[Hok Hr] | [Hok [(stored & Hsha & Htop) | [Hsha [[Hload Htop] | (img & Hload & Hscan)]]]]].
  - rewrite Hr. left. simpl. auto.
  - apply top_level_fields in Htop as (-> & _ & _ & _ & -> & ->). right.
    exists stored, 0. simpl. repeat split; lia.
  - apply top_level_fields in Htop as (-> & _ & _ & _ & -> & ->). left. simpl. auto.
  - cbv zeta in Hscan. destruct Hscan as [[_ Htop] | (aid & aname & _ & _ & Hd & Htop)];
      apply top_level_fields in Htop as (-> & _ & _ & _ & -> & ->); simpl.
    + left. auto.
    + right. eexists. eexists. split; [reflexivity|]. split; [exact Hd | reflexivity].
Qed.

(** X21. The confidence of a response is 95.00 less half a point per bit
    of the reported distance, so between 63.50 and 95.00: the floor of
    60.0 in the formula is never reached. A report without a distance, a
    failed validation among them, gets 95.00. *)
Theorem claim_confidence_range (w : World) (self : ImageForensicsEngine) (file_path : string) :
  let r := fst (analyze_against_archive w self file_path) in
  claim_confidence r = 9500 - 50 * distance_or_0 r /\
  6350 <= claim_confidence r <= 9500 /\
  (fst (_validate_file w file_path) = false ->
   claim_confidence r = 9500 /\ Report.fraud_risk_score r = 0).
Proof.
  cbv zeta.
  pose proof (distance_cases
    (fun d => py_round_2 (if Qle_bool (inject_Z 60) (inject_Z 95 - inject_Z d * (1 # 2))
                          then (inject_Z 95 - inject_Z d * (1 # 2))%Q else inject_Z 60)
              =? 9500 - 50 * d) ltac:(vm_compute; reflexivity)) as Hconf.
  assert (Hd : 0 <= distance_or_0 (fst (analyze_against_archive w self file_path)) <= 63).
  { unfold distance_or_0.
    destruct (report_distance w self file_path) as [(-> & _) | (aname & d & -> & Hd & _)]; lia. }
  assert (Heq : claim_confidence (fst (analyze_against_archive w self file_path))
                = 9500 - 50 * distance_or_0 (fst (analyze_against_archive w self file_path))).
  { specialize (Hconf (distance_or_0 (fst (analyze_against_archive w self file_path)))
                        ltac:(lia)).
    cbv beta in Hconf. apply Z.eqb_eq in Hconf. exact Hconf. }
  split; [exact Heq|]. split; [lia|].
  intros Hok. rewrite Heq, (analyze_invalid _ _ _ Hok). split; reflexivity.
Qed.

Lemma claim_confidence_range_witness :
  let r := fst (analyze_against_archive (sample_world sample_files true true "id-1")
                  fresh_engine "in/empty.png") in
  claim_confidence r = 9500 /\ Report.fraud_risk_score r = 0.
Proof.
  cbv zeta.
  apply (proj2 (proj2 (claim_confidence_range (sample_world sample_files true true "id-1")
                         fresh_engine "in/empty.png"))).
  vm_compute. reflexivity.
Defined.

(** X22. The flags of a response follow the report: a report with the
    fraud flag gives three flags, naming the matched file, the distance as
    a number and the classification; a failed validation, and any report
    with neither fraud flag nor matched file, gives none; a report without
    the fraud flag but with a matched file of non-empty name gives the
    single partial-similarity flag. *)
Theorem claim_flags_by_kind (w : World) (self : ImageForensicsEngine) (file_path : string) :
  let r := fst (analyze_against_archive w self file_path) in
  (Report.fraud_detected r = true ->
   exists aname d,
     Report.matched_file r = Some aname /\ Report.hamming_distance r = Some d /\
     claim_flags r =
       ["Document reuse detected — " +:+ py_str_percent (Report.similarity_percent r)
          +:+ "% similar to '" +:+ aname +:+ "'";
        "Hamming distance: " +:+ str_of_int d +:+ " (threshold ≤ 10 = duplicate)";
        "Classification: " +:+ Report.classification r]) /\
  (fst (_validate_file w file_path) = false -> claim_flags r = []) /\
  (Report.fraud_detected r = false -> Report.matched_file r = None -> claim_flags r = []) /\
  (forall aname,
     Report.fraud_detected r = false -> Report.matched_file r = Some aname ->
     aname <> EmptyString ->
     claim_flags r =
       ["Partial similarity with prior submission ("
          +:+ py_str_percent (Report.similarity_percent r) +:+ "%)"]).
Proof.
  cbv zeta. split; [|split; [|split]].
  - intros Hfl.
    destruct (report_distance w self file_path) as [(_ & _ & Hno) | (aname & d & Hd & _ & Hm)];
      [congruence|].
    exists aname, d. split; [exact Hm|]. split; [exact Hd|].
    unfold claim_flags. rewrite Hfl, Hm, Hd. reflexivity.
  - intros Hok. rewrite (analyze_invalid _ _ _ Hok). reflexivity.
  - intros Hfl Hm. unfold claim_flags. rewrite Hfl, Hm. reflexivity.
  - intros aname Hfl Hm Hne. unfold claim_flags. rewrite Hfl, Hm. simpl.
    destruct (String.eqb_spec aname EmptyString); [contradiction|reflexivity].
Qed.

Lemma claim_flags_by_kind_witness :
  let w1 := sample_world upload_files true true "id-1" in
  let w3 := sample_world upload_files true true "id-3" in
  let w4 := sample_world upload_files true true "id-4" in
  let self1 := snd (analyze_against_archive w1 fresh_engine "temp_uploads/u1_bill.png") in
  claim_flags (fst (analyze_against_archive w4 self1 "temp_uploads/u4_other.png"))
    = ["Partial similarity with prior submission (37.5%)"] /\
  claim_flags (fst (analyze_against_archive w1 fresh_engine "temp_uploads/u5_blank.png")) = [] /\
  exists aname d,
    Report.matched_file (fst (analyze_against_archive w3 self1 "temp_uploads/u3_edit.png"))
      = Some aname /\
    Report.hamming_distance (fst (analyze_against_archive w3 self1 "temp_uploads/u3_edit.png"))
      = Some d /\
    claim_flags (fst (analyze_against_archive w3 self1 "temp_uploads/u3_edit.png")) =
      ["Document reuse detected — " +:+
         py_str_percent (Report.similarity_percent
            (fst (analyze_against_archive w3 self1 "temp_uploads/u3_edit.png")))
         +:+ "% similar to '" +:+ aname +:+ "'";
       "Hamming distance: " +:+ str_of_int d +:+ " (threshold ≤ 10 = duplicate)";
       "Classification: " +:+
         Report.classification (fst (analyze_against_archive w3 self1 "temp_uploads/u3_edit.png"))].
Proof.
  cbv zeta. split; [|split].
  - rewrite (proj2 (proj2 (proj2 (claim_flags_by_kind
               (sample_world upload_files true true "id-4")
               (snd (analyze_against_archive (sample_world upload_files true true "id-1")
                       fresh_engine "temp_uploads/u1_bill.png"))
               "temp_uploads/u4_other.png"))) "u1_bill.png");
      [vm_compute; reflexivity | vm_compute; reflexivity | vm_compute; reflexivity | discriminate].
  - apply (proj1 (proj2 (claim_flags_by_kind (sample_world upload_files true true "id-1")
                           fresh_engine "temp_uploads/u5_blank.png"))).
    vm_compute. reflexivity.
  - apply (proj1 (claim_flags_by_kind (sample_world upload_files true true "id-3")
             (snd (analyze_against_archive (sample_world upload_files true true "id-1")
                     fresh_engine "temp_uploads/u1_bill.png"))
             "temp_uploads/u3_edit.png")).
    vm_compute. reflexivity.
Defined.

(** * The audit narrative *)

(** X23. Where the audit summary comes from: without [GEMINI_API_KEY], or
    with an empty one, Gemini is not called and the summary is the
    template; with a key, the summary is whatever Gemini returned, and the
    template again when the call raised. *)
Theorem audit_summary_source (e : Audit.env) (hospital_id : string) (s : Audit.stats) :
  let offline :=
    Audit.generate_audit_summary (audit_env_with e None (Audit.generate_content e))
      hospital_id s in
  (forall g,
     Audit.generate_audit_summary (audit_env_with e None g) hospital_id s = offline /\
     Audit.generate_audit_summary (audit_env_with e (Some EmptyString) g) hospital_id s
       = offline) /\
  (forall key g text,
     key <> EmptyString -> (forall prompt, g prompt = Returned text) ->
     Audit.generate_audit_summary (audit_env_with e (Some key) g) hospital_id s = text) /\
  (forall key g,
     key <> EmptyString -> (forall prompt, exists msg, g prompt = Raised msg) ->
     Audit.generate_audit_summary (audit_env_with e (Some key) g) hospital_id s = offline).
Proof.
  cbv zeta. split; [|split].
  - intros g. split; reflexivity.
  - intros key g text Hkey Hg. unfold Audit.generate_audit_summary. simpl.
    destruct (String.eqb_spec key EmptyString); [contradiction|]. simpl.
    rewrite Hg. reflexivity.
  - intros key g Hkey Hg. unfold Audit.generate_audit_summary. simpl.
    destruct (String.eqb_spec key EmptyString); [contradiction|]. simpl.
    match goal with |- context [g ?p] => destruct (Hg p) as [msg ->] end. reflexivity.
Qed.

Lemma audit_summary_source_witness :
  let s := {| Audit.duplicate_count := Some 3; Audit.image_reuse_count := None;
              Audit.concurrent_count := Some 0; Audit.ghost_count := Some 2;
              Audit.avg_claim_deviation := Some (25 # 2); Audit.risk_category := Some "High";
              Audit.avg_risk_score := Some (inject_Z 71); Audit.state := Some "Bihar";
              Audit.total_claims := Some 120 |} in
  Audit.generate_audit_summary
    (audit_env_with (sample_audit_env None) (Some "key") (fun _ => Returned "Reviewed."))
    "HOSP_0042" s = "Reviewed." /\
  Audit.generate_audit_summary
    (audit_env_with (sample_audit_env None) (Some "key") (fun _ => Raised "quota exceeded"))
    "HOSP_0042" s =
  Audit.generate_audit_summary
    (audit_env_with (sample_audit_env None) None (Audit.generate_content (sample_audit_env None)))
    "HOSP_0042" s.
Proof.
  cbv zeta. destruct (audit_summary_source (sample_audit_env None) "HOSP_0042"
    {| Audit.duplicate_count := Some 3; Audit.image_reuse_count := None;
       Audit.concurrent_count := Some 0; Audit.ghost_count := Some 2;
       Audit.avg_claim_deviation := Some (25 # 2); Audit.risk_category := Some "High";
       Audit.avg_risk_score := Some (inject_Z 71); Audit.state := Some "Bihar";
       Audit.total_claims := Some 120 |}) as (_ & Hret & Hraise).
  split.
  - apply Hret; [discriminate | reflexivity].
  - apply Hraise; [discriminate|]. intros prompt. exists "quota exceeded". reflexivity.
Defined.

(** X24. The template's account of the fraud found. Missing counts are 0
    and counts of 0 or less are not mentioned. For every four counts the
    text lists those that are positive, each with its wording, comma
    separated and in the order duplicates, image reuse, concurrent claims,
    ghost beneficiaries; when none is positive it says "no specific fraud
    flags, though claim deviation warrants review". Missing state and risk
    category read "Unknown", missing totals 0. *)
Theorem audit_fallback_text (e : Audit.env) (hospital_id : string) (s : Audit.stats) :
  Audit.GEMINI_API_KEY e = None ->
  let a := default 0 (Audit.duplicate_count s) in
  let b := default 0 (Audit.image_reuse_count s) in
  let c := default 0 (Audit.concurrent_count s) in
  let d := default 0 (Audit.ghost_count s) in
  Audit.generate_audit_summary e hospital_id s =
    audit_fallback e hospital_id s
      (match audit_listed a b c d with
       | [] => "no specific fraud flags, though claim deviation warrants review"
       | listed => Audit.join_comma listed
       end) /\
  (a <= 0 -> b <= 0 -> c <= 0 -> d <= 0 ->
   Audit.generate_audit_summary e hospital_id s =
   audit_fallback e hospital_id s
     "no specific fraud flags, though claim deviation warrants review") /\
  (0 < a -> 0 < b -> 0 < c -> 0 < d ->
   Audit.generate_audit_summary e hospital_id s =
   audit_fallback e hospital_id s
     (Audit.join_comma [str_of_int a +:+ " duplicate billing instances";
                        str_of_int b +:+ " diagnostic image reuse cases";
                        str_of_int c +:+ " concurrent claim conflicts";
                        str_of_int d +:+ " ghost beneficiary flags"])) /\
  (0 < a -> b <= 0 -> c <= 0 -> 0 < d ->
   Audit.generate_audit_summary e hospital_id s =
   audit_fallback e hospital_id s
     (Audit.join_comma [str_of_int a +:+ " duplicate billing instances";
                        str_of_int d +:+ " ghost beneficiary flags"])) /\
  (a <= 0 -> b <= 0 -> 0 < c -> d <= 0 ->
   Audit.generate_audit_summary e hospital_id s =
   audit_fallback e hospital_id s (str_of_int c +:+ " concurrent claim conflicts")).
Proof.
  intros Hkey a b c d. unfold Audit.generate_audit_summary. rewrite Hkey. simpl.
  fold a b c d. unfold audit_fallback, Audit.fraud_types, audit_listed. split.
  - simpl. destruct (0 <? a), (0 <? b), (0 <? c), (0 <? d); reflexivity.
  - repeat split; intros Ha Hb Hc Hd;
      repeat match goal with
             | |- context [0 <? ?x] => destruct (Z.ltb_spec 0 x); try lia
             end; reflexivity.
Qed.

Lemma audit_listed_in_order (a b c d : Z) :
  0 < a -> 0 < b -> c <= 0 -> d <= 0 ->
  audit_listed a b c d = [str_of_int a +:+ " duplicate billing instances";
                          str_of_int b +:+ " diagnostic image reuse cases"].
Proof.
  intros Ha Hb Hc Hd. unfold audit_listed. simpl.
  destruct (Z.ltb_spec 0 a); [|lia]. destruct (Z.ltb_spec 0 b); [|lia].
  destruct (Z.ltb_spec 0 c); [lia|]. destruct (Z.ltb_spec 0 d); [lia|]. reflexivity.
Qed.

Lemma audit_fallback_text_witness :
  Audit.generate_audit_summary (sample_audit_env None) "HOSP_0042"
    {| Audit.duplicate_count := None; Audit.image_reuse_count := None;
       Audit.concurrent_count := None; Audit.ghost_count := Some (-1);
       Audit.avg_claim_deviation := None; Audit.risk_category := None;
       Audit.avg_risk_score := None; Audit.state := None; Audit.total_claims := None |}
  = "Audit Review for HOSP_0042 (Unknown): Analysis of 0 submitted PM-JAY claims reveals no specific fraud flags, though claim deviation warrants review. Average claim deviation from procedure baseline stands at 0.0%, with a composite risk score of 0.0/100 — classified as Unknown. This hospital is recommended for secondary audit and cross-referencing of patient records against the PMJAY central beneficiary database." /\
  Audit.generate_audit_summary (sample_audit_env None) "HOSP_0042"
    {| Audit.duplicate_count := Some 3; Audit.image_reuse_count := Some 2;
       Audit.concurrent_count := Some 0; Audit.ghost_count := None;
       Audit.avg_claim_deviation := None; Audit.risk_category := Some "High";
       Audit.avg_risk_score := None; Audit.state := Some "Bihar";
       Audit.total_claims := Some 120 |}
  = "Audit Review for HOSP_0042 (Bihar): Analysis of 120 submitted PM-JAY claims reveals 3 duplicate billing instances, 2 diagnostic image reuse cases. Average claim deviation from procedure baseline stands at 0.0%, with a composite risk score of 0.0/100 — classified as High. This hospital is recommended for secondary audit and cross-referencing of patient records against the PMJAY central beneficiary database.".
Proof.
  split.
  - rewrite (proj1 (proj2 (audit_fallback_text (sample_audit_env None) "HOSP_0042"
      {| Audit.duplicate_count := None; Audit.image_reuse_count := None;
         Audit.concurrent_count := None; Audit.ghost_count := Some (-1);
         Audit.avg_claim_deviation := None; Audit.risk_category := None;
         Audit.avg_risk_score := None; Audit.state := None; Audit.total_claims := None |}
      eq_refl))); simpl; try lia.
    vm_compute. reflexivity.
  - rewrite (proj1 (audit_fallback_text (sample_audit_env None) "HOSP_0042"
      {| Audit.duplicate_count := Some 3; Audit.image_reuse_count := Some 2;
         Audit.concurrent_count := Some 0; Audit.ghost_count := None;
         Audit.avg_claim_deviation := None; Audit.risk_category := Some "High";
         Audit.avg_risk_score := None; Audit.state := Some "Bihar";
         Audit.total_claims := Some 120 |} eq_refl)).
    vm_compute. reflexivity.
Defined.

(** * The claim records *)

(** X25. The composite risk of a claim record is clamped into 0..100, and
    its category and its suspicious flag are read off the same score: Low
    up to 30, Medium up to 60, High up to 80, Critical above; the record is
    suspicious exactly when its category is High or Critical. *)
Theorem risk_bands (base_risk : Q) :
  let score := clamp_risk base_risk in
  (0 <= score /\ score <= 100)%Q /\
  ((0 <= base_risk /\ base_risk <= 100)%Q -> score = base_risk) /\
  (risk_category_of score = "Low" <-> (score <= 30)%Q) /\
  (risk_category_of score = "Medium" <-> (30 < score /\ score <= 60)%Q) /\
  (risk_category_of score = "High" <-> (60 < score /\ score <= 80)%Q) /\
  (risk_category_of score = "Critical" <-> (80 < score)%Q) /\
  (is_suspicious_of score = 1 <->
   risk_category_of score = "High" \/ risk_category_of score = "Critical").
Proof.
  cbv zeta.
  assert (Hb : forall x y, Qle_bool x y = false -> (y < x)%Q).
  { intros x y H. apply Qnot_le_lt. intros Hle. apply Qle_bool_iff in Hle. congruence. }
  split; [|split].
  - unfold clamp_risk.
    destruct (Qle_bool (inject_Z 0) base_risk) eqn:E0.
    + apply Qle_bool_iff in E0.
      destruct (Qle_bool base_risk (inject_Z 100)) eqn:E1.
      * apply Qle_bool_iff in E1. split; assumption.
      * split; [|apply Qle_refl]. unfold inject_Z, Qle. simpl. lia.
    + simpl. split; [apply Qle_refl|]. unfold inject_Z, Qle. simpl. lia.
  - intros [H0 H100]. unfold clamp_risk.
    change (inject_Z 0) with 0%Q. change (inject_Z 100) with 100%Q.
    apply Qle_bool_iff in H0. rewrite H0. apply Qle_bool_iff in H100. rewrite H100.
    reflexivity.
  - generalize (clamp_risk base_risk). intros s.
    unfold risk_category_of, is_suspicious_of.
    destruct (Qle_bool s (inject_Z 30)) eqn:E30;
      destruct (Qle_bool s (inject_Z 60)) eqn:E60;
      destruct (Qle_bool s (inject_Z 80)) eqn:E80;
      try (apply Qle_bool_iff in E30); try (apply Qle_bool_iff in E60);
      try (apply Qle_bool_iff in E80);
      try (apply Hb in E30); try (apply Hb in E60); try (apply Hb in E80);
      change (inject_Z 30) with 30%Q in *; change (inject_Z 60) with 60%Q in *;
      change (inject_Z 80) with 80%Q in *;
      repeat split; intros; try discriminate; try lra; try reflexivity; auto;
      try (exfalso; lra);
      try (match goal with H : _ \/ _ |- _ => destruct H; discriminate end);
      try (match goal with H : _ /\ _ |- _ => destruct H; exfalso; lra end).
Qed.

Lemma risk_bands_witness :
  clamp_risk (125 # 2) = (125 # 2) /\ risk_category_of (clamp_risk (125 # 2)) = "High" /\
  is_suspicious_of (clamp_risk (125 # 2)) = 1.
Proof.
  destruct (risk_bands (125 # 2)) as (_ & Hid & _ & _ & Hhigh & _ & Hsus).
  split; [|split].
  - apply Hid. split; unfold Qle; simpl; lia.
  - apply Hhigh. split; [unfold Qlt | unfold Qle]; simpl; lia.
  - apply Hsus. left. apply Hhigh. split; [unfold Qlt | unfold Qle]; simpl; lia.
Defined.

(** * Fingerprints of imagehash.phash *)

Lemma filter_length_mono {A : Type} (P Q : A -> Prop)
    `{forall x, Decision (P x)} `{forall x, Decision (Q x)} (l : list A) :
  (forall x, P x -> Q x) -> (length (filter P l) <= length (filter Q l))%nat.
Proof.
  intros Himp. induction l as [|y l IH]; [simpl; lia|].
  rewrite !filter_cons.
  destruct (decide (P y)) as [Hp|Hp], (decide (Q y)) as [Hq|Hq]; simpl; try lia.
  exfalso. apply Hq, Himp, Hp.
Qed.

Lemma popcount64_clear_bit (x i : Z) :
  0 <= i < 64 -> Z.testbit x i = false -> popcount64 x <= 63.
Proof.
  intros Hi Hbit. unfold popcount64.
  pose proof (length_filter_lt (fun i => Is_true (Z.testbit x i)) (seqZ 0 hash_bits) i) as Hlt.
  rewrite length_seqZ in Hlt. unfold hash_bits in *.
  assert (length (filter (fun i => Is_true (Z.testbit x i)) (seqZ 0 64)) < Z.to_nat 64)%nat.
  { apply Hlt; [apply elem_of_seqZ; lia|]. cbv beta. rewrite Hbit. intros []. }
  lia.
Qed.

(** Two hashes of [imagehash.phash] are less than 64 bits apart. *)
Lemma phash_outputs_near (a b : Z) :
  phash_output a -> phash_output b -> _hamming a b < 64.
Proof.
  intros (_ & Ha & Hadc) (_ & Hb & Hbdc). rewrite hamming_popcount.
  destruct Hadc as [->|Hadc]; [rewrite Z.lxor_0_l; lia|].
  destruct Hbdc as [->|Hbdc]; [rewrite Z.lxor_0_r; lia|].
  assert (popcount64 (Z.lxor a b) <= 63); [|lia].
  apply (popcount64_clear_bit _ dc_bit); [unfold dc_bit; lia|].
  rewrite Z.lxor_spec, Hadc, Hbdc. reflexivity.
Qed.

Lemma wrap64_bit (y i : Z) : 0 <= i < 64 -> Z.testbit (wrap64 y) i = Z.testbit y i.
Proof.
  intros Hi. unfold wrap64, hash_bits.
  rewrite Z.land_spec, Z.ones_spec_low by lia. apply andb_true_r.
Qed.

Lemma sample_phash_output (img : Image) : phash_output (wrap64 (sample_phash img)).
Proof.
  split; [apply wrap64_range|]. split.
  - unfold popcount64.
    pose proof (filter_length_mono
      (fun i => Is_true (Z.testbit (wrap64 (sample_phash img)) i))
      (fun i => i = 63 \/ 0 <= i < 31) (seqZ 0 hash_bits)) as Hle.
    assert (Hq : length (filter (fun i => i = 63 \/ 0 <= i < 31) (seqZ 0 hash_bits)) = 32%nat)
      by (vm_compute; reflexivity).
    rewrite Hq in Hle.
    assert (length (filter (fun i => Is_true (Z.testbit (wrap64 (sample_phash img)) i))
                      (seqZ 0 hash_bits)) <= 32)%nat; [|lia].
    apply Hle. intros i Hi. apply Is_true_true in Hi.
    destruct (Z_lt_le_dec i 0) as [Hneg|Hnn].
    { rewrite Z.testbit_neg_r in Hi by lia. discriminate. }
    destruct (Z_lt_le_dec i 64) as [Hlt|Hge].
    + rewrite wrap64_bit in Hi by lia. unfold sample_phash in Hi.
      rewrite Z.lor_spec, Z.land_spec, Z.pow2_bits_eqb in Hi by lia.
      destruct (Z.eqb_spec 63 i) as [E|E]; [left; lia|].
      destruct (Z_lt_le_dec i 31) as [H31|H31]; [right; lia|].
      rewrite Z.ones_spec_high, andb_false_r in Hi by lia. discriminate.
    + pose proof (wrap64_range (sample_phash img)) as Hr.
      rewrite (hash64_high_bits _ i Hr Hge) in Hi. discriminate.
  - right. unfold dc_bit. rewrite wrap64_bit by lia. unfold sample_phash.
    rewrite Z.lor_spec, Z.pow2_bits_eqb by lia. reflexivity.
Qed.

Lemma phash_world_faithful (files : string -> option (string * option Z)) (id : string) :
  phash_faithful (phash_world files id).
Proof. intros img. apply sample_phash_output. Qed.

(** A call in a world of the library's [phash] keeps the archive one of
    [phash] fingerprints. *)
Lemma archive_of_phash_kept (w : World) (self : ImageForensicsEngine) (file_path : string) :
  phash_faithful w -> archive_of_phash self ->
  archive_of_phash (snd (analyze_against_archive w self file_path)).
Proof.
  intros Hw Hself. unfold archive_of_phash. rewrite analyze_phash_archive.
  destruct (renders w self file_path) as [img|]; [|exact Hself].
  apply (dict_set_Forall (fun v => phash_output (snd v))); [apply Hw | exact Hself].
Qed.

(** C2. With [imagehash.phash] as the library defines it, an engine's
    archive holds [phash] fingerprints only: it does at construction and
    every call keeps it so. On such an archive, when it is not empty, the
    finding of the pHash layer for a validated, rendered document reports
    as Hamming distance the least popcount of the XOR of the new
    fingerprint with an archived one, and as matched file the display name
    of an entry at that distance. *)
Theorem nearest_neighbour_reported :
  (forall threshold_arg poppler platform_poppler,
     archive_of_phash (__init__ threshold_arg poppler platform_poppler)) /\
  (forall (w : World) (self : ImageForensicsEngine) (file_path : string),
     phash_faithful w -> archive_of_phash self ->
     archive_of_phash (snd (analyze_against_archive w self file_path))) /\
  (forall (w : World) (self : ImageForensicsEngine) (file_path : string) (img : Image),
     phash_faithful w -> archive_of_phash self ->
     fst (_validate_file w file_path) = true ->
     _load_as_pil w self file_path = Some img ->
     _phash_archive self <> [] ->
     let h := _generate_phash w img in
     exists f m aid aname ahash,
       Report.layers_phash (fst (analyze_against_archive w self file_path)) = Some f /\
       Finding.hamming_distance f = Some m /\
       Finding.matched_file f = Some aname /\
       (aid, (aname, ahash)) ∈ _phash_archive self /\
       m = popcount64 (Z.lxor h ahash) /\
       (forall item, item ∈ _phash_archive self ->
          m <= popcount64 (Z.lxor h (snd (snd item))))).
Proof.
  split; [|split].
  - intros t p plat. constructor.
  - intros w self file_path. apply archive_of_phash_kept.
  - intros w self file_path img Hw Hself Hok Hload Hne h.
    destruct (minimum_distance_nonempty h (_phash_archive self) Hne) as (m & Hmin & _).
    pose proof (minimum_distance_lower h _ m Hmin) as Hlow.
    assert (Hlt : m < 64).
    { destruct (_phash_archive self) as [|item rest] eqn:E; [congruence|].
      assert (Hin : item ∈ item :: rest) by (apply elem_of_cons; left; reflexivity).
      specialize (Hlow item Hin). unfold archive_of_phash in Hself. rewrite E in Hself.
      inversion Hself as [|? ? Hitem _]; subst.
      pose proof (phash_outputs_near h (snd (snd item)) (Hw img) Hitem) as Hnear.
      unfold entry_distance in Hlow. lia. }
    destruct (phash_layer_nearest w self file_path img m Hok Hload Hmin Hlt)
      as (f & aid & aname & ahash & Hf & Hd & Hm & Hin & Hham).
    exists f, m, aid, aname, ahash. fold h in Hham.
    repeat split; try assumption.
    + rewrite <- Hham. apply hamming_popcount.
    + intros item Hitem. rewrite <- hamming_popcount. apply (Hlow item Hitem).
Qed.

Lemma nearest_neighbour_reported_witness :
  let w1 := phash_world sample_files "id-1" in
  let w2 := phash_world sample_files "id-2" in
  let w3 := phash_world sample_files "id-3" in
  let self1 := snd (analyze_against_archive w1 fresh_engine "in/c.png") in
  let self2 := snd (analyze_against_archive w2 self1 "in/a.png") in
  exists f m aid aname ahash,
    Report.layers_phash (fst (analyze_against_archive w3 self2 "in/d.PDF")) = Some f /\
    Finding.hamming_distance f = Some m /\
    Finding.matched_file f = Some aname /\
    (aid, (aname, ahash)) ∈ _phash_archive self2 /\
    m = popcount64 (Z.lxor (_generate_phash w3 (sample_image 5)) ahash) /\
    (forall item, item ∈ _phash_archive self2 ->
       m <= popcount64 (Z.lxor (_generate_phash w3 (sample_image 5)) (snd (snd item)))).
Proof.
  cbv zeta. destruct nearest_neighbour_reported as (Hinit & Hkeep & Hnearest).
  apply (Hnearest (phash_world sample_files "id-3")
           (snd (analyze_against_archive (phash_world sample_files "id-2")
                   (snd (analyze_against_archive (phash_world sample_files "id-1")
                           fresh_engine "in/c.png")) "in/a.png"))
           "in/d.PDF" (sample_image 5)).
  - apply phash_world_faithful.
  - apply Hkeep; [apply phash_world_faithful|].
    apply Hkeep; [apply phash_world_faithful|]. apply (Hinit None None None).
  - vm_compute. reflexivity.
  - vm_compute. reflexivity.
  - vm_compute. discriminate.
Defined.

Example nearest_neighbour_sample :
  let w1 := phash_world sample_files "id-1" in
  let w2 := phash_world sample_files "id-2" in
  let w3 := phash_world sample_files "id-3" in
  let self1 := snd (analyze_against_archive w1 fresh_engine "in/c.png") in
  let self2 := snd (analyze_against_archive w2 self1 "in/a.png") in
  map (fun item => _hamming (_generate_phash w3 (sample_image 5)) (snd (snd item)))
      (_phash_archive self2) = [29; 2] /\
  Report.layers_phash (fst (analyze_against_archive w3 self2 "in/d.PDF"))
    = Some (match_finding fresh_engine "a.png" 2).
Proof. vm_compute. split; reflexivity. Qed.

(** * The archive under a repeated id *)

(** C8 as stated fails when [uuid4] returns an id that is already a key:
    of two rendered submissions the second takes the place of the first,
    whose entry is gone, and the archive size is 1 after both. *)
Lemma repeated_id_counterexample :
  let calls := [(phash_world sample_files "id-1", "in/a.png");
                (phash_world sample_files "id-1", "in/d.PDF")] in
  let self1 := snd (analyze_against_archive (phash_world sample_files "id-1")
                      fresh_engine "in/a.png") in
  rendered_count fresh_engine calls = 2%nat /\
  _phash_archive self1 = [("id-1", ("a.png", 9223372036854775808))] /\
  _phash_archive (snd (run fresh_engine calls)) = [("id-1", ("d.PDF", 9223372036854775813))] /\
  map Report.archive_size (fst (run fresh_engine calls)) = [1; 1] /\
  ~ (Z.of_nat (length (_phash_archive (snd (run fresh_engine calls))))
     = Z.of_nat (rendered_count fresh_engine calls)) /\
  ~ (("id-1", ("a.png", 9223372036854775808)) ∈ _phash_archive (snd (run fresh_engine calls))).
Proof.
  cbv zeta.
  assert (Harch : _phash_archive (snd (run fresh_engine
             [(phash_world sample_files "id-1", "in/a.png");
              (phash_world sample_files "id-1", "in/d.PDF")]))
           = [("id-1", ("d.PDF", 9223372036854775813))]) by (vm_compute; reflexivity).
  rewrite Harch.
  split; [vm_compute; reflexivity|]. split; [vm_compute; reflexivity|].
  split; [reflexivity|]. split; [vm_compute; reflexivity|]. split.
  - vm_compute. discriminate.
  - intros Hin. apply elem_of_cons in Hin as [Heq|Hin]; [discriminate | inversion Hin].
Qed.
